(** * Worksheet REST helpers of codalab-cli: a shallow embedding

    The functions of [codalab/rest/worksheets.py] are embedded as
    computations in a state-and-exception monad over [Model], the state that
    the handlers reach through [local.model].  The request context
    ([request.user], the wall clock read by [datetime.datetime.now()]) is an
    explicit [Request] argument.

    Code that the handlers import from other modules of the repository
    (the model, the permission checks, [spec_util], [canonicalize],
    [worksheet_util], [formatting]) is either modelled from the specification
    (marked as such) or taken as a parameter through the class
    [Collaborators]. *)

From Stdlib Require Import ZArith Lia.
From stdpp Require Import base option list gmap strings pretty.

(** ** Exceptions *)

(** The exception classes raised and caught by the handlers.  The message is
    kept with the exception. *)
Inductive exn : Type :=
| UsageError (msg : string)
| NotFoundError (msg : string)
| PermissionError (msg : string)
| AttributeError (msg : string)
| KeyError (msg : string).

(** Modelled from the spec: the class hierarchy of [codalab.common], whose
    code is in another module.  The store's [get] fails with NotFound, and
    [convert_items_from_db] catches that failure with [except UsageError]:
    [NotFoundError] is a [UsageError].  [PermissionError], the other
    user-facing failure, is taken to be one as well; no handler in this file
    has it raised inside a [try].  [AttributeError] and [KeyError] are
    Python built-ins. *)
Definition isinstance_UsageError (e : exn) : bool :=
  match e with
  | UsageError _ | NotFoundError _ | PermissionError _ => true
  | AttributeError _ | KeyError _ => false
  end.

Definition isinstance_NotFoundError (e : exn) : bool :=
  match e with
  | NotFoundError _ => true
  | _ => false
  end.

Inductive Res (A : Type) : Type :=
| Ok (a : A)
| Raise (e : exn).
Arguments Ok {A} a.
Arguments Raise {A} e.

(** ** Data model *)

(** Permission levels, [codalab.model.tables]: None < Read < All. *)
Inductive Permission : Type :=
| GROUP_OBJECT_PERMISSION_NONE
| GROUP_OBJECT_PERMISSION_READ
| GROUP_OBJECT_PERMISSION_ALL.

Definition perm_rank (p : Permission) : nat :=
  match p with
  | GROUP_OBJECT_PERMISSION_NONE => 0
  | GROUP_OBJECT_PERMISSION_READ => 1
  | GROUP_OBJECT_PERMISSION_ALL => 2
  end.

Definition perm_leb (p q : Permission) : bool := Nat.leb (perm_rank p) (perm_rank q).

Definition perm_max (p q : Permission) : Permission :=
  if perm_leb p q then q else p.

#[global] Instance Permission_eq_dec : EqDecision Permission.
Proof. solve_decision. Defined.

(** Item types, [worksheet_util.TYPE_*]. *)
Inductive ItemType : Type :=
| TYPE_MARKUP
| TYPE_DIRECTIVE
| TYPE_BUNDLE
| TYPE_WORKSHEET.

#[global] Instance ItemType_eq_dec : EqDecision ItemType.
Proof. solve_decision. Defined.

(** A stored item: the tuple [(bundle_uuid, subworksheet_uuid, value, type)],
    also the dict with those keys that [to_dict] produces. *)
Record Item : Type := mkItem {
  bundle_uuid : option string;
  subworksheet_uuid : option string;
  value : string;
  type : ItemType
}.

(** A rendered info dict (bundle info, legacy worksheet info). *)
Abbreviation info := (gmap string string).

(** The value of a legacy item: tokens for a directive, raw text otherwise. *)
Inductive ValueObj : Type :=
| Tokens (ts : list string)
| RawValue (v : string).

(** A legacy item: [(bundle_info, subworksheet_info, value_obj, type)]. *)
Record InfoItem : Type := mkInfoItem {
  bundle_info : option info;
  subworksheet_info : option info;
  value_obj : ValueObj;
  info_type : ItemType
}.

(** A posted worksheet item, as loaded by [WorksheetItemSchema]. *)
Record PostedItem : Type := mkPostedItem {
  worksheet_uuid : string;
  posted_bundle_uuid : option string;
  posted_subworksheet_uuid : option string;
  posted_value : string;
  posted_type : ItemType
}.

(** [Worksheet.Item.as_tuple]. *)
Definition as_tuple (i : PostedItem) : Item :=
  mkItem (posted_bundle_uuid i) (posted_subworksheet_uuid i)
         (posted_value i) (posted_type i).

Record User : Type := mkUser {
  user_id : string;
  user_name : string;
  is_authenticated : bool
}.

(** A worksheet object.  [frozen] is the optional freeze timestamp;
    [last_item_id] together with the length of [items] is the version
    token. *)
Record Worksheet : Type := mkWorksheet {
  uuid : string;
  name : string;
  owner_id : string;
  title : option string;
  tags : list string;
  frozen : option Z;
  items : list Item;
  last_item_id : Z
}.

Definition set_items (its : list Item) (lid : Z) (w : Worksheet) : Worksheet :=
  mkWorksheet (uuid w) (name w) (owner_id w) (title w) (tags w) (frozen w)
              its lid.

(** The [metadata] dict assembled by [update_worksheet_metadata]: a key that
    is absent from the dict is [None] here. *)
Record Metadata : Type := mkMetadata {
  md_owner_id : option string;
  md_name : option string;
  md_title : option (option string);
  md_tags : option (list string);
  md_frozen : option Z
}.

Definition empty_metadata : Metadata := mkMetadata None None None None None.

Definition apply_metadata (md : Metadata) (w : Worksheet) : Worksheet :=
  mkWorksheet (uuid w)
              (default (name w) (md_name md))
              (default (owner_id w) (md_owner_id md))
              (default (title w) (md_title md))
              (default (tags w) (md_tags md))
              (match md_frozen md with Some t => Some t | None => frozen w end)
              (items w) (last_item_id w).

(** The state behind [local.model]: the worksheet store, the per-worksheet
    group permissions (worksheet uuid, then group uuid), the bundle
    directory, the user directory and group memberships. *)
Record Model : Type := mkModel {
  worksheets : gmap string Worksheet;
  group_permissions : gmap string (gmap string Permission);
  bundles : gmap string info;
  users : list User;
  group_members : gmap string (list string);
  public_group_uuid : string;
  next_item_id : Z;
  uuid_seed : N
}.

Definition set_worksheets (ws : gmap string Worksheet) (m : Model) : Model :=
  mkModel ws (group_permissions m) (bundles m) (users m) (group_members m) (public_group_uuid m)
          (next_item_id m) (uuid_seed m).

Definition set_acl (g : gmap string (gmap string Permission)) (m : Model)
  : Model :=
  mkModel (worksheets m) g (bundles m) (users m) (group_members m)
          (public_group_uuid m) (next_item_id m) (uuid_seed m).

Definition set_next_item_id (n : Z) (m : Model) : Model :=
  mkModel (worksheets m) (group_permissions m) (bundles m) (users m) (group_members m)
          (public_group_uuid m) n (uuid_seed m).

Definition set_uuid_seed (n : N) (m : Model) : Model :=
  mkModel (worksheets m) (group_permissions m) (bundles m) (users m) (group_members m)
          (public_group_uuid m) (next_item_id m) n.

(** The request context: [request.user] ([None] when no identity is attached
    to the request) and the reading of the clock. *)
Record Request : Type := mkRequest {
  user : option User;
  now : Z
}.

(** ** The monad of handlers *)

Definition M (A : Type) : Type := Model -> Res A * Model.

Definition ret {A} (a : A) : M A := fun m => (Ok a, m).

Definition raise {A} (e : exn) : M A := fun m => (Raise e, m).

Definition bind {A B} (c : M A) (k : A -> M B) : M B :=
  fun m =>
    match c m with
    | (Ok a, m') => k a m'
    | (Raise e, m') => (Raise e, m')
    end.

(** [try: body except cls: handler]. *)
Definition try_except {A} (body : M A) (cls : exn -> bool)
    (handler : exn -> M A) : M A :=
  fun m =>
    match body m with
    | (Ok a, m') => (Ok a, m')
    | (Raise e, m') => if cls e then handler e m' else (Raise e, m')
    end.

Definition lift {A} (r : Res A) : M A := fun m => (r, m).

Definition get_model : M Model := fun m => (Ok m, m).

Declare Scope handler_scope.
Delimit Scope handler_scope with handler.
Notation "x <- c ;; k" := (bind c (fun x => k))
  (at level 100, c at next level, right associativity) : handler_scope.
Notation "c ;;; k" := (bind c (fun _ => k))
  (at level 100, right associativity) : handler_scope.
Open Scope handler_scope.

(** A [for] loop whose body may raise. *)
Fixpoint for_each {A} (l : list A) (body : A -> M unit) : M unit :=
  match l with
  | [] => ret tt
  | x :: l' => body x ;;; for_each l' body
  end.

(** A list comprehension whose element expression may raise. *)
Fixpoint map_M {A B} (f : A -> M B) (l : list A) : M (list B) :=
  match l with
  | [] => ret []
  | x :: l' => y <- f x ;; ys <- map_M f l' ;; ret (y :: ys)
  end.

(** Attribute access on [request.user]: [None] has no attributes. *)
Definition user_attr {A} (req : Request) (attr : string) (f : User -> A) : M A :=
  match user req with
  | Some u => ret (f u)
  | None =>
      raise (AttributeError ("'NoneType' object has no attribute '" +:+ attr +:+ "'"))
  end.

(** ** Collaborators taken as parameters

    Helpers of the repository that the handlers call and whose code is in
    other modules: [spec_util], [canonicalize], [worksheet_util],
    [formatting], the string form of a worksheet object, the uuid generator
    and the worksheet templates on disk. *)
Class Collaborators : Type := {
  (** [canonicalize.HOME_WORKSHEET] *)
  HOME_WORKSHEET : string;
  (** [spec_util.home_worksheet(user_name)] *)
  home_worksheet : string -> string;
  (** [spec_util.is_home_worksheet(name)] *)
  is_home_worksheet : string -> bool;
  (** [spec_util.is_dashboard(name)] *)
  is_dashboard : string -> bool;
  (** [spec_util.is_public_home(name)] *)
  is_public_home : string -> bool;
  (** [spec_util.generate_uuid()], drawn from the seed kept in the model *)
  generate_uuid : N -> string;
  (** [canonicalize.get_worksheet_uuid(model, user, base_worksheet_uuid,
      worksheet_spec)]: a read-only resolution. *)
  get_worksheet_uuid : Model -> option User -> option string -> string -> Res string;
  (** [worksheet_util.convert_item_to_db(item)] *)
  convert_item_to_db : InfoItem -> Res Item;
  (** [worksheet_util.parse_worksheet_form(lines, model, user, uuid)]:
      the items and the commands. *)
  parse_worksheet_form :
    list string -> Model -> option User -> string -> Res (list InfoItem * list string);
  (** the lines of [../objects/<name>.ws], right-stripped *)
  ws_template_lines : string -> list string;
  (** [formatting.string_to_tokens(value)] *)
  string_to_tokens : string -> list string;
  (** ['%s' % (worksheet,)] *)
  Worksheet_str : Worksheet -> string;
  (** [worksheet.to_dict(legacy=True)], the rendered info dict *)
  to_dict_legacy : Worksheet -> info
}.

(** ** The order of a dict

    A dict that a handler fills is kept as an association list in order of
    first insertion.  The order in which [iteritems()] then visits its
    entries is not the order of insertion: the interpreter fixes it by the
    hashes of the keys.  It is taken as a parameter, of which only this is
    known: every entry is visited once. *)
Class DictOrder : Type := {
  iteritems : forall A : Type, list (string * A) -> list (string * A);
  iteritems_Permutation : forall (A : Type) (d : list (string * A)), iteritems A d ≡ₚ d
}.
Arguments iteritems {_ _} _.

(** ** The model ([local.model]) *)

Module model.

(** Modelled from the spec: [get(id, withItems bool) -> Worksheet |
    NotFound] of the Worksheet Store.  Without [fetch_items] the object
    carries no items. *)
Definition get_worksheet (uuid : string) (fetch_items : bool) : M Worksheet :=
  fun m =>
    match worksheets m !! uuid with
    | Some w =>
        (Ok (if fetch_items then w else set_items [] (last_item_id w) w), m)
    | None => (Raise (NotFoundError ("No worksheet with uuid " +:+ uuid)), m)
    end.

(** Modelled from the spec: [batchGet(ids)], the existing worksheets among
    [ids]. *)
Definition batch_get_worksheets (fetch_items : bool) (uuids : gset string)
  : M (list Worksheet) :=
  fun m =>
    (Ok ((fun w => if fetch_items then w else set_items [] (last_item_id w) w)
           <$> (map_to_list (filter (fun kv => kv.1 ∈ uuids) (worksheets m))).*2),
     m).

Definition name_taken (m : Model) (n : string) : bool :=
  existsb (fun kv => String.eqb (name kv.2) n) (map_to_list (worksheets m)).

(** Modelled from the spec: [create(worksheet) -> id], which fails if the
    name is already taken (the store's own, authoritative check). *)
Definition new_worksheet (w : Worksheet) : M unit :=
  fun m =>
    if name_taken m (name w)
    then (Raise (UsageError ("Worksheet with name " +:+ name w +:+ " already exists")), m)
    else (Ok tt, set_worksheets (<[uuid w := w]> (worksheets m)) m).

(** Modelled from the spec: [replaceItems(id, expectedLastItemId,
    expectedLength, newItems) -> ok | VersionConflict].  Atomic: on a match
    the items are replaced wholesale and the version token advances; on a
    mismatch nothing changes and the conflict is reported (as a
    [UsageError], the class the caller catches). *)
Definition update_worksheet_items (worksheet_uuid : string) (expected_last_item_id : Z)
    (expected_length : nat) (new_items : list Item) : M unit :=
  fun m =>
    match worksheets m !! worksheet_uuid with
    | Some w =>
        if bool_decide (last_item_id w = expected_last_item_id)
           && bool_decide (length (items w) = expected_length)
        then (Ok tt,
              set_next_item_id (next_item_id m + 1)
                (set_worksheets
                   (<[worksheet_uuid := set_items new_items (next_item_id m) w]>
                      (worksheets m)) m))
        else (Raise (UsageError ("Worksheet " +:+ worksheet_uuid +:+ " was updated concurrently!")), m)
    | None =>
        (Raise (UsageError ("Worksheet " +:+ worksheet_uuid +:+ " was updated concurrently!")), m)
    end.

(** Modelled from the spec: [appendItem(id, item) -> ok], an atomic
    single-item append that advances the version token by itself. *)
Definition add_worksheet_item (worksheet_uuid : string) (item : Item) : M unit :=
  fun m =>
    (Ok tt,
     set_next_item_id (next_item_id m + 1)
       (set_worksheets
          (alter (fun w => set_items (items w ++ [item]) (next_item_id m) w)
                 worksheet_uuid (worksheets m)) m)).

(** Modelled from the spec: [updateMetadata(id, fields)], a keyed
    mutation of the given fields. *)
Definition update_worksheet_metadata (worksheet : Worksheet) (metadata : Metadata)
  : M unit :=
  fun m =>
    (Ok tt,
     set_worksheets (alter (apply_metadata metadata) (uuid worksheet) (worksheets m)) m).

(** Modelled from the spec: [delete(id)]. *)
Definition delete_worksheet (uuid : string) : M unit :=
  fun m =>
    (Ok tt,
     set_acl (delete uuid (group_permissions m))
             (set_worksheets (delete uuid (worksheets m)) m)).

(** Modelled from the spec: [setGroupPermission(groupId, worksheetId,
    level)]. *)
Definition set_group_worksheet_permission (group_uuid worksheet_uuid : string)
    (permission : Permission) : M unit :=
  fun m =>
    (Ok tt,
     set_acl (<[worksheet_uuid :=
                  <[group_uuid := permission]>
                    (default ∅ (group_permissions m !! worksheet_uuid))]>
                (group_permissions m)) m).

(** Modelled from the spec: membership of a user in a group; the
    distinguished public group holds every user, anonymous ones too. *)
Definition in_group (m : Model) (uid : option string) (g : string) : bool :=
  bool_decide (g = public_group_uuid m)
  || match uid with
     | Some i => bool_decide (i ∈ default [] (group_members m !! g))
     | None => false
     end.

(** Modelled from the spec: [permissionLevel(user, worksheet)] of the
    Permission Oracle.  The owner always gets All; otherwise the maximum
    level over the groups the user belongs to that have an entry on the
    worksheet. *)
Definition permission_level (m : Model) (uid : option string)
    (worksheet_uuid owner : string) : Permission :=
  if bool_decide (uid = Some owner) then GROUP_OBJECT_PERMISSION_ALL
  else
    foldr perm_max GROUP_OBJECT_PERMISSION_NONE
      ((filter (fun gp => in_group m uid gp.1)
          (map_to_list (default ∅ (group_permissions m !! worksheet_uuid)))).*2).

(** Modelled from the spec: [getGroupPermissions]. *)
Definition get_group_worksheet_permissions (uid worksheet_uuid : string)
  : M (list (string * Permission)) :=
  fun m =>
    (Ok (map_to_list (default ∅ (group_permissions m !! worksheet_uuid))), m).

(** Modelled from the spec: [getUserPermissions(userId, ids)], read at the
    one worksheet the handlers ask for. *)
Definition get_user_worksheet_permissions (uid worksheet_uuid owner : string)
  : M Permission :=
  fun m => (Ok (permission_level m (Some uid) worksheet_uuid owner), m).

(** Modelled from the spec: [getUser(id)] of the user directory. *)
Definition get_user (uid : string) : M User :=
  fun m =>
    match List.find (fun u => String.eqb (user_id u) uid) (users m) with
    | Some u => (Ok u, m)
    | None => (Raise (NotFoundError ("No user with id " +:+ uid)), m)
    end.

(** Modelled from the spec: [getUsers(ids)]. *)
Definition get_users (uids : gset string) : M (list User) :=
  fun m => (Ok (filter (fun u => user_id u ∈ uids) (users m)), m).

(** Modelled from the spec: [findUserByName(name)]. *)
Definition find_user (spec : string) : M User :=
  fun m =>
    match List.find (fun u => String.eqb (user_name u) spec) (users m) with
    | Some u => (Ok u, m)
    | None => (Raise (NotFoundError ("User matching " +:+ spec +:+ " not found")), m)
    end.

(** Modelled from the spec: [batchGetBundleInfo(ids) -> mapping id ->
    info] of the bundle directory ([get_bundle_infos] of [rest.util]):
    the infos of the bundles that exist among [ids]. *)
Definition get_bundle_infos (uuids : gset string) : M (gmap string info) :=
  fun m => (Ok (filter (fun kv => kv.1 ∈ uuids) (bundles m)), m).

End model.

(** ** Permission and frozen gates *)

Definition uid_of (u : option User) : option string := user_id <$> u.

(** The level of [u] on [worksheet] is at least [p]. *)
Definition holds (p : Permission) (m : Model) (u : option User)
    (worksheet : Worksheet) : bool :=
  perm_leb p
    (model.permission_level m (uid_of u) (uuid worksheet) (owner_id worksheet)).

(** Modelled from the spec: [requireRead], a gate that fails with
    PermissionDenied when the computed level is insufficient. *)
Definition check_worksheet_has_read_permission (u : option User) (worksheet : Worksheet)
  : M unit :=
  fun m =>
    if holds GROUP_OBJECT_PERMISSION_READ m u worksheet
    then (Ok tt, m)
    else (Raise (PermissionError ("You do not have read permission on " +:+ uuid worksheet)), m).

(** Modelled from the spec: [requireAll]. *)
Definition check_worksheet_has_all_permission (u : option User) (worksheet : Worksheet)
  : M unit :=
  fun m =>
    if holds GROUP_OBJECT_PERMISSION_ALL m u worksheet
    then (Ok tt, m)
    else (Raise (PermissionError ("You do not have all permission on " +:+ uuid worksheet)), m).

(** Modelled from the spec: [requireNotFrozen]
    ([worksheet_util.check_worksheet_not_frozen]), a precondition failure
    when the freeze timestamp is set. *)
Definition check_worksheet_not_frozen (worksheet : Worksheet) : M unit :=
  match frozen worksheet with
  | Some _ =>
      raise (UsageError ("Cannot modify frozen worksheet " +:+ uuid worksheet))
  | None => ret tt
  end.

(** The worksheet object that [get_worksheet] builds without its items. *)
Definition without_items (w : Worksheet) : Worksheet :=
  set_items [] (last_item_id w) w.

(** ** The handlers of [codalab/rest/worksheets.py] *)

(** The dict returned by [get_worksheet_info].  Its items are stored items,
    or legacy items when [legacy] is set; the keys that are added only on
    some paths are optional. *)
Record WorksheetInfo (I : Type) : Type := mkWorksheetInfo {
  wi_uuid : string;
  wi_name : string;
  wi_owner_id : string;
  wi_title : option string;
  wi_tags : list string;
  wi_frozen : option Z;
  wi_items : list I;
  wi_last_item_id : Z;
  wi_owner_name : option string;
  wi_group_permissions : option (list (string * Permission));
  wi_permission : option Permission
}.
Arguments mkWorksheetInfo {I}.
Arguments wi_uuid {I}.
Arguments wi_name {I}.
Arguments wi_owner_id {I}.
Arguments wi_title {I}.
Arguments wi_tags {I}.
Arguments wi_frozen {I}.
Arguments wi_items {I}.
Arguments wi_last_item_id {I}.
Arguments wi_owner_name {I}.
Arguments wi_group_permissions {I}.
Arguments wi_permission {I}.

Definition items_type (legacy : bool) : Type := if legacy then InfoItem else Item.

(** [worksheet.to_dict()] with the given items. *)
Definition to_dict {I} (w : Worksheet) (its : list I) : WorksheetInfo I :=
  mkWorksheetInfo (uuid w) (name w) (owner_id w) (title w) (tags w) (frozen w)
                  its (last_item_id w) None None None.

Definition with_owner_name {I} (n : string) (r : WorksheetInfo I) : WorksheetInfo I :=
  mkWorksheetInfo (wi_uuid r) (wi_name r) (wi_owner_id r) (wi_title r) (wi_tags r)
                  (wi_frozen r) (wi_items r) (wi_last_item_id r) (Some n)
                  (wi_group_permissions r) (wi_permission r).

Definition with_permissions {I} (g : list (string * Permission)) (p : Permission)
    (r : WorksheetInfo I) : WorksheetInfo I :=
  mkWorksheetInfo (wi_uuid r) (wi_name r) (wi_owner_id r) (wi_title r) (wi_tags r)
                  (wi_frozen r) (wi_items r) (wi_last_item_id r) (wi_owner_name r)
                  (Some g) (Some p).

(** The [new_items] argument of [update_worksheet_items] together with its
    [convert_items] flag: legacy items to convert ([convert_items=True]) or
    stored tuples ([convert_items=False]). *)
Inductive NewItems : Type :=
| ConvertItems (new_items : list InfoItem)
| StoredItems (new_items : list Item).

(** An entry [key, value] of the [info] dict of [update_worksheet_metadata].
    The value of ['frozen'] is a timestamp or [None]; a timestamp is
    truthy. *)
Inductive InfoEntry : Type :=
| key_owner_id (v : string)
| key_owner_spec (v : string)
| key_name (v : string)
| key_title (v : option string)
| key_tags (v : list string)
| key_freeze (v : bool)
| key_frozen (v : option Z)
| key_other (key : string) (v : string).

(** The JSON API document built by [fetch_worksheet]: the primary data and
    what each [json_api_include] call adds. *)
Record Document : Type := mkDocument {
  data : WorksheetInfo Item;
  included_items : list Item;
  included_bundles : list info;
  included_users : list User;
  included_worksheets : list Worksheet;
  included_permissions : list (string * Permission)
}.

(** Truthiness of an optional uuid: [None] and the empty string are falsy. *)
Definition truthy (o : option string) : bool :=
  match o with
  | Some s => negb (String.eqb s "")
  | None => false
  end.

Section Handlers.
Context `{Collaborators} `{DictOrder}.

Definition resolve (u : option User) (base_worksheet_uuid : option string)
    (worksheet_spec : string) : M string :=
  fun m => (get_worksheet_uuid m u base_worksheet_uuid worksheet_spec, m).

Definition convert_items_from_db (items : list Item) : M (list InfoItem) :=
  let bundle_uuids : gset string := list_to_set (omap bundle_uuid items) in
  bundle_dict <- model.get_bundle_infos bundle_uuids ;;
  map_M
    (fun it =>
       let bundle_info :=
         match bundle_uuid it with
         | Some b =>
             if truthy (Some b)
             then Some (default {["uuid" := b]} (bundle_dict !! b))
             else None
         | None => None
         end in
       subworksheet_info <-
         match subworksheet_uuid it with
         | Some s =>
             if truthy (Some s)
             then try_except
                    (w <- model.get_worksheet s false ;;
                     ret (Some (to_dict_legacy w)))
                    isinstance_UsageError
                    (fun _ => ret (Some {["uuid" := s]}))
             else ret None
         | None => ret None
         end ;;
       let value_obj :=
         if decide (type it = TYPE_DIRECTIVE)
         then Tokens (string_to_tokens (value it))
         else RawValue (value it) in
       ret (mkInfoItem bundle_info subworksheet_info value_obj (type it)))
    items.

Definition get_worksheet_info (req : Request) (wuuid : string)
    (fetch_items fetch_permission legacy : bool)
  : M (WorksheetInfo (items_type legacy)) :=
  worksheet <- model.get_worksheet wuuid fetch_items ;;
  check_worksheet_has_read_permission (user req) worksheet ;;;
  result <-
    match legacy return M (WorksheetInfo (items_type legacy)) with
    | true =>
        its <- (if fetch_items then convert_items_from_db (items worksheet)
                else ret []) ;;
        owner <- model.get_user (owner_id worksheet) ;;
        ret (with_owner_name (user_name owner) (to_dict worksheet its))
    | false => ret (to_dict worksheet (items worksheet))
    end ;;
  if fetch_permission then
    uid <- user_attr req "user_id" user_id ;;
    gp <- model.get_group_worksheet_permissions uid (uuid worksheet) ;;
    uid' <- user_attr req "user_id" user_id ;;
    p <- model.get_user_worksheet_permissions uid' (uuid worksheet)
           (owner_id worksheet) ;;
    ret (with_permissions gp p result)
  else ret result.

Definition fetch_worksheet (req : Request) (wuuid : string) : M Document :=
  worksheet <- get_worksheet_info req wuuid true true false ;;
  let bundle_uuids : gset string :=
    list_to_set
      (omap (fun item =>
               if decide (type item = TYPE_BUNDLE) then bundle_uuid item else None)
            (wi_items worksheet)) in
  bundle_dict <- model.get_bundle_infos bundle_uuids ;;
  let bundle_infos := (map_to_list bundle_dict).*2 in
  owner_ids <-
    map_M (fun b : info =>
             match b !! "owner_id" with
             | Some o => ret o
             | None => raise (KeyError "owner_id")
             end) bundle_infos ;;
  let user_ids : gset string := list_to_set owner_ids ∪ {[wi_owner_id worksheet]} in
  users <- model.get_users user_ids ;;
  let subworksheet_uuids : gset string :=
    list_to_set
      (omap (fun item =>
               if decide (type item = TYPE_WORKSHEET) then subworksheet_uuid item
               else None)
            (wi_items worksheet)) in
  subworksheets <- model.batch_get_worksheets false subworksheet_uuids ;;
  gp <- match wi_group_permissions worksheet with
        | Some gp => ret gp
        | None => raise (KeyError "group_permissions")
        end ;;
  ret (mkDocument worksheet (wi_items worksheet) bundle_infos users subworksheets gp).

Definition update_worksheet_items {I} (req : Request) (worksheet_info : WorksheetInfo I)
    (new_items : NewItems) : M unit :=
  let worksheet_uuid := wi_uuid worksheet_info in
  let last_item_id := wi_last_item_id worksheet_info in
  let length := length (wi_items worksheet_info) in
  worksheet <- model.get_worksheet worksheet_uuid false ;;
  check_worksheet_has_all_permission (user req) worksheet ;;;
  check_worksheet_not_frozen worksheet ;;;
  try_except
    (new_items' <-
       match new_items with
       | ConvertItems l => map_M (fun item => lift (convert_item_to_db item)) l
       | StoredItems l => ret l
       end ;;
     model.update_worksheet_items worksheet_uuid last_item_id length new_items')
    isinstance_UsageError
    (fun _ =>
       raise (UsageError (Worksheet_str worksheet +:+ " was updated concurrently!"))).

Definition ensure_unused_worksheet_name (req : Request) (name : string) : M unit :=
  (if is_home_worksheet name then
     un <- user_attr req "user_name" user_name ;;
     if bool_decide (home_worksheet un <> name)
     then raise (UsageError ("Cannot create " +:+ name +:+
                   " because this is potentially the home worksheet of another user"))
     else ret tt
   else ret tt) ;;;
  try_except
    (_ <- resolve (user req) None name ;;
     raise (UsageError ("Worksheet with name " +:+ name +:+ " already exists")))
    isinstance_NotFoundError
    (fun _ => ret tt).

Definition with_owner_id (v : string) (md : Metadata) : Metadata :=
  mkMetadata (Some v) (md_name md) (md_title md) (md_tags md) (md_frozen md).
Definition with_name (v : string) (md : Metadata) : Metadata :=
  mkMetadata (md_owner_id md) (Some v) (md_title md) (md_tags md) (md_frozen md).
Definition with_title (v : option string) (md : Metadata) : Metadata :=
  mkMetadata (md_owner_id md) (md_name md) (Some v) (md_tags md) (md_frozen md).
Definition with_tags (v : list string) (md : Metadata) : Metadata :=
  mkMetadata (md_owner_id md) (md_name md) (md_title md) (Some v) (md_frozen md).
Definition with_frozen (v : Z) (md : Metadata) : Metadata :=
  mkMetadata (md_owner_id md) (md_name md) (md_title md) (md_tags md) (Some v).

(** One round of the loop over [info.items()]. *)
Definition metadata_entry (req : Request) (worksheet : Worksheet)
    (metadata : Metadata) (kv : InfoEntry) : M Metadata :=
  match kv with
  | key_owner_id v => ret (with_owner_id v metadata)
  | key_owner_spec v =>
      u <- model.find_user v ;; ret (with_owner_id (user_id u) metadata)
  | key_name v =>
      ensure_unused_worksheet_name req v ;;; ret (with_name v metadata)
  | key_title v => ret (with_title v metadata)
  | key_tags v => ret (with_tags v metadata)
  | key_freeze _ => ret (with_frozen (now req) metadata)
  | key_frozen v =>
      if bool_decide (is_Some v) && negb (bool_decide (is_Some (frozen worksheet)))
      then ret (with_frozen (now req) metadata)
      else ret metadata
  | key_other _ _ => ret metadata
  end.

Fixpoint metadata_loop (req : Request) (worksheet : Worksheet)
    (info : list InfoEntry) (metadata : Metadata) : M Metadata :=
  match info with
  | [] => ret metadata
  | kv :: info' =>
      metadata' <- metadata_entry req worksheet metadata kv ;;
      metadata_loop req worksheet info' metadata'
  end.

Definition update_worksheet_metadata (req : Request) (wuuid : string)
    (info : list InfoEntry) : M unit :=
  worksheet <- model.get_worksheet wuuid false ;;
  check_worksheet_has_all_permission (user req) worksheet ;;;
  metadata <- metadata_loop req worksheet info empty_metadata ;;
  model.update_worksheet_metadata worksheet metadata.

Definition set_worksheet_permission (req : Request) (worksheet : Worksheet)
    (group_uuid : string) (permission : Permission) : M unit :=
  check_worksheet_has_all_permission (user req) worksheet ;;;
  model.set_group_worksheet_permission group_uuid (uuid worksheet) permission.

Definition populate_worksheet (req : Request) (worksheet : Worksheet)
    (name title : string) : M unit :=
  let lines := ws_template_lines name in
  m <- get_model ;;
  parsed <- lift (parse_worksheet_form lines m (user req) (uuid worksheet)) ;;
  info <- get_worksheet_info req (uuid worksheet) true true false ;;
  update_worksheet_items req info (ConvertItems parsed.1) ;;;
  update_worksheet_metadata req (uuid worksheet) [key_title (Some title)].

(** The constructor [Worksheet({...})], which draws a fresh uuid. *)
Definition Worksheet_new (name : string) (title : option string)
    (frozen : option Z) (items : list Item) (owner_id : string) : M Worksheet :=
  fun m =>
    (Ok (mkWorksheet (generate_uuid (uuid_seed m)) name owner_id title []
                     frozen items (-1)),
     set_uuid_seed (uuid_seed m + 1) m).

Definition new_worksheet (req : Request) (name : string) : M string :=
  authenticated <- user_attr req "is_authenticated" is_authenticated ;;
  if negb authenticated
  then raise (PermissionError "You must be logged in to create a worksheet.")
  else
    ensure_unused_worksheet_name req name ;;;
    owner <- user_attr req "user_id" user_id ;;
    worksheet <- Worksheet_new name None None [] owner ;;
    model.new_worksheet worksheet ;;;
    m <- get_model ;;
    set_worksheet_permission req worksheet (public_group_uuid m)
      GROUP_OBJECT_PERMISSION_READ ;;;
    (if is_dashboard name
     then populate_worksheet req worksheet "dashboard" "CodaLab Dashboard"
     else ret tt) ;;;
    (if is_public_home name
     then populate_worksheet req worksheet "home" "Public Home"
     else ret tt) ;;;
    ret (uuid worksheet).

(** The [except NotFoundError] branch of [get_worksheet_uuid_or_create];
    [e] is the exception being handled, re-raised by the bare [raise]. *)
Definition get_worksheet_uuid_or_create_handler (req : Request)
    (worksheet_spec : string) (e : exn) : M string :=
  if (String.eqb worksheet_spec "" || String.eqb worksheet_spec HOME_WORKSHEET)
     && bool_decide (is_Some (user req))
  then
    un <- user_attr req "user_name" user_name ;;
    new_worksheet req (home_worksheet un)
  else if is_dashboard worksheet_spec
  then new_worksheet req worksheet_spec
  else raise e.

Definition get_worksheet_uuid_or_create (req : Request)
    (base_worksheet_uuid : option string) (worksheet_spec : string) : M string :=
  try_except
    (resolve (user req) base_worksheet_uuid worksheet_spec)
    isinstance_NotFoundError
    (get_worksheet_uuid_or_create_handler req worksheet_spec).

Definition add_worksheet_item (req : Request) (worksheet_uuid : string)
    (item : Item) : M unit :=
  worksheet <- model.get_worksheet worksheet_uuid false ;;
  check_worksheet_has_all_permission (user req) worksheet ;;;
  check_worksheet_not_frozen worksheet ;;;
  model.add_worksheet_item worksheet_uuid item.

Definition delete_worksheet (req : Request) (wuuid : string) (force : bool)
  : M unit :=
  worksheet <- model.get_worksheet wuuid true ;;
  check_worksheet_has_all_permission (user req) worksheet ;;;
  (if negb force then
     (if bool_decide (is_Some (frozen worksheet))
      then raise (UsageError ("Can't delete worksheet " +:+ uuid worksheet +:+
                    " because it is frozen (--force to override)."))
      else ret tt) ;;;
     (if Nat.ltb 0 (length (items worksheet))
      then raise (UsageError ("Can't delete worksheet " +:+ uuid worksheet +:+
                    " because it is not empty (--force to override)."))
      else ret tt)
   else ret tt) ;;;
  model.delete_worksheet wuuid.

(** [worksheet_to_items.setdefault(k, []).append(item)] on a dict kept as an
    association list in order of first insertion. *)
Fixpoint setdefault_append (d : list (string * list PostedItem)) (k : string)
    (item : PostedItem) : list (string * list PostedItem) :=
  match d with
  | [] => [(k, [item])]
  | (k', its) :: d' =>
      if String.eqb k' k then (k', its ++ [item]) :: d'
      else (k', its) :: setdefault_append d' k item
  end.

Definition worksheet_to_items (new_items : list PostedItem)
  : list (string * list PostedItem) :=
  fold_left (fun d item => setdefault_append d (worksheet_uuid item) item)
            new_items [].

(** The body of the loop over [worksheet_to_items.iteritems()]. *)
Definition create_worksheet_items_group (req : Request) (replace : bool)
    (group : string * list PostedItem) : M unit :=
  let '(worksheet_uuid, items) := group in
  worksheet_info <- get_worksheet_info req worksheet_uuid true true false ;;
  if replace then
    update_worksheet_items req worksheet_info (StoredItems (as_tuple <$> items))
  else
    for_each items (fun item => add_worksheet_item req worksheet_uuid (as_tuple item)).

Definition create_worksheet_items (req : Request) (replace : bool)
    (new_items : list PostedItem) : M (list PostedItem) :=
  for_each (iteritems (worksheet_to_items new_items))
    (create_worksheet_items_group req replace) ;;;
  ret new_items.

Definition update_worksheet_raw (req : Request) (wuuid : string)
    (lines : list string) : M (list string) :=
  m <- get_model ;;
  parsed <- lift (parse_worksheet_form lines m (user req) wuuid) ;;
  worksheet_info <- get_worksheet_info req wuuid true true false ;;
  update_worksheet_items req worksheet_info (ConvertItems parsed.1) ;;;
  ret parsed.2.

Definition delete_worksheets (req : Request) (uuids : list string) (force : bool)
  : M unit :=
  for_each uuids (fun wuuid => delete_worksheet req wuuid force).
End Handlers.

(** ** The bulk handlers and the listing of [codalab/rest/worksheets.py] *)

(** Collaborators of the keyword branch of [fetch_worksheets], taken as
    parameters: [rest.util.resolve_owner_in_keywords(keywords)] and
    [local.model.search_worksheets(user_id, keywords)], which returns the
    info dicts of the worksheets found. *)
Class SearchCollaborators : Type := {
  resolve_owner_in_keywords : Model -> option User -> list string -> Res (list string);
  search_worksheets : Model -> string -> list string -> Res (list (WorksheetInfo Item))
}.

(** The JSON API document built by [fetch_worksheets]. *)
Record ListDocument : Type := mkListDocument {
  list_data : list (WorksheetInfo Item);
  list_users : list User;
  list_permissions : list (string * Permission)
}.

(** A posted worksheet permission, as loaded by
    [WorksheetPermissionSchema]. *)
Record PostedPermission : Type := mkPostedPermission {
  object_uuid : string;
  group_uuid : string;
  permission : Permission
}.

(** [w['uuid']] on a posted worksheet update. *)
Fixpoint dict_uuid (w : list InfoEntry) : M string :=
  match w with
  | [] => raise (KeyError "uuid")
  | key_other k v :: w' => if String.eqb k "uuid" then ret v else dict_uuid w'
  | _ :: w' => dict_uuid w'
  end.

Section BulkHandlers.
Context `{Collaborators} `{SearchCollaborators}.

Definition fetch_worksheets (req : Request) (keywords specs : list string)
    (base_worksheet_uuid : option string) : M ListDocument :=
  worksheets <-
    match specs with
    | _ :: _ =>
        uuids <- map_M (get_worksheet_uuid_or_create req base_worksheet_uuid) specs ;;
        ws <- model.batch_get_worksheets false (list_to_set uuids) ;;
        ret ((fun w => to_dict w (items w)) <$> ws)
    | [] =>
        keywords' <- (fun m => (resolve_owner_in_keywords m (user req) keywords, m)) ;;
        uid <- user_attr req "user_id" user_id ;;
        (fun m => (search_worksheets m uid keywords', m))
    end ;;
  let owner_ids : gset string := list_to_set (wi_owner_id <$> worksheets) in
  users <- (if decide (owner_ids = ∅) then ret [] else model.get_users owner_ids) ;;
  ret (mkListDocument worksheets users (concat (omap wi_group_permissions worksheets))).

Definition create_worksheets (req : Request) (names : list string)
  : M (list (string * string)) :=
  map_M (fun n => wuuid <- new_worksheet req n ;; ret (n, wuuid)) names.

Definition update_worksheets (req : Request) (worksheet_updates : list (list InfoEntry))
  : M (list (list InfoEntry)) :=
  for_each worksheet_updates
    (fun w => wuuid <- dict_uuid w ;; update_worksheet_metadata req wuuid w) ;;;
  ret worksheet_updates.

Definition set_worksheet_permissions (req : Request)
    (new_permissions : list PostedPermission) : M (list PostedPermission) :=
  for_each new_permissions
    (fun p =>
       worksheet <- model.get_worksheet (object_uuid p) false ;;
       set_worksheet_permission req worksheet (group_uuid p) (permission p)) ;;;
  ret new_permissions.
End BulkHandlers.

(** ** A concrete instance of the collaborators, for the concrete runs *)

Module Sample.

(** Modelled from the spec: step 1 of the Worksheet Resolver, resolution by
    exact name or [NotFoundError] (the base worksheet is not used here).
    The [except] branch of [get_worksheet_uuid_or_create] "duplicates a bit
    of canonicalize": the empty spec and the home token stand for the home
    worksheet of the caller. *)
Definition sample_get_worksheet_uuid (m : Model) (u : option User)
    (base : option string) (worksheet_spec : string) : Res string :=
  let spec :=
    match u with
    | Some usr =>
        if String.eqb worksheet_spec "" || String.eqb worksheet_spec "/"
        then "home-" +:+ user_name usr else worksheet_spec
    | None => worksheet_spec
    end in
  match List.find (fun kv => String.eqb (name kv.2) spec) (map_to_list (worksheets m)) with
  | Some kv => Ok kv.1
  | None => Raise (NotFoundError ("No worksheet found whose name is '" +:+ spec +:+ "'"))
  end.

(** A conversion back to the stored tuple: the uuids of the infos, the
    tokens joined. *)
Definition sample_convert_item_to_db (item : InfoItem) : Res Item :=
  match (fun i : info => i !! "uuid") <$> bundle_info item,
        (fun i : info => i !! "uuid") <$> subworksheet_info item with
  | Some None, _ | _, Some None => Raise (KeyError "uuid")
  | b, s =>
      Ok (mkItem (b ≫= id) (s ≫= id)
                 (match value_obj item with
                  | Tokens ts => String.concat " " ts
                  | RawValue v => v
                  end)
                 (info_type item))
  end.

(** Home worksheets are named ["home-<user>"], the dashboard ["dashboard"],
    the public home ["home"]; the templates have one line. *)
#[export] Instance sample : Collaborators := {|
  HOME_WORKSHEET := "/";
  home_worksheet := fun n => "home-" +:+ n;
  is_home_worksheet := fun n => String.prefix "home-" n;
  is_dashboard := fun n => String.eqb n "dashboard";
  is_public_home := fun n => String.eqb n "home";
  generate_uuid := fun n => "0x" +:+ pretty n;
  get_worksheet_uuid := sample_get_worksheet_uuid;
  convert_item_to_db := sample_convert_item_to_db;
  parse_worksheet_form := fun lines _ _ _ =>
    Ok ((fun l => mkInfoItem None None (RawValue l) TYPE_MARKUP) <$> lines, []);
  ws_template_lines := fun n => ["Welcome to " +:+ n];
  string_to_tokens := fun v => [v];
  Worksheet_str := fun w => "Worksheet(uuid='" +:+ uuid w +:+ "', name='" +:+ name w +:+ "')";
  to_dict_legacy := fun w => {[ "uuid" := uuid w; "name" := name w ]}
|}.

Definition alice : User := mkUser "u1" "alice" true.
Definition bob : User := mkUser "u2" "bob" true.

(** The user object of a request that is not logged in. *)
Definition anonymous : User := mkUser "public" "public" false.

Definition as_user (u : User) : Request := mkRequest (Some u) 100.

Definition note : Item := mkItem None None "some text" TYPE_MARKUP.

(** An open worksheet of alice with one item, readable by the public. *)
Definition w1 : Worksheet := mkWorksheet "w1" "notes" "u1" None [] None [note] 7.

(** A frozen worksheet of alice with one item. *)
Definition w2 : Worksheet := mkWorksheet "w2" "paper" "u1" None [] (Some 5%Z) [note] 3.

(** An open, empty worksheet of alice. *)
Definition w3 : Worksheet := mkWorksheet "w3" "scratch" "u1" None [] None [] (-1).

Definition m1 : Model :=
  mkModel {[ "w1" := w1; "w2" := w2; "w3" := w3 ]}
          {[ "w1" := {[ "g-public" := GROUP_OBJECT_PERMISSION_READ ]} ]}
          ∅ [alice; bob] ∅ "g-public" 8 0.

(** A view of [w1] whose version token is out of date. *)
Definition stale_view : WorksheetInfo Item :=
  mkWorksheetInfo "w1" "notes" "u1" None [] None [] 2 None None None.

(** A worksheet of alice that refers to a bundle and a worksheet that exist
    and to a bundle and a worksheet that do not exist any more. *)
Definition w9 : Worksheet :=
  mkWorksheet "w9" "report" "u1" None [] None
    [mkItem (Some "b-live") None "" TYPE_BUNDLE;
     mkItem (Some "b-gone") None "" TYPE_BUNDLE;
     mkItem None (Some "w1") "" TYPE_WORKSHEET;
     mkItem None (Some "w-gone") "" TYPE_WORKSHEET;
     note] 12.

Definition b_live : info := {[ "uuid" := "b-live"; "owner_id" := "u2" ]}.

Definition m9 : Model :=
  mkModel {[ "w1" := w1; "w9" := w9 ]} ∅ {[ "b-live" := b_live ]}
          [alice; bob] ∅ "g-public" 13 0.

Definition post (k v : string) : PostedItem := mkPostedItem k None None v TYPE_MARKUP.

(** The sample collaborators with templates that cannot be parsed. *)
Definition broken_templates : Collaborators := {|
  HOME_WORKSHEET := "/";
  home_worksheet := fun n => "home-" +:+ n;
  is_home_worksheet := fun n => String.prefix "home-" n;
  is_dashboard := fun n => String.eqb n "dashboard";
  is_public_home := fun n => String.eqb n "home";
  generate_uuid := fun n => "0x" +:+ pretty n;
  get_worksheet_uuid := sample_get_worksheet_uuid;
  convert_item_to_db := sample_convert_item_to_db;
  parse_worksheet_form := fun _ _ _ _ => Raise (UsageError "Unable to parse the form");
  ws_template_lines := fun n => ["Welcome to " +:+ n];
  string_to_tokens := fun v => [v];
  Worksheet_str := fun w => "Worksheet(uuid='" +:+ uuid w +:+ "', name='" +:+ name w +:+ "')";
  to_dict_legacy := fun w => {[ "uuid" := uuid w; "name" := name w ]}
|}.

(** A dict that is visited in order of first insertion. *)
#[export] Instance sample_order : DictOrder := {|
  iteritems := fun _ d => d;
  iteritems_Permutation := fun _ d => Permutation_refl d
|}.

(** A keyword search that finds nothing. *)
#[export] Instance sample_search : SearchCollaborators := {|
  resolve_owner_in_keywords := fun _ _ keywords => Ok keywords;
  search_worksheets := fun _ _ _ => Ok []
|}.

Definition carol : User := mkUser "u3" "carol" true.

(** [m1] with a group of editors that carol belongs to. *)
Definition m_groups : Model :=
  mkModel {[ "w1" := w1; "w2" := w2; "w3" := w3 ]}
          {[ "w1" := {[ "g-public" := GROUP_OBJECT_PERMISSION_READ ]} ]}
          ∅ [alice; bob; carol] {[ "g-editors" := ["u3"] ]} "g-public" 8 0.

End Sample.

(** ** Notions used to state the properties *)

(** The pure traversal that [map_M] performs over a fallible function. *)
Fixpoint map_Res {A B} (f : A -> Res B) (l : list A) : Res (list B) :=
  match l with
  | [] => Ok []
  | x :: l' =>
      match f x with
      | Ok y => match map_Res f l' with
                | Ok ys => Ok (y :: ys)
                | Raise e => Raise e
                end
      | Raise e => Raise e
      end
  end.

(** The stored items that [update_worksheet_items] submits. *)
Definition converted `{Collaborators} (new_items : NewItems) : Res (list Item) :=
  match new_items with
  | ConvertItems l => map_Res convert_item_to_db l
  | StoredItems l => Ok l
  end.

(** The version token of the stored worksheet [w] is the one that the
    caller's view [worksheet_info] carries. *)
Definition token_matches {I} (worksheet_info : WorksheetInfo I) (w : Worksheet) : bool :=
  bool_decide (last_item_id w = wi_last_item_id worksheet_info)
  && bool_decide (length (items w) = length (wi_items worksheet_info)).

(** The store after a successful whole-list replacement. *)
Definition replaced (wuuid : string) (w : Worksheet) (its : list Item) (m : Model)
  : Model :=
  set_next_item_id (next_item_id m + 1)
    (set_worksheets (<[wuuid := set_items its (next_item_id m) w]> (worksheets m)) m).

(** The store after [delete(id)]. *)
Definition deleted (wuuid : string) (m : Model) : Model :=
  set_acl (delete wuuid (group_permissions m))
          (set_worksheets (delete wuuid (worksheets m)) m).

(** The store after a metadata write. *)
Definition metadata_written (w : Worksheet) (md : Metadata) (m : Model) : Model :=
  set_worksheets (alter (apply_metadata md) (uuid w) (worksheets m)) m.

(** The store after a single-item append. *)
Definition appended (wuuid : string) (item : Item) (m : Model) : Model :=
  set_next_item_id (next_item_id m + 1)
    (set_worksheets
       (alter (fun w => set_items (items w ++ [item]) (next_item_id m) w)
              wuuid (worksheets m)) m).

(** A computation that never changes the model. *)
Definition read_only {A} (c : M A) : Prop :=
  forall m r m', c m = (r, m') -> m' = m.

(** The view of a worksheet that [get_worksheet_info] returns without the
    legacy conversion. *)
Definition worksheet_view (m : Model) (u : User) (w : Worksheet)
    (fetch_items fetch_permission : bool) : WorksheetInfo Item :=
  let worksheet := if fetch_items then w else without_items w in
  let result := to_dict worksheet (items worksheet) in
  if fetch_permission then
    with_permissions
      (map_to_list (default ∅ (group_permissions m !! uuid w)))
      (model.permission_level m (Some (user_id u)) (uuid w) (owner_id w))
      result
  else result.

(** The model after a sequence of metadata updates, each its own request,
    whether it succeeds or fails. *)
Definition after_metadata_updates `{Collaborators}
    (calls : list (Request * string * list InfoEntry)) (m : Model) : Model :=
  fold_left (fun m c => (update_worksheet_metadata c.1.1 c.1.2 c.2 m).2) calls m.

(** [m'] has the worksheets of [m] under the same keys, each with the same
    uuid, name and owner, and the same permission tables. *)
Definition same_identity (m m' : Model) : Prop :=
  group_permissions m' = group_permissions m /\
  public_group_uuid m' = public_group_uuid m /\
  group_members m' = group_members m /\
  forall k w, worksheets m !! k = Some w ->
    exists w', worksheets m' !! k = Some w' /\ uuid w' = uuid w /\
               name w' = name w /\ owner_id w' = owner_id w.

(** The group [g] has permission [p] on the worksheet stored under [k]. *)
Definition granted (m : Model) (k g : string) (p : Permission) : Prop :=
  default ∅ (group_permissions m !! k) !! g = Some p.

(** The model right after [new_worksheet] has inserted the worksheet named
    [n] of [owner] and granted the public group Read on it. *)
Definition created `{Collaborators} (n owner : string) (m : Model) : Model :=
  let w := mkWorksheet (generate_uuid (uuid_seed m)) n owner None [] None [] (-1) in
  let m1 := set_uuid_seed (uuid_seed m + 1) m in
  let m2 := set_worksheets (<[uuid w := w]> (worksheets m1)) m1 in
  set_acl (<[uuid w := <[public_group_uuid m2 := GROUP_OBJECT_PERMISSION_READ]>
                         (default ∅ (group_permissions m2 !! uuid w))]>
             (group_permissions m2)) m2.

(** The test of the first branch of the [except NotFoundError] handler:
    the spec is empty or the home token, and [request.user] is truthy. *)
Definition wants_home `{Collaborators} (req : Request) (worksheet_spec : string)
  : bool :=
  (String.eqb worksheet_spec "" || String.eqb worksheet_spec HOME_WORKSHEET)
  && bool_decide (is_Some (user req)).

(** The bundle uuids that [fetch_worksheet] asks the bundle directory for:
    the non-null [bundle_uuid]s of the bundle-type items. *)
Definition referenced_bundles (its : list Item) : gset string :=
  list_to_set
    (omap (fun item =>
             if decide (type item = TYPE_BUNDLE) then bundle_uuid item else None)
          its).

(** The worksheet uuids that [fetch_worksheet] asks the store for: the
    non-null [subworksheet_uuid]s of the worksheet-type items. *)
Definition referenced_subworksheets (its : list Item) : gset string :=
  list_to_set
    (omap (fun item =>
             if decide (type item = TYPE_WORKSHEET) then subworksheet_uuid item
             else None)
          its).

(** The legacy form of a stored item in the model [m]: the info of the
    bundle or of the sub-worksheet where it exists, and the dict with the
    sole key ["uuid"] where it does not. *)
Definition legacy_item `{Collaborators} (m : Model) (it : Item) : InfoItem :=
  mkInfoItem
    (match bundle_uuid it with
     | Some b =>
         if truthy (Some b) then Some (default {["uuid" := b]} (bundles m !! b))
         else None
     | None => None
     end)
    (match subworksheet_uuid it with
     | Some s =>
         if truthy (Some s)
         then Some (match worksheets m !! s with
                    | Some w => to_dict_legacy (without_items w)
                    | None => {["uuid" := s]}
                    end)
         else None
     | None => None
     end)
    (if decide (type it = TYPE_DIRECTIVE)
     then Tokens (string_to_tokens (value it)) else RawValue (value it))
    (type it).

(** The value of key [k] in a dict kept as an association list. *)
Fixpoint assoc {A} (k : string) (d : list (string * A)) : option A :=
  match d with
  | [] => None
  | (k', x) :: d' => if String.eqb k' k then Some x else assoc k d'
  end.

(** The posted items that target the worksheet [k], in posted order. *)
Definition items_for (k : string) (new_items : list PostedItem) : list PostedItem :=
  filter (fun i => worksheet_uuid i = k) new_items.

(** The store after appending the items of [its] one after the other. *)
Definition appended_all (wuuid : string) (its : list Item) (m : Model) : Model :=
  fold_left (fun m it => appended wuuid it m) its m.

(** The caller of [req] may change the items of the worksheet stored under
    [k]: it exists, the caller holds All on it and it is not frozen. *)
Definition writable (req : Request) (m : Model) (k : string) : Prop :=
  exists w, worksheets m !! k = Some w
            /\ holds GROUP_OBJECT_PERMISSION_ALL m (user req) w = true
            /\ frozen w = None.

(** The name that the [except NotFoundError] branch of
    [get_worksheet_uuid_or_create] hands to [new_worksheet]: the home
    worksheet of the caller in its first branch, the spec in its second. *)
Definition creation_name `{Collaborators} (req : Request) (u : User)
    (worksheet_spec : string) : string :=
  if wants_home req worksheet_spec then home_worksheet (user_name u)
  else worksheet_spec.

(** The worksheet object that [new_worksheet] builds for the name [n]. *)
Definition fresh_worksheet `{Collaborators} (n owner : string) (m : Model) : Worksheet :=
  mkWorksheet (generate_uuid (uuid_seed m)) n owner None [] None [] (-1).

(** The model after [populate_worksheet] has replaced the items of the
    worksheet [w], stored under its uuid, by [its] and set its title. *)
Definition populated (w : Worksheet) (its : list Item) (t : string) (m : Model) : Model :=
  metadata_written (set_items its (next_item_id m) w)
    (mkMetadata None None (Some (Some t)) None None)
    (replaced (uuid w) w its m).

(** An entry of a metadata update that leaves the metadata dict as it is:
    a key the loop does not know, a falsy ['frozen'], or a ['frozen'] for a
    worksheet that is frozen already. *)
Definition inert (w : Worksheet) (kv : InfoEntry) : Prop :=
  match kv with
  | key_other _ _ => True
  | key_frozen v => v = None \/ is_Some (frozen w)
  | _ => False
  end.

(** The value under ['uuid'] of a posted worksheet update, if any. *)
Fixpoint posted_uuid (w : list InfoEntry) : option string :=
  match w with
  | [] => None
  | key_other k v :: w' => if String.eqb k "uuid" then Some v else posted_uuid w'
  | _ :: w' => posted_uuid w'
  end.

(** The owner recorded in a bundle info, the empty string when the key is
    missing. *)
Definition info_owner (b : info) : string := default "" (b !! "owner_id").

(** The infos of the bundles that [fetch_worksheet] includes for the items
    [its]. *)
Definition included_infos (its : list Item) (m : Model) : list info :=
  (map_to_list (filter (fun kv => kv.1 ∈ referenced_bundles its) (bundles m))).*2.

(** [m'] has the permission tables, the group memberships and the public
    group of [m]. *)
Definition same_access (m m' : Model) : Prop :=
  group_permissions m' = group_permissions m /\
  group_members m' = group_members m /\
  public_group_uuid m' = public_group_uuid m.

(** The model after the grant posted as [q] has been stored. *)
Definition grant_stored (q : PostedPermission) (m : Model) : Model :=
  set_acl (<[object_uuid q :=
               <[group_uuid q := permission q]>
                 (default ∅ (group_permissions m !! object_uuid q))]>
             (group_permissions m)) m.

(** * Properties *)

(** ** Basic facts about the gates and the store *)

Lemma holds_without_items p m u w :
  holds p m u (without_items w) = holds p m u w.
Proof. reflexivity. Qed.

Lemma get_worksheet_Some wuuid fetch_items m w :
  worksheets m !! wuuid = Some w ->
  model.get_worksheet wuuid fetch_items m
  = (Ok (if fetch_items then w else without_items w), m).
Proof. intros Hw. unfold model.get_worksheet. by rewrite Hw. Qed.

Lemma get_worksheet_None wuuid fetch_items m :
  worksheets m !! wuuid = None ->
  exists msg, model.get_worksheet wuuid fetch_items m = (Raise (NotFoundError msg), m).
Proof. intros Hw. unfold model.get_worksheet. rewrite Hw. eauto. Qed.

Lemma check_all_true u w m :
  holds GROUP_OBJECT_PERMISSION_ALL m u w = true ->
  check_worksheet_has_all_permission u w m = (Ok tt, m).
Proof. intros Hp. unfold check_worksheet_has_all_permission. by rewrite Hp. Qed.

Lemma check_all_false u w m :
  holds GROUP_OBJECT_PERMISSION_ALL m u w = false ->
  exists msg, check_worksheet_has_all_permission u w m = (Raise (PermissionError msg), m).
Proof. intros Hp. unfold check_worksheet_has_all_permission. rewrite Hp. eauto. Qed.

Lemma check_read_true u w m :
  holds GROUP_OBJECT_PERMISSION_READ m u w = true ->
  check_worksheet_has_read_permission u w m = (Ok tt, m).
Proof. intros Hp. unfold check_worksheet_has_read_permission. by rewrite Hp. Qed.

Lemma check_read_false u w m :
  holds GROUP_OBJECT_PERMISSION_READ m u w = false ->
  exists msg, check_worksheet_has_read_permission u w m = (Raise (PermissionError msg), m).
Proof. intros Hp. unfold check_worksheet_has_read_permission. rewrite Hp. eauto. Qed.

Lemma check_not_frozen_None w m :
  frozen w = None -> check_worksheet_not_frozen w m = (Ok tt, m).
Proof. intros Hf. unfold check_worksheet_not_frozen. by rewrite Hf. Qed.

Lemma check_not_frozen_Some w m :
  is_Some (frozen w) ->
  exists msg, check_worksheet_not_frozen w m = (Raise (UsageError msg), m).
Proof. intros [t Hf]. unfold check_worksheet_not_frozen. rewrite Hf. eauto. Qed.

(** Holding All implies holding Read. *)
Lemma holds_all_read m u w :
  holds GROUP_OBJECT_PERMISSION_ALL m u w = true ->
  holds GROUP_OBJECT_PERMISSION_READ m u w = true.
Proof.
  unfold holds. destruct (model.permission_level _ _ _ _); by cbn.
Qed.

(** Rewriting a bind whose first computation is known. *)
Lemma bind_Ok {A B} (c : M A) (k : A -> M B) m a m' :
  c m = (Ok a, m') -> bind c k m = k a m'.
Proof. intros Hc. unfold bind. by rewrite Hc. Qed.

Lemma bind_Raise {A B} (c : M A) (k : A -> M B) m e m' :
  c m = (Raise e, m') -> bind c k m = (Raise e, m').
Proof. intros Hc. unfold bind. by rewrite Hc. Qed.

Lemma bind_Ok_inv {A B} (c : M A) (k : A -> M B) m b m' :
  bind c k m = (Ok b, m') ->
  exists a m0, c m = (Ok a, m0) /\ k a m0 = (Ok b, m').
Proof.
  unfold bind. destruct (c m) as [[a|e] m0]; [|done]. intros Hk. by exists a, m0.
Qed.

Lemma user_attr_Ok {A} req attr (f : User -> A) m a m' :
  user_attr req attr f m = (Ok a, m') ->
  exists u, user req = Some u /\ a = f u /\ m' = m.
Proof.
  unfold user_attr. destruct (user req) as [u|]; [|done].
  intros [= <- <-]. by exists u.
Qed.

Lemma user_attr_Some {A} req attr (f : User -> A) m u :
  user req = Some u -> user_attr req attr f m = (Ok (f u), m).
Proof. intros Hu. unfold user_attr. by rewrite Hu. Qed.

(** [map_M] over a pure, fallible function is the pure traversal. *)
Lemma map_M_lift {A B} (f : A -> Res B) (l : list A) m :
  map_M (fun x => lift (f x)) l m = (map_Res f l, m).
Proof.
  induction l as [|x l IH]; [done|].
  cbn [map_M map_Res]. unfold bind at 1. unfold lift at 1.
  destruct (f x) as [y|e]; [|done].
  unfold bind at 1. rewrite IH. by destruct (map_Res f l).
Qed.

Section FacadeProperties.
Context `{Collaborators}.

(** The outcomes of [update_worksheet_items] on an existing worksheet, gate
    by gate. *)
Lemma update_worksheet_items_cases {I} (req : Request)
    (worksheet_info : WorksheetInfo I) (new_items : NewItems) (m : Model)
    (w : Worksheet) :
  worksheets m !! wi_uuid worksheet_info = Some w ->
  (holds GROUP_OBJECT_PERMISSION_ALL m (user req) w = false ->
   exists msg,
     update_worksheet_items req worksheet_info new_items m
     = (Raise (PermissionError msg), m)) /\
  (holds GROUP_OBJECT_PERMISSION_ALL m (user req) w = true ->
   is_Some (frozen w) ->
   update_worksheet_items req worksheet_info new_items m
   = (Raise (UsageError ("Cannot modify frozen worksheet " +:+ uuid w)), m)) /\
  (holds GROUP_OBJECT_PERMISSION_ALL m (user req) w = true ->
   frozen w = None ->
   forall db_items, converted new_items = Ok db_items ->
     update_worksheet_items req worksheet_info new_items m
     = if token_matches worksheet_info w
       then (Ok tt, replaced (wi_uuid worksheet_info) w db_items m)
       else (Raise (UsageError (Worksheet_str (without_items w)
                                +:+ " was updated concurrently!")), m)).
Proof.
  intros Hw. unfold update_worksheet_items.
  rewrite (bind_Ok _ _ _ _ _ (get_worksheet_Some _ false _ _ Hw)).
  repeat split.
  - intros Hp. rewrite <- holds_without_items in Hp.
    destruct (check_all_false _ _ _ Hp) as [msg Hc].
    exists msg. by rewrite (bind_Raise _ _ _ _ _ Hc).
  - intros Hp [t Hf]. rewrite <- holds_without_items in Hp.
    rewrite (bind_Ok _ _ _ _ _ (check_all_true _ _ _ Hp)).
    unfold bind at 1, check_worksheet_not_frozen. cbn. by rewrite Hf.
  - intros Hp Hf db_items Hconv. rewrite <- holds_without_items in Hp.
    rewrite (bind_Ok _ _ _ _ _ (check_all_true _ _ _ Hp)).
    rewrite (bind_Ok _ _ _ tt m); [|by apply check_not_frozen_None].
    unfold try_except, bind, model.update_worksheet_items.
    destruct new_items as [l|l]; cbn in Hconv.
    + rewrite map_M_lift, Hconv, Hw. unfold token_matches, replaced.
      by destruct (_ && _).
    + injection Hconv as ->. cbn. rewrite Hw. unfold token_matches, replaced.
      by destruct (_ && _).
Qed.

Lemma update_worksheet_items_conversion_fails {I} req (worksheet_info : WorksheetInfo I)
    new_items m w e :
  worksheets m !! wi_uuid worksheet_info = Some w ->
  holds GROUP_OBJECT_PERMISSION_ALL m (user req) w = true ->
  frozen w = None ->
  converted new_items = Raise e ->
  update_worksheet_items req worksheet_info new_items m
  = if isinstance_UsageError e
    then (Raise (UsageError (Worksheet_str (without_items w)
                             +:+ " was updated concurrently!")), m)
    else (Raise e, m).
Proof.
  intros Hw Hp Hf Hconv. unfold update_worksheet_items.
  rewrite (bind_Ok _ _ _ _ _ (get_worksheet_Some _ false _ _ Hw)).
  rewrite <- holds_without_items in Hp.
  rewrite (bind_Ok _ _ _ _ _ (check_all_true _ _ _ Hp)).
  rewrite (bind_Ok _ _ _ tt m); [|by apply check_not_frozen_None].
  unfold try_except, bind.
  destruct new_items as [l|l]; cbn in Hconv; [|done].
  rewrite map_M_lift, Hconv. by destruct (isinstance_UsageError e).
Qed.

(** *** Outcomes of the single-worksheet mutations *)

Lemma add_worksheet_item_denied req k item m w :
  worksheets m !! k = Some w ->
  holds GROUP_OBJECT_PERMISSION_ALL m (user req) w = false ->
  exists msg, add_worksheet_item req k item m = (Raise (PermissionError msg), m).
Proof.
  intros Hw Hp. unfold add_worksheet_item.
  rewrite (bind_Ok _ _ _ _ _ (get_worksheet_Some _ false _ _ Hw)).
  rewrite <- holds_without_items in Hp.
  destruct (check_all_false _ _ _ Hp) as [msg Hc].
  exists msg. by rewrite (bind_Raise _ _ _ _ _ Hc).
Qed.

Lemma add_worksheet_item_frozen req k item m w :
  worksheets m !! k = Some w ->
  is_Some (frozen w) ->
  exists e, add_worksheet_item req k item m = (Raise e, m).
Proof.
  intros Hw Hf. unfold add_worksheet_item.
  rewrite (bind_Ok _ _ _ _ _ (get_worksheet_Some _ false _ _ Hw)).
  destruct (holds GROUP_OBJECT_PERMISSION_ALL m (user req) (without_items w)) eqn:Hp.
  - rewrite (bind_Ok _ _ _ _ _ (check_all_true _ _ _ Hp)).
    destruct (check_not_frozen_Some (without_items w) m Hf) as [msg Hc].
    exists (UsageError msg). by rewrite (bind_Raise _ _ _ _ _ Hc).
  - destruct (check_all_false _ _ _ Hp) as [msg Hc].
    exists (PermissionError msg). by rewrite (bind_Raise _ _ _ _ _ Hc).
Qed.

Lemma add_worksheet_item_ok req k item m w :
  worksheets m !! k = Some w ->
  holds GROUP_OBJECT_PERMISSION_ALL m (user req) w = true ->
  frozen w = None ->
  add_worksheet_item req k item m = (Ok tt, appended k item m).
Proof.
  intros Hw Hp Hf. unfold add_worksheet_item.
  rewrite (bind_Ok _ _ _ _ _ (get_worksheet_Some _ false _ _ Hw)).
  rewrite <- holds_without_items in Hp.
  rewrite (bind_Ok _ _ _ _ _ (check_all_true _ _ _ Hp)).
  rewrite (bind_Ok _ _ _ tt m); [done|by apply check_not_frozen_None].
Qed.

Lemma update_worksheet_items_frozen {I} req (worksheet_info : WorksheetInfo I)
    new_items m w :
  worksheets m !! wi_uuid worksheet_info = Some w ->
  is_Some (frozen w) ->
  exists e, update_worksheet_items req worksheet_info new_items m = (Raise e, m).
Proof.
  intros Hw Hf.
  destruct (update_worksheet_items_cases req worksheet_info new_items m w Hw)
    as (Hdenied & Hfrozen & _).
  destruct (holds GROUP_OBJECT_PERMISSION_ALL m (user req) w) eqn:Hp.
  - eexists. by apply Hfrozen.
  - destruct (Hdenied eq_refl) as [msg ->]. eauto.
Qed.

(** *** Read-only computations *)

Lemma read_only_ret {A} (a : A) : read_only (ret a).
Proof. intros m r m' [= _ <-]. done. Qed.

Lemma read_only_raise {A} e : read_only (@raise A e).
Proof. intros m r m' [= _ <-]. done. Qed.

Lemma read_only_lift {A} (r : Res A) : read_only (lift r).
Proof. intros m r' m' [= _ <-]. done. Qed.

Lemma read_only_bind {A B} (c : M A) (k : A -> M B) :
  read_only c -> (forall a, read_only (k a)) -> read_only (bind c k).
Proof.
  intros Hc Hk m r m'. unfold bind.
  destruct (c m) as [[a|e] m1] eqn:Ec; apply Hc in Ec as ->.
  - apply Hk.
  - by intros [= _ <-].
Qed.

Lemma read_only_try_except {A} (body : M A) cls handler :
  read_only body -> (forall e, read_only (handler e)) ->
  read_only (try_except body cls handler).
Proof.
  intros Hb Hh m r m'. unfold try_except.
  destruct (body m) as [[a|e] m1] eqn:Eb; apply Hb in Eb as ->.
  - by intros [= _ <-].
  - destruct (cls e); [apply Hh|by intros [= _ <-]].
Qed.

Lemma read_only_user_attr {A} req attr (f : User -> A) :
  read_only (user_attr req attr f).
Proof.
  unfold user_attr. destruct (user req); [apply read_only_ret|apply read_only_raise].
Qed.

Lemma read_only_resolve u base worksheet_spec :
  read_only (resolve u base worksheet_spec).
Proof. intros m r m' [= _ <-]. done. Qed.

Lemma read_only_find_user v : read_only (model.find_user v).
Proof.
  intros m r m'. unfold model.find_user.
  destruct (List.find _ _); by intros [= _ <-].
Qed.

Lemma read_only_ensure_unused_worksheet_name req n :
  read_only (ensure_unused_worksheet_name req n).
Proof.
  unfold ensure_unused_worksheet_name.
  apply read_only_bind.
  - destruct (is_home_worksheet n); [|apply read_only_ret].
    apply read_only_bind; [apply read_only_user_attr|].
    intros un. case_bool_decide; [apply read_only_raise|apply read_only_ret].
  - intros _. apply read_only_try_except.
    + apply read_only_bind; [apply read_only_resolve|].
      intros _. apply read_only_raise.
    + intros _. apply read_only_ret.
Qed.

Lemma read_only_metadata_entry req w md kv :
  read_only (metadata_entry req w md kv).
Proof.
  destruct kv; cbn [metadata_entry]; try apply read_only_ret.
  - apply read_only_bind; [apply read_only_find_user|].
    intros u. apply read_only_ret.
  - apply read_only_bind; [apply read_only_ensure_unused_worksheet_name|].
    intros _. apply read_only_ret.
  - destruct (_ && _); apply read_only_ret.
Qed.

Lemma read_only_metadata_loop req w info md :
  read_only (metadata_loop req w info md).
Proof.
  revert md. induction info as [|kv info IH]; intros md; cbn [metadata_loop].
  - apply read_only_ret.
  - apply read_only_bind; [apply read_only_metadata_entry|]. intros md'. apply IH.
Qed.

(** *** Metadata updates *)

Lemma update_worksheet_metadata_denied req k info m w :
  worksheets m !! k = Some w ->
  holds GROUP_OBJECT_PERMISSION_ALL m (user req) w = false ->
  exists msg, update_worksheet_metadata req k info m = (Raise (PermissionError msg), m).
Proof.
  intros Hw Hp. unfold update_worksheet_metadata.
  rewrite (bind_Ok _ _ _ _ _ (get_worksheet_Some _ false _ _ Hw)).
  rewrite <- holds_without_items in Hp.
  destruct (check_all_false _ _ _ Hp) as [msg Hc].
  exists msg. by rewrite (bind_Raise _ _ _ _ _ Hc).
Qed.

(** With All permission the update is the loop over the entries followed by
    the store write; no other gate stands in between. *)
Lemma update_worksheet_metadata_allowed req k info m w :
  worksheets m !! k = Some w ->
  holds GROUP_OBJECT_PERMISSION_ALL m (user req) w = true ->
  update_worksheet_metadata req k info m
  = match metadata_loop req (without_items w) info empty_metadata m with
    | (Ok md, _) => (Ok tt, metadata_written w md m)
    | (Raise e, _) => (Raise e, m)
    end.
Proof.
  intros Hw Hp. unfold update_worksheet_metadata.
  rewrite (bind_Ok _ _ _ _ _ (get_worksheet_Some _ false _ _ Hw)).
  rewrite <- holds_without_items in Hp.
  rewrite (bind_Ok _ _ _ _ _ (check_all_true _ _ _ Hp)).
  unfold bind.
  destruct (metadata_loop _ _ _ _ m) as [[md|e] m1] eqn:El;
    apply read_only_metadata_loop in El as ->; done.
Qed.

(** A metadata update either leaves the worksheets as they were or rewrites
    the metadata of one of them. *)
Lemma update_worksheet_metadata_effect req k info m r m' :
  update_worksheet_metadata req k info m = (r, m') ->
  m' = m \/ exists w md, m' = metadata_written w md m.
Proof.
  unfold update_worksheet_metadata, bind, model.get_worksheet.
  destruct (worksheets m !! k) as [w|]; [|intros [= _ <-]; by left].
  unfold check_worksheet_has_all_permission.
  destruct (holds _ _ _ _); [|intros [= _ <-]; by left].
  destruct (metadata_loop _ _ _ _ m) as [[md|e] m1] eqn:El;
    apply read_only_metadata_loop in El as ->.
  - intros [= _ <-]. right. by exists (without_items w), md.
  - intros [= _ <-]. by left.
Qed.

Lemma apply_metadata_frozen md w :
  is_Some (frozen w) -> is_Some (frozen (apply_metadata md w)).
Proof. intros Hf. cbn. by destruct (md_frozen md). Qed.

Lemma metadata_written_frozen w0 md m k :
  (exists w, worksheets m !! k = Some w /\ is_Some (frozen w)) ->
  exists w, worksheets (metadata_written w0 md m) !! k = Some w /\ is_Some (frozen w).
Proof.
  intros (w & Hw & Hf). cbn. rewrite lookup_alter. case_decide.
  - subst. rewrite Hw. cbn. eexists; split; [done|]. by apply apply_metadata_frozen.
  - eauto.
Qed.

(** *** Permission grants and deletion *)

Lemma set_worksheet_permission_denied req w g p m :
  holds GROUP_OBJECT_PERMISSION_ALL m (user req) w = false ->
  exists msg, set_worksheet_permission req w g p m = (Raise (PermissionError msg), m).
Proof.
  intros Hp. unfold set_worksheet_permission.
  destruct (check_all_false _ _ _ Hp) as [msg Hc].
  exists msg. by rewrite (bind_Raise _ _ _ _ _ Hc).
Qed.

Lemma delete_worksheet_denied req k force m w :
  worksheets m !! k = Some w ->
  holds GROUP_OBJECT_PERMISSION_ALL m (user req) w = false ->
  exists msg, delete_worksheet req k force m = (Raise (PermissionError msg), m).
Proof.
  intros Hw Hp. unfold delete_worksheet.
  rewrite (bind_Ok _ _ _ _ _ (get_worksheet_Some _ true _ _ Hw)).
  destruct (check_all_false _ _ _ Hp) as [msg Hc].
  exists msg. by rewrite (bind_Raise _ _ _ _ _ Hc).
Qed.

Lemma delete_worksheet_allowed req k force m w :
  worksheets m !! k = Some w ->
  holds GROUP_OBJECT_PERMISSION_ALL m (user req) w = true ->
  delete_worksheet req k force m
  = if negb force && bool_decide (is_Some (frozen w))
    then (Raise (UsageError ("Can't delete worksheet " +:+ uuid w +:+
                   " because it is frozen (--force to override).")), m)
    else if negb force && Nat.ltb 0 (length (items w))
    then (Raise (UsageError ("Can't delete worksheet " +:+ uuid w +:+
                   " because it is not empty (--force to override).")), m)
    else (Ok tt, deleted k m).
Proof.
  intros Hw Hp. unfold delete_worksheet.
  rewrite (bind_Ok _ _ _ _ _ (get_worksheet_Some _ true _ _ Hw)).
  rewrite (bind_Ok _ _ _ _ _ (check_all_true _ _ _ Hp)).
  destruct force; cbn [negb andb]; [done|].
  unfold bind. destruct (bool_decide _); [done|].
  cbn. by destruct (length (items w)).
Qed.

(** *** Fetching the info of a worksheet *)

Lemma get_worksheet_info_denied req k fetch_items fetch_permission m w :
  worksheets m !! k = Some w ->
  holds GROUP_OBJECT_PERMISSION_READ m (user req) w = false ->
  exists msg,
    get_worksheet_info req k fetch_items fetch_permission false m
    = (Raise (PermissionError msg), m).
Proof.
  intros Hw Hp. unfold get_worksheet_info.
  rewrite (bind_Ok _ _ _ _ _ (get_worksheet_Some _ fetch_items _ _ Hw)).
  assert (holds GROUP_OBJECT_PERMISSION_READ m (user req)
            (if fetch_items then w else without_items w) = false) as Hp'
    by by destruct fetch_items.
  destruct (check_read_false _ _ _ Hp') as [msg Hc].
  exists msg. by rewrite (bind_Raise _ _ _ _ _ Hc).
Qed.

Lemma get_worksheet_info_allowed req u k fetch_items fetch_permission m w :
  worksheets m !! k = Some w ->
  user req = Some u ->
  holds GROUP_OBJECT_PERMISSION_READ m (user req) w = true ->
  get_worksheet_info req k fetch_items fetch_permission false m
  = (Ok (worksheet_view m u w fetch_items fetch_permission), m).
Proof.
  intros Hw Hu Hp. unfold get_worksheet_info.
  rewrite (bind_Ok _ _ _ _ _ (get_worksheet_Some _ fetch_items _ _ Hw)).
  assert (holds GROUP_OBJECT_PERMISSION_READ m (user req)
            (if fetch_items then w else without_items w) = true) as Hp'
    by by destruct fetch_items.
  rewrite (bind_Ok _ _ _ _ _ (check_read_true _ _ _ Hp')).
  unfold worksheet_view, user_attr. rewrite Hu.
  by destruct fetch_items, fetch_permission.
Qed.

(** *** Effects on the model *)

Lemma same_identity_refl m : same_identity m m.
Proof. repeat split; eauto. Qed.

Lemma same_identity_trans m1 m2 m3 :
  same_identity m1 m2 -> same_identity m2 m3 -> same_identity m1 m3.
Proof.
  intros (Hg1 & Hp1 & Hm1 & Hw1) (Hg2 & Hp2 & Hm2 & Hw2).
  repeat split; [congruence..|].
  intros k w Hk. destruct (Hw1 k w Hk) as (w' & Hk' & ? & ? & ?).
  destruct (Hw2 k w' Hk') as (w'' & Hk'' & ? & ? & ?).
  exists w''. repeat split; congruence.
Qed.

Lemma same_identity_replaced k w its m :
  worksheets m !! k = Some w -> same_identity m (replaced k w its m).
Proof.
  intros Hw. repeat split; [done..|]. intros k' w' Hk'. cbn.
  destruct (decide (k = k')) as [<-|Hne].
  - rewrite lookup_insert_eq. rewrite Hw in Hk'. injection Hk' as <-. eauto.
  - rewrite lookup_insert_ne by done. eauto.
Qed.

Lemma same_identity_title_written w0 t m :
  same_identity m (metadata_written w0 (with_title t empty_metadata) m).
Proof.
  repeat split; [done..|]. intros k w Hk. cbn. rewrite lookup_alter.
  case_decide; [subst; rewrite Hk; cbn|]; eauto.
Qed.

Lemma update_worksheet_items_effect {I} req (worksheet_info : WorksheetInfo I)
    new_items m r m' :
  update_worksheet_items req worksheet_info new_items m = (r, m') ->
  m' = m \/
  exists w its, worksheets m !! wi_uuid worksheet_info = Some w
                /\ r = Ok tt /\ m' = replaced (wi_uuid worksheet_info) w its m.
Proof.
  unfold update_worksheet_items, bind, model.get_worksheet.
  destruct (worksheets m !! _) as [w|] eqn:Hw; [|intros [= _ <-]; by left].
  unfold check_worksheet_has_all_permission.
  destruct (holds _ _ _ _); [|intros [= _ <-]; by left].
  unfold check_worksheet_not_frozen. cbn [frozen set_items].
  destruct (frozen w); [intros [= _ <-]; by left|].
  unfold ret, try_except, bind.
  assert (forall its,
    (let (r0, m0) := model.update_worksheet_items (wi_uuid worksheet_info)
                       (wi_last_item_id worksheet_info)
                       (length (wi_items worksheet_info)) its m in
     match r0 with
     | Ok a => (Ok a, m0)
     | Raise e =>
         if isinstance_UsageError e
         then raise (UsageError (Worksheet_str (set_items [] (last_item_id w) w)
                                 +:+ " was updated concurrently!")) m0
         else (Raise e, m0)
     end) = (r, m') ->
    m' = m \/ exists w1 its1, Some w = Some w1 /\ r = Ok tt
                /\ m' = replaced (wi_uuid worksheet_info) w1 its1 m) as Hwrite.
  { intros its. unfold model.update_worksheet_items. rewrite Hw.
    destruct (_ && _); cbn.
    - intros [= <- <-]. right. by exists w, its.
    - intros [= _ <-]. by left. }
  destruct new_items as [l|l].
  - rewrite map_M_lift. destruct (map_Res convert_item_to_db l) as [its|e].
    + apply Hwrite.
    + destruct (isinstance_UsageError e); intros [= _ <-]; by left.
  - apply Hwrite.
Qed.

Lemma update_worksheet_items_same_identity {I} req (worksheet_info : WorksheetInfo I)
    new_items m r m' :
  update_worksheet_items req worksheet_info new_items m = (r, m') ->
  same_identity m m'.
Proof.
  intros Hu. apply update_worksheet_items_effect in Hu as [->|(w & its & Hw & _ & ->)].
  - apply same_identity_refl.
  - by apply same_identity_replaced.
Qed.

Lemma read_only_get_worksheet_info req k fetch_items fetch_permission :
  read_only (get_worksheet_info req k fetch_items fetch_permission false).
Proof.
  unfold get_worksheet_info. apply read_only_bind.
  { intros m r m'. unfold model.get_worksheet.
    destruct (worksheets m !! k); by intros [= _ <-]. }
  intros w. apply read_only_bind.
  { intros m r m'. unfold check_worksheet_has_read_permission.
    destruct (holds _ _ _ _); by intros [= _ <-]. }
  intros _. apply read_only_bind; [apply read_only_ret|].
  intros result. destruct fetch_permission; [|apply read_only_ret].
  apply read_only_bind; [apply read_only_user_attr|]. intros uid.
  apply read_only_bind; [by intros m r m' [= _ <-]|]. intros gp.
  apply read_only_bind; [apply read_only_user_attr|]. intros uid'.
  apply read_only_bind; [by intros m r m' [= _ <-]|]. intros p.
  apply read_only_ret.
Qed.

Lemma update_title_same_identity req k t m r m' :
  update_worksheet_metadata req k [key_title t] m = (r, m') ->
  same_identity m m'.
Proof.
  unfold update_worksheet_metadata, bind, model.get_worksheet.
  destruct (worksheets m !! k) as [w|]; [|intros [= _ <-]; apply same_identity_refl].
  unfold check_worksheet_has_all_permission.
  destruct (holds _ _ _ _); [|intros [= _ <-]; apply same_identity_refl].
  cbn. intros [= _ <-]. apply same_identity_title_written.
Qed.

Lemma populate_worksheet_same_identity req w n t m r m' :
  populate_worksheet req w n t m = (r, m') -> same_identity m m'.
Proof.
  unfold populate_worksheet. unfold bind at 1. cbn [get_model].
  unfold bind at 1. unfold lift at 1.
  destruct (parse_worksheet_form _ _ _ _) as [parsed|e];
    [|intros [= _ <-]; apply same_identity_refl].
  unfold bind at 1.
  destruct (get_worksheet_info _ _ _ _ _ m) as [[info|e] m1] eqn:Hinfo;
    apply read_only_get_worksheet_info in Hinfo as ->;
    [|intros [= _ <-]; apply same_identity_refl].
  unfold bind at 1.
  destruct (update_worksheet_items _ _ _ m) as [[[]|e] m2] eqn:Hitems;
    apply update_worksheet_items_same_identity in Hitems.
  - intros Htitle. apply update_title_same_identity in Htitle.
    by apply same_identity_trans with m2.
  - by intros [= _ <-].
Qed.

(** *** The permission oracle *)

Lemma perm_leb_max_l p q r : perm_leb p q = true -> perm_leb p (perm_max q r) = true.
Proof. by destruct p, q, r. Qed.

Lemma perm_leb_max_r p q r : perm_leb p r = true -> perm_leb p (perm_max q r) = true.
Proof. by destruct p, q, r. Qed.

Lemma perm_leb_refl p : perm_leb p p = true.
Proof. by destruct p. Qed.

Lemma perm_leb_foldr_max (l : list Permission) p :
  p ∈ l -> perm_leb p (foldr perm_max GROUP_OBJECT_PERMISSION_NONE l) = true.
Proof.
  induction 1 as [p l|p q l _ IH]; cbn.
  - apply perm_leb_max_l, perm_leb_refl.
  - by apply perm_leb_max_r.
Qed.

(** An entry of a group the user is in gives the user at least its level;
    the public group holds everybody. *)
Lemma granted_holds m u w g p :
  granted m (uuid w) g p ->
  model.in_group m (uid_of u) g = true ->
  holds p m u w = true.
Proof.
  unfold granted, holds, model.permission_level. intros Hg Hin.
  case_bool_decide; [by destruct p|].
  apply perm_leb_foldr_max.
  apply list_elem_of_fmap. exists (g, p). split; [done|].
  apply list_elem_of_filter. split; [cbn; by rewrite Hin|].
  by apply elem_of_map_to_list.
Qed.

Lemma public_read_holds m u w :
  granted m (uuid w) (public_group_uuid m) GROUP_OBJECT_PERMISSION_READ ->
  holds GROUP_OBJECT_PERMISSION_READ m u w = true.
Proof.
  intros Hg. apply granted_holds with (g := public_group_uuid m); [done|].
  unfold model.in_group. by rewrite bool_decide_eq_true_2.
Qed.

Lemma owner_holds_all m u w :
  owner_id w = user_id u -> holds GROUP_OBJECT_PERMISSION_ALL m (Some u) w = true.
Proof.
  intros Ho. unfold holds, model.permission_level. cbn.
  by rewrite Ho, bool_decide_eq_true_2.
Qed.

(** *** Creation *)

Lemma created_lookup n owner m :
  exists w, worksheets (created n owner m) !! generate_uuid (uuid_seed m) = Some w
            /\ uuid w = generate_uuid (uuid_seed m) /\ name w = n /\ owner_id w = owner
            /\ frozen w = None /\ items w = [] /\ title w = None.
Proof. eexists. split; [apply lookup_insert_eq|done]. Qed.

Lemma created_granted n owner m :
  granted (created n owner m) (generate_uuid (uuid_seed m))
          (public_group_uuid (created n owner m)) GROUP_OBJECT_PERMISSION_READ.
Proof.
  unfold granted. cbn. rewrite lookup_insert_eq. cbn. apply lookup_insert_eq.
Qed.

(** Every successful [new_worksheet] passes through [created]; what follows
    it (the templates of the dashboard and of the public home) keeps the
    identity of the worksheets and the permission tables. *)
Lemma new_worksheet_Ok req n m wuuid m' :
  new_worksheet req n m = (Ok wuuid, m') ->
  exists u, user req = Some u /\ is_authenticated u = true
            /\ ensure_unused_worksheet_name req n m = (Ok tt, m)
            /\ model.name_taken m n = false
            /\ wuuid = generate_uuid (uuid_seed m)
            /\ same_identity (created n (user_id u) m) m'.
Proof.
  unfold new_worksheet. intros Hrun.
  apply bind_Ok_inv in Hrun as (authenticated & m0 & Hauth & Hrun).
  apply user_attr_Ok in Hauth as (u & Hu & -> & ->).
  destruct (is_authenticated u) eqn:Hauth; [|done]. cbn [negb] in Hrun.
  apply bind_Ok_inv in Hrun as ([] & m0 & Hpre & Hrun).
  pose proof Hpre as Hro. apply read_only_ensure_unused_worksheet_name in Hro as ->.
  apply bind_Ok_inv in Hrun as (owner & m0 & Howner & Hrun).
  apply user_attr_Ok in Howner as (u' & Hu' & -> & ->).
  assert (u' = u) as -> by congruence.
  apply bind_Ok_inv in Hrun as (w & m0 & Hnew & Hrun).
  injection Hnew as <- <-.
  apply bind_Ok_inv in Hrun as ([] & m0 & Hstore & Hrun).
  unfold model.new_worksheet in Hstore. cbn [name set_uuid_seed worksheets] in Hstore.
  destruct (model.name_taken _ n) eqn:Htaken; [done|]. injection Hstore as <-.
  apply bind_Ok_inv in Hrun as (mg & m0 & Hget & Hrun). injection Hget as <- <-.
  apply bind_Ok_inv in Hrun as ([] & m0 & Hgrant & Hrun).
  unfold set_worksheet_permission in Hgrant. rewrite Hu in Hgrant.
  rewrite (bind_Ok _ _ _ tt _) in Hgrant
    by (apply check_all_true; by apply owner_holds_all).
  injection Hgrant as <-. fold (created n (user_id u) m) in Hrun.
  apply bind_Ok_inv in Hrun as ([] & m1 & Hdash & Hrun).
  apply bind_Ok_inv in Hrun as ([] & m2 & Hhome & Hrun).
  injection Hrun as <- <-.
  exists u. split_and!; try done.
  apply same_identity_trans with m1.
  - destruct (is_dashboard n).
    + by apply populate_worksheet_same_identity in Hdash.
    + injection Hdash as <-. apply same_identity_refl.
  - destruct (is_public_home n).
    + by apply populate_worksheet_same_identity in Hhome.
    + injection Hhome as <-. apply same_identity_refl.
Qed.

Lemma new_worksheet_stored req n m wuuid m' :
  new_worksheet req n m = (Ok wuuid, m') ->
  wuuid = generate_uuid (uuid_seed m) /\
  exists u w, user req = Some u /\ is_authenticated u = true
              /\ worksheets m' !! wuuid = Some w /\ uuid w = wuuid
              /\ name w = n /\ owner_id w = user_id u
              /\ granted m' wuuid (public_group_uuid m') GROUP_OBJECT_PERMISSION_READ.
Proof.
  intros Hrun.
  apply new_worksheet_Ok in Hrun as (u & Hu & Hauth & _ & _ & -> & Hsame).
  split; [done|].
  destruct Hsame as (Hacl & Hpub & _ & Hws).
  destruct (created_lookup n (user_id u) m) as (w0 & Hw0 & Hid & Hname & Hown & _).
  destruct (Hws _ _ Hw0) as (w & Hw & Hid' & Hname' & Hown').
  exists u, w. split_and!; try congruence.
  unfold granted. rewrite Hacl, Hpub. apply created_granted.
Qed.

Lemma ensure_unused_worksheet_name_free req n m e :
  (is_home_worksheet n = true ->
   exists u, user req = Some u /\ home_worksheet (user_name u) = n) ->
  get_worksheet_uuid m (user req) None n = Raise e ->
  isinstance_NotFoundError e = true ->
  ensure_unused_worksheet_name req n m = (Ok tt, m).
Proof.
  intros Hhome Hres He. unfold ensure_unused_worksheet_name.
  rewrite (bind_Ok _ _ _ tt m).
  - unfold try_except, bind, resolve. by rewrite Hres, He.
  - destruct (is_home_worksheet n); [|done].
    destruct Hhome as (u & Hu & Hn); [done|].
    rewrite (bind_Ok _ _ _ _ _ (user_attr_Some _ _ _ _ _ Hu)).
    by rewrite bool_decide_eq_false_2 by (by intros ?).
Qed.

Lemma ensure_unused_worksheet_name_taken req u n m wid :
  user req = Some u ->
  get_worksheet_uuid m (user req) None n = Ok wid ->
  exists msg, ensure_unused_worksheet_name req n m = (Raise (UsageError msg), m).
Proof.
  intros Hu Hres. unfold ensure_unused_worksheet_name.
  assert (try_except
            (_ <- resolve (user req) None n;;
             raise (UsageError ("Worksheet with name " +:+ n +:+ " already exists")))
            isinstance_NotFoundError (fun _ => ret tt) m
          = (Raise (UsageError ("Worksheet with name " +:+ n +:+ " already exists")), m))
    as Hdup.
  { unfold try_except, bind, resolve. by rewrite Hres. }
  destruct (is_home_worksheet n).
  - unfold bind at 1.
    rewrite (bind_Ok _ _ _ _ _ (user_attr_Some _ _ _ _ _ Hu)).
    case_bool_decide; cbn [raise ret]; [eauto|]. rewrite Hdup. eauto.
  - rewrite (bind_Ok _ _ _ tt m) by done. rewrite Hdup. eauto.
Qed.

(** Creation of a worksheet that has no template to populate it. *)
Lemma new_worksheet_plain req u n m e :
  user req = Some u ->
  is_authenticated u = true ->
  (is_home_worksheet n = true -> home_worksheet (user_name u) = n) ->
  get_worksheet_uuid m (user req) None n = Raise e ->
  isinstance_NotFoundError e = true ->
  model.name_taken m n = false ->
  is_dashboard n = false ->
  is_public_home n = false ->
  new_worksheet req n m = (Ok (generate_uuid (uuid_seed m)), created n (user_id u) m).
Proof.
  intros Hu Hauth Hhome Hres He Htaken Hdash Hpub. unfold new_worksheet.
  rewrite (bind_Ok _ _ _ _ _ (user_attr_Some _ _ _ _ _ Hu)). rewrite Hauth. cbn [negb].
  rewrite (bind_Ok _ _ _ tt m)
    by (apply ensure_unused_worksheet_name_free with e; eauto).
  rewrite (bind_Ok _ _ _ _ _ (user_attr_Some _ _ _ _ _ Hu)).
  unfold bind at 1. cbn [Worksheet_new].
  unfold bind at 1. unfold model.new_worksheet at 1.
  cbn [name]. change (model.name_taken (set_uuid_seed _ m) n) with (model.name_taken m n).
  rewrite Htaken.
  unfold bind at 1. cbn [get_model]. unfold bind at 1.
  unfold set_worksheet_permission. rewrite Hu.
  rewrite (bind_Ok _ _ _ tt _) by (apply check_all_true; by apply owner_holds_all).
  cbn [model.set_group_worksheet_permission]. rewrite Hdash, Hpub. done.
Qed.

(** *** The [except NotFoundError] branch of the resolver *)

Lemma wants_home_spec req worksheet_spec :
  wants_home req worksheet_spec = true
  <-> (worksheet_spec = "" \/ worksheet_spec = HOME_WORKSHEET) /\ is_Some (user req).
Proof.
  unfold wants_home. rewrite andb_true_iff, orb_true_iff, !String.eqb_eq.
  by rewrite bool_decide_eq_true.
Qed.

Lemma handler_home req worksheet_spec e m u :
  wants_home req worksheet_spec = true ->
  user req = Some u ->
  get_worksheet_uuid_or_create_handler req worksheet_spec e m
  = new_worksheet req (home_worksheet (user_name u)) m.
Proof.
  intros Hh Hu. unfold get_worksheet_uuid_or_create_handler.
  fold (wants_home req worksheet_spec). rewrite Hh.
  by rewrite (bind_Ok _ _ _ _ _ (user_attr_Some _ _ _ _ _ Hu)).
Qed.

Lemma handler_dashboard req worksheet_spec e m :
  wants_home req worksheet_spec = false ->
  is_dashboard worksheet_spec = true ->
  get_worksheet_uuid_or_create_handler req worksheet_spec e m
  = new_worksheet req worksheet_spec m.
Proof.
  intros Hh Hd. unfold get_worksheet_uuid_or_create_handler.
  fold (wants_home req worksheet_spec). by rewrite Hh, Hd.
Qed.

Lemma handler_reraise req worksheet_spec e m :
  wants_home req worksheet_spec = false ->
  is_dashboard worksheet_spec = false ->
  get_worksheet_uuid_or_create_handler req worksheet_spec e m = (Raise e, m).
Proof.
  intros Hh Hd. unfold get_worksheet_uuid_or_create_handler.
  fold (wants_home req worksheet_spec). by rewrite Hh, Hd.
Qed.

Lemma get_worksheet_uuid_or_create_found req base worksheet_spec m wuuid :
  get_worksheet_uuid m (user req) base worksheet_spec = Ok wuuid ->
  get_worksheet_uuid_or_create req base worksheet_spec m = (Ok wuuid, m).
Proof.
  intros Hres. unfold get_worksheet_uuid_or_create, try_except, resolve.
  by rewrite Hres.
Qed.

Lemma get_worksheet_uuid_or_create_not_found req base worksheet_spec m e :
  get_worksheet_uuid m (user req) base worksheet_spec = Raise e ->
  get_worksheet_uuid_or_create req base worksheet_spec m
  = if isinstance_NotFoundError e
    then get_worksheet_uuid_or_create_handler req worksheet_spec e m
    else (Raise e, m).
Proof.
  intros Hres. unfold get_worksheet_uuid_or_create, try_except, resolve.
  by rewrite Hres.
Qed.

(** A creation attempt for a name that resolves fails, and the failure is
    what the caller of [new_worksheet] gets. *)
Lemma new_worksheet_taken req u n m wid :
  user req = Some u ->
  is_authenticated u = true ->
  get_worksheet_uuid m (user req) None n = Ok wid ->
  exists msg, new_worksheet req n m = (Raise (UsageError msg), m).
Proof.
  intros Hu Hauth Hres. unfold new_worksheet.
  rewrite (bind_Ok _ _ _ _ _ (user_attr_Some _ _ _ _ _ Hu)). rewrite Hauth. cbn [negb].
  destruct (ensure_unused_worksheet_name_taken req u n m wid Hu Hres) as [msg Hpre].
  exists msg. by rewrite (bind_Raise _ _ _ _ _ Hpre).
Qed.

(** *** Fetching a worksheet and the legacy conversion *)

Lemma elem_of_referenced_bundles its b :
  b ∈ referenced_bundles its
  <-> exists item, item ∈ its /\ type item = TYPE_BUNDLE /\ bundle_uuid item = Some b.
Proof.
  unfold referenced_bundles. rewrite elem_of_list_to_set, list_elem_of_omap.
  split; intros (item & Hin & Hb); exists item.
  - by case_decide.
  - destruct Hb as [Ht Hb]. split; [done|]. by case_decide.
Qed.

Lemma elem_of_referenced_subworksheets its s :
  s ∈ referenced_subworksheets its
  <-> exists item, item ∈ its /\ type item = TYPE_WORKSHEET
                   /\ subworksheet_uuid item = Some s.
Proof.
  unfold referenced_subworksheets. rewrite elem_of_list_to_set, list_elem_of_omap.
  split; intros (item & Hin & Hb); exists item.
  - by case_decide.
  - destruct Hb as [Ht Hb]. split; [done|]. by case_decide.
Qed.

Lemma map_M_total {A B} (f : A -> M B) (g : A -> B) (l : list A) m :
  (forall x, x ∈ l -> f x m = (Ok (g x), m)) ->
  map_M f l m = (Ok (g <$> l), m).
Proof.
  induction l as [|x l IH]; intros Hf; [done|].
  cbn [map_M]. rewrite (bind_Ok _ _ _ _ _ (Hf x ltac:(left))).
  rewrite (bind_Ok _ _ _ (g <$> l) m); [done|].
  apply IH. intros y Hy. apply Hf. by right.
Qed.

Lemma elem_of_values_filter {A} (S : gset string) (d : gmap string A) x :
  x ∈ (map_to_list (filter (fun kv => kv.1 ∈ S) d)).*2
  <-> exists k, k ∈ S /\ d !! k = Some x.
Proof.
  rewrite list_elem_of_fmap. split.
  - intros ([k y] & -> & Hin). apply elem_of_map_to_list in Hin.
    apply map_lookup_filter_Some in Hin as [Hk HS]. by exists k.
  - intros (k & HS & Hk). exists (k, x). split; [done|].
    apply elem_of_map_to_list. by apply map_lookup_filter_Some.
Qed.

(** [fetch_worksheet] for a caller who may read the worksheet, when the
    infos of the bundles carry their owner. *)
Lemma fetch_worksheet_allowed req u k m w :
  worksheets m !! k = Some w ->
  user req = Some u ->
  holds GROUP_OBJECT_PERMISSION_READ m (user req) w = true ->
  (forall b i, b ∈ referenced_bundles (items w) -> bundles m !! b = Some i ->
               is_Some (i !! "owner_id")) ->
  exists users,
    fetch_worksheet req k m
    = (Ok (mkDocument (worksheet_view m u w true true) (items w)
             (map_to_list (filter (fun kv => kv.1 ∈ referenced_bundles (items w))
                                  (bundles m))).*2
             users
             (without_items
                <$> (map_to_list
                       (filter (fun kv => kv.1 ∈ referenced_subworksheets (items w))
                               (worksheets m))).*2)
             (map_to_list (default ∅ (group_permissions m !! uuid w)))), m).
Proof.
  intros Hw Hu Hp Howner. unfold fetch_worksheet.
  rewrite (bind_Ok _ _ _ _ _ (get_worksheet_info_allowed _ _ _ true true _ _ Hw Hu Hp)).
  cbn [worksheet_view with_permissions to_dict wi_items wi_owner_id
       wi_group_permissions].
  fold (referenced_bundles (items w)). fold (referenced_subworksheets (items w)).
  unfold bind at 1. cbn [model.get_bundle_infos].
  set (infos := (map_to_list (filter _ (bundles m))).*2).
  rewrite (bind_Ok _ _ _ ((fun b : info => default "" (b !! "owner_id")) <$> infos) m).
  - unfold bind at 1. cbn [model.get_users]. eexists. reflexivity.
  - apply map_M_total. intros i Hi.
    apply elem_of_values_filter in Hi as (b & Hb & Hi).
    destruct (Howner b i Hb Hi) as [o Ho]. by rewrite Ho.
Qed.

(** [convert_items_from_db] renders every item through [legacy_item]. *)
Lemma convert_items_from_db_legacy items m :
  convert_items_from_db items m = (Ok (legacy_item m <$> items), m).
Proof.
  unfold convert_items_from_db. unfold bind at 1. cbn [model.get_bundle_infos].
  apply map_M_total. intros it Hit.
  assert (forall b, bundle_uuid it = Some b ->
            filter (fun kv : string * info =>
                      kv.1 ∈ (list_to_set (omap bundle_uuid items) : gset string))
                   (bundles m) !! b = bundles m !! b) as Hdict.
  { intros b Hb. rewrite map_lookup_filter.
    destruct (bundles m !! b) as [i|]; [|done]. cbn.
    rewrite option_guard_True; [done|].
    cbn. apply elem_of_list_to_set, list_elem_of_omap. by exists it. }
  unfold legacy_item.
  destruct (subworksheet_uuid it) as [s|] eqn:Hs.
  - destruct (truthy (Some s)).
    + unfold bind at 1, try_except, bind, model.get_worksheet.
      destruct (worksheets m !! s) as [w0|]; cbn.
      * destruct (bundle_uuid it) as [b|]; [|done]. by rewrite (Hdict b).
      * destruct (bundle_uuid it) as [b|]; [|done]. by rewrite (Hdict b).
    + unfold bind, ret.
      destruct (bundle_uuid it) as [b|]; [|done]. by rewrite (Hdict b).
  - unfold bind, ret.
    destruct (bundle_uuid it) as [b|]; [|done]. by rewrite (Hdict b).
Qed.

(** *** Grouping of the posted items *)

Lemma assoc_elem_of {A} k (d : list (string * A)) x :
  assoc k d = Some x -> (k, x) ∈ d.
Proof.
  induction d as [|[k' y] d IH]; cbn; [done|].
  destruct (String.eqb_spec k' k) as [->|_].
  - intros [= ->]. left.
  - intros Hd. right. by apply IH.
Qed.

Lemma elem_of_assoc {A} k (d : list (string * A)) x :
  NoDup d.*1 -> (k, x) ∈ d -> assoc k d = Some x.
Proof.
  induction d as [|[k' y] d IH]; cbn; [by intros _ ?%elem_of_nil|].
  intros [Hk' Hnd]%NoDup_cons [[= -> ->]|Hin]%elem_of_cons.
  - by rewrite String.eqb_refl.
  - destruct (String.eqb_spec k' k) as [->|_]; [|by apply IH].
    destruct Hk'. apply list_elem_of_fmap. by exists (k, x).
Qed.

Lemma assoc_Permutation {A} k (d d' : list (string * A)) :
  NoDup d.*1 -> d' ≡ₚ d -> assoc k d' = assoc k d.
Proof.
  intros Hnd Hperm.
  assert (NoDup d'.*1) as Hnd' by by rewrite Hperm.
  destruct (assoc k d) as [x|] eqn:Hd.
  - apply elem_of_assoc; [done|]. rewrite Hperm. by apply assoc_elem_of.
  - destruct (assoc k d') as [x|] eqn:Hd'; [|done].
    apply assoc_elem_of in Hd'. rewrite Hperm in Hd'.
    apply elem_of_assoc in Hd'; [congruence|done].
Qed.

Lemma assoc_setdefault_append d k item k' :
  assoc k' (setdefault_append d k item)
  = if decide (k' = k) then Some (default [] (assoc k d) ++ [item]) else assoc k' d.
Proof.
  induction d as [|[k0 its0] d IH]; cbn.
  - destruct (String.eqb_spec k k') as [->|Hne]; case_decide; congruence.
  - destruct (String.eqb_spec k0 k) as [->|Hne]; cbn.
    + destruct (String.eqb_spec k k') as [->|Hne']; case_decide; congruence.
    + rewrite IH. destruct (String.eqb_spec k0 k') as [->|Hne']; [|done].
      by rewrite decide_False.
Qed.

Lemma keys_setdefault_append d k item k' :
  k' ∈ (setdefault_append d k item).*1 <-> k' = k \/ k' ∈ d.*1.
Proof.
  induction d as [|[k0 its0] d IH]; cbn.
  - rewrite list_elem_of_singleton, elem_of_nil. tauto.
  - destruct (String.eqb_spec k0 k) as [->|Hne]; cbn.
    + rewrite elem_of_cons. tauto.
    + rewrite !elem_of_cons, IH. tauto.
Qed.

Lemma NoDup_setdefault_append d k item :
  NoDup d.*1 -> NoDup (setdefault_append d k item).*1.
Proof.
  induction d as [|[k0 its0] d IH]; cbn.
  - intros _. apply NoDup_singleton.
  - intros [Hk0 Hnd]%NoDup_cons.
    destruct (String.eqb_spec k0 k) as [->|Hne]; cbn.
    + by apply NoDup_cons.
    + apply NoDup_cons. split; [|by apply IH].
      rewrite keys_setdefault_append. intros [->|?]; done.
Qed.

(** The groups built from the items posted so far. *)
Lemma worksheet_to_items_fold l d pre :
  NoDup d.*1 ->
  (forall k, assoc k d = match items_for k pre with [] => None | its => Some its end) ->
  let d' := fold_left (fun d item => setdefault_append d (worksheet_uuid item) item) l d in
  NoDup d'.*1 /\
  forall k, assoc k d' = match items_for k (pre ++ l) with
                         | [] => None
                         | its => Some its
                         end.
Proof.
  revert d pre. induction l as [|item l IH]; intros d pre Hnd Hd; cbn.
  - by rewrite app_nil_r.
  - replace (pre ++ item :: l) with ((pre ++ [item]) ++ l) by by rewrite <- app_assoc.
    apply IH; [by apply NoDup_setdefault_append|].
    intros k. rewrite assoc_setdefault_append. unfold items_for in *.
    rewrite filter_app, filter_cons, filter_nil.
    destruct (decide (k = worksheet_uuid item)) as [->|Hk].
    + rewrite decide_True by done. rewrite Hd.
      by destruct (filter _ pre).
    + rewrite decide_False by done. by rewrite app_nil_r, Hd.
Qed.

Lemma worksheet_to_items_groups new_items :
  NoDup (worksheet_to_items new_items).*1 /\
  forall k its, (k, its) ∈ worksheet_to_items new_items
                <-> its = items_for k new_items /\ its <> [].
Proof.
  destruct (worksheet_to_items_fold new_items [] [] (NoDup_nil_2) (fun _ => eq_refl))
    as [Hnd Hassoc].
  fold (worksheet_to_items new_items) in Hnd, Hassoc. cbn [app] in Hassoc.
  split; [done|]. intros k its. split.
  - intros Hin. apply elem_of_assoc in Hin; [|done]. rewrite Hassoc in Hin.
    destruct (items_for k new_items); [done|]. by injection Hin as <-.
  - intros [-> Hne]. apply assoc_elem_of. rewrite Hassoc.
    by destruct (items_for k new_items).
Qed.

(** *** One group of posted items *)

Lemma bind_inv {A B} (c : M A) (k : A -> M B) m r m' :
  bind c k m = (r, m') ->
  (exists a m0, c m = (Ok a, m0) /\ k a m0 = (r, m'))
  \/ (exists e, c m = (Raise e, m') /\ r = Raise e).
Proof.
  unfold bind. destruct (c m) as [[a|e] m0].
  - intros Hk. left. by exists a, m0.
  - intros [= <- <-]. right. by exists e.
Qed.

Lemma appended_writable req m k item :
  writable req m k -> writable req (appended k item m) k.
Proof.
  intros (w & Hw & Hp & Hf). eexists. split_and!.
  - cbn. rewrite lookup_alter, decide_True by done. by rewrite Hw.
  - exact Hp.
  - exact Hf.
Qed.

Lemma writable_cases req m k : writable req m k \/ ~ writable req m k.
Proof.
  destruct (worksheets m !! k) as [w|] eqn:Hw;
    [|right; intros (w & Hw' & _); congruence].
  destruct (holds GROUP_OBJECT_PERMISSION_ALL m (user req) w) eqn:Hp;
    [|right; intros (w' & Hw' & Hp' & _); congruence].
  destruct (frozen w) as [t|] eqn:Hf;
    [right; intros (w' & Hw' & _ & Hf'); congruence|].
  left. by exists w.
Qed.

Lemma add_worksheet_item_writable req m k item :
  writable req m k ->
  add_worksheet_item req k item m = (Ok tt, appended k item m).
Proof. intros (w & Hw & Hp & Hf). by apply add_worksheet_item_ok with w. Qed.

Lemma add_worksheet_item_not_writable req m k item :
  ~ writable req m k ->
  exists e, add_worksheet_item req k item m = (Raise e, m).
Proof.
  intros Hnw. destruct (worksheets m !! k) as [w|] eqn:Hw.
  - destruct (holds GROUP_OBJECT_PERMISSION_ALL m (user req) w) eqn:Hp.
    + destruct (frozen w) as [t|] eqn:Hf.
      * apply add_worksheet_item_frozen with w; [done|]. by rewrite Hf.
      * destruct Hnw. by exists w.
    + destruct (add_worksheet_item_denied req k item m w Hw Hp) as [msg ->]. eauto.
  - unfold add_worksheet_item.
    destruct (get_worksheet_None k false m Hw) as [msg Hg].
    rewrite (bind_Raise _ _ _ _ _ Hg). eauto.
Qed.

Lemma for_each_append_writable req k (its : list PostedItem) m :
  writable req m k ->
  for_each its (fun item => add_worksheet_item req k (as_tuple item)) m
  = (Ok tt, appended_all k (as_tuple <$> its) m).
Proof.
  revert m. induction its as [|item its IH]; intros m Hwr; [done|].
  cbn [for_each fmap list_fmap appended_all fold_left].
  rewrite (bind_Ok _ _ _ _ _ (add_worksheet_item_writable _ _ _ _ Hwr)).
  apply IH. by apply appended_writable.
Qed.

Lemma appended_all_lookup k l m w :
  worksheets m !! k = Some w ->
  (exists w', worksheets (appended_all k l m) !! k = Some w'
              /\ items w' = items w ++ l /\ uuid w' = uuid w /\ name w' = name w
              /\ owner_id w' = owner_id w /\ frozen w' = frozen w) /\
  (forall k', k' <> k -> worksheets (appended_all k l m) !! k' = worksheets m !! k') /\
  group_permissions (appended_all k l m) = group_permissions m.
Proof.
  revert m w. induction l as [|it l IH]; intros m w Hw.
  - split_and!; [|done..]. exists w. by rewrite app_nil_r.
  - change (appended_all k (it :: l) m) with (appended_all k l (appended k it m)).
    assert (worksheets (appended k it m) !! k
            = Some (set_items (items w ++ [it]) (next_item_id m) w)) as Hw'.
    { cbn. rewrite lookup_alter, decide_True by done. by rewrite Hw. }
    destruct (IH _ _ Hw') as ((w' & Hl & Hits & Hrest) & Hother & Hacl).
    split_and!.
    + exists w'. split; [done|]. split; [|done].
      rewrite Hits. cbn. by rewrite <- app_assoc.
    + intros k' Hne. rewrite (Hother k' Hne). cbn.
      by rewrite lookup_alter, decide_False.
    + by rewrite Hacl.
Qed.

Lemma token_matches_view m u w :
  token_matches (worksheet_view m u w true true) w = true.
Proof. unfold token_matches. cbn. by rewrite !bool_decide_eq_true_2. Qed.

Lemma create_worksheet_items_group_replace req u k its m w :
  worksheets m !! k = Some w ->
  uuid w = k ->
  user req = Some u ->
  holds GROUP_OBJECT_PERMISSION_ALL m (user req) w = true ->
  frozen w = None ->
  create_worksheet_items_group req true (k, its) m
  = (Ok tt, replaced k w (as_tuple <$> its) m).
Proof.
  intros Hw Hid Hu Hp Hf. unfold create_worksheet_items_group.
  rewrite (bind_Ok _ _ _ _ _
             (get_worksheet_info_allowed _ _ _ true true _ _ Hw Hu (holds_all_read _ _ _ Hp))).
  cbv beta iota.
  assert (wi_uuid (worksheet_view m u w true true) = k) as Hk by done.
  rewrite <- Hk in Hw.
  destruct (update_worksheet_items_cases req (worksheet_view m u w true true)
              (StoredItems (as_tuple <$> its)) m w Hw) as (_ & _ & Hwrite).
  etrans; [exact (Hwrite Hp Hf _ eq_refl)|].
  rewrite token_matches_view. by rewrite Hk.
Qed.

Lemma create_worksheet_items_group_append req u k its m w :
  worksheets m !! k = Some w ->
  user req = Some u ->
  holds GROUP_OBJECT_PERMISSION_ALL m (user req) w = true ->
  frozen w = None ->
  create_worksheet_items_group req false (k, its) m
  = (Ok tt, appended_all k (as_tuple <$> its) m).
Proof.
  intros Hw Hu Hp Hf. unfold create_worksheet_items_group.
  rewrite (bind_Ok _ _ _ _ _
             (get_worksheet_info_allowed _ _ _ true true _ _ Hw Hu (holds_all_read _ _ _ Hp))).
  cbv beta iota. apply for_each_append_writable. by exists w.
Qed.

(** A group that fails leaves the model as it was: nothing of it has been
    applied. *)
Lemma create_worksheet_items_group_atomic req replace group m e m' :
  create_worksheet_items_group req replace group m = (Raise e, m') -> m' = m.
Proof.
  destruct group as [k its]. unfold create_worksheet_items_group. intros Hrun.
  apply bind_inv in Hrun as [(info & m0 & Hinfo & Hrun)|(e' & Hinfo & _)];
    [|by apply read_only_get_worksheet_info in Hinfo].
  pose proof Hinfo as Hro. apply read_only_get_worksheet_info in Hro as ->.
  destruct replace.
  - apply update_worksheet_items_effect in Hrun as [->|(? & ? & _ & [=] & _)]. done.
  - destruct its as [|item its]; [done|]. cbn [for_each] in Hrun.
    destruct (writable_cases req m k) as [Hwritable|Hnw].
    + rewrite (bind_Ok _ _ _ _ _ (add_worksheet_item_writable _ _ _ _ Hwritable)) in Hrun.
      rewrite for_each_append_writable in Hrun by by apply appended_writable.
      done.
    + destruct (add_worksheet_item_not_writable req m k (as_tuple item) Hnw) as [e0 Hadd].
      rewrite (bind_Raise _ _ _ _ _ Hadd) in Hrun. by injection Hrun as _ <-.
Qed.

End FacadeProperties.

(** * Properties of the rest of the handlers *)

Section CoverageProperties.
Context `{Collaborators}.

(** ** Creation and its templates *)

Lemma new_worksheet_not_logged_in req u n m :
  user req = Some u ->
  is_authenticated u = false ->
  new_worksheet req n m
  = (Raise (PermissionError "You must be logged in to create a worksheet."), m).
Proof.
  intros Hu Hauth. unfold new_worksheet.
  rewrite (bind_Ok _ _ _ _ _ (user_attr_Some _ _ _ _ _ Hu)). by rewrite Hauth.
Qed.

(** What [populate_worksheet] does for the owner of a stored, unfrozen
    worksheet. *)
Lemma populate_worksheet_run req u wobj nm t m w :
  user req = Some u ->
  worksheets m !! uuid wobj = Some w ->
  uuid w = uuid wobj ->
  owner_id w = user_id u ->
  frozen w = None ->
  populate_worksheet req wobj nm t m
  = match parse_worksheet_form (ws_template_lines nm) m (user req) (uuid wobj) with
    | Raise e => (Raise e, m)
    | Ok parsed =>
        match map_Res convert_item_to_db parsed.1 with
        | Ok its => (Ok tt, populated w its t m)
        | Raise e =>
            if isinstance_UsageError e
            then (Raise (UsageError (Worksheet_str (without_items w)
                                     +:+ " was updated concurrently!")), m)
            else (Raise e, m)
        end
    end.
Proof.
  intros Hu Hw Hid Ho Hf. unfold populate_worksheet.
  unfold bind at 1. cbn [get_model]. unfold bind at 1. unfold lift at 1.
  destruct (parse_worksheet_form _ _ _ _) as [parsed|e]; [|done].
  assert (holds GROUP_OBJECT_PERMISSION_ALL m (user req) w = true) as Hp
    by (rewrite Hu; by apply owner_holds_all).
  rewrite (bind_Ok _ _ _ _ _
             (get_worksheet_info_allowed _ _ _ true true _ _ Hw Hu (holds_all_read _ _ _ Hp))).
  assert (wi_uuid (worksheet_view m u w true true) = uuid wobj) as Hk by done.
  rewrite <- Hk in Hw.
  destruct (map_Res convert_item_to_db parsed.1) as [its|e] eqn:Hconv.
  - destruct (update_worksheet_items_cases req (worksheet_view m u w true true)
                (ConvertItems parsed.1) m w Hw) as (_ & _ & Hwrite).
    rewrite (bind_Ok _ _ _ tt (replaced (uuid w) w its m)).
    + assert (worksheets (replaced (uuid w) w its m) !! uuid wobj
              = Some (set_items its (next_item_id m) w)) as Hw'.
      { cbn. rewrite <- Hid. apply lookup_insert_eq. }
      rewrite (update_worksheet_metadata_allowed _ _ _ _ _ Hw'); [done|].
      rewrite Hu. by apply owner_holds_all.
    + etrans; [exact (Hwrite Hp Hf its Hconv)|]. by rewrite token_matches_view.
  - pose proof (update_worksheet_items_conversion_fails req
                  (worksheet_view m u w true true) (ConvertItems parsed.1) m w e
                  Hw Hp Hf Hconv) as Hfail.
    destruct (isinstance_UsageError e).
    + rewrite (bind_Raise _ _ m (UsageError (Worksheet_str (without_items w)
                                   +:+ " was updated concurrently!")) m); [done|].
      exact Hfail.
    + rewrite (bind_Raise _ _ m e m); [done|]. exact Hfail.
Qed.

(** [new_worksheet] up to the point where the worksheet is stored and
    public; the templates are what is left to run. *)
Lemma new_worksheet_after_created req u n m e :
  user req = Some u ->
  is_authenticated u = true ->
  (is_home_worksheet n = true -> home_worksheet (user_name u) = n) ->
  get_worksheet_uuid m (user req) None n = Raise e ->
  isinstance_NotFoundError e = true ->
  model.name_taken m n = false ->
  new_worksheet req n m
  = ((if is_dashboard n
      then populate_worksheet req (fresh_worksheet n (user_id u) m)
             "dashboard" "CodaLab Dashboard"
      else ret tt) ;;;
     (if is_public_home n
      then populate_worksheet req (fresh_worksheet n (user_id u) m)
             "home" "Public Home"
      else ret tt) ;;;
     ret (generate_uuid (uuid_seed m))) (created n (user_id u) m).
Proof.
  intros Hu Hauth Hhome Hres He Htaken. unfold new_worksheet.
  rewrite (bind_Ok _ _ _ _ _ (user_attr_Some _ _ _ _ _ Hu)). rewrite Hauth. cbn [negb].
  rewrite (bind_Ok _ _ _ tt m)
    by (apply ensure_unused_worksheet_name_free with e; eauto).
  rewrite (bind_Ok _ _ _ _ _ (user_attr_Some _ _ _ _ _ Hu)).
  unfold bind at 1. cbn [Worksheet_new].
  unfold bind at 1. unfold model.new_worksheet at 1.
  cbn [name]. change (model.name_taken (set_uuid_seed _ m) n) with (model.name_taken m n).
  rewrite Htaken.
  unfold bind at 1. cbn [get_model]. unfold bind at 1.
  unfold set_worksheet_permission. rewrite Hu.
  rewrite (bind_Ok _ _ _ tt _) by (apply check_all_true; by apply owner_holds_all).
  done.
Qed.

(** ** Metadata updates *)

Lemma update_worksheet_metadata_Raise req k info m e m' :
  update_worksheet_metadata req k info m = (Raise e, m') -> m' = m.
Proof.
  unfold update_worksheet_metadata, bind, model.get_worksheet.
  destruct (worksheets m !! k) as [w|]; [|by intros [= _ <-]].
  unfold check_worksheet_has_all_permission.
  destruct (holds _ _ _ _); [|by intros [= _ <-]].
  destruct (metadata_loop _ _ _ _ m) as [[md|e0] m1] eqn:El;
    apply read_only_metadata_loop in El as ->; [done|].
  by intros [= _ <-].
Qed.

Lemma metadata_loop_failing_entry req w kv m :
  (forall md, exists e, metadata_entry req w md kv m = (Raise e, m)) ->
  forall info1 info2 md,
    exists e, metadata_loop req w (info1 ++ kv :: info2) md m = (Raise e, m).
Proof.
  intros Hkv info1 info2. induction info1 as [|kv1 info1 IH]; intros md;
    cbn [app metadata_loop].
  - destruct (Hkv md) as [e He]. exists e. by rewrite (bind_Raise _ _ _ _ _ He).
  - unfold bind.
    destruct (metadata_entry req w md kv1 m) as [[md'|e] m1] eqn:He;
      apply read_only_metadata_entry in He as ->; [apply IH|eauto].
Qed.

Lemma update_worksheet_metadata_failing_entry req k kv m :
  (forall w md, exists e, metadata_entry req w md kv m = (Raise e, m)) ->
  forall info1 info2,
    exists e, update_worksheet_metadata req k (info1 ++ kv :: info2) m = (Raise e, m).
Proof.
  intros Hkv info1 info2.
  unfold update_worksheet_metadata, bind, model.get_worksheet.
  destruct (worksheets m !! k) as [w|]; [|eauto].
  unfold check_worksheet_has_all_permission.
  destruct (holds _ _ _ _); [|eauto].
  destruct (metadata_loop_failing_entry req (set_items [] (last_item_id w) w) kv m
              (Hkv _) info1 info2 empty_metadata) as [e ->].
  eauto.
Qed.

Lemma metadata_loop_inert req w info md m :
  Forall (inert w) info -> metadata_loop req w info md m = (Ok md, m).
Proof.
  induction 1 as [|kv info Hkv _ IH]; [done|]. cbn [metadata_loop].
  rewrite (bind_Ok _ _ _ md m); [done|].
  destruct kv; try done. cbn.
  destruct Hkv as [->|Hf]; [done|].
  by rewrite (bool_decide_eq_true_2 _ Hf), andb_false_r.
Qed.

Lemma metadata_written_empty w m : metadata_written w empty_metadata m = m.
Proof.
  unfold metadata_written. rewrite alter_id; [by destruct m|].
  intros [] _. done.
Qed.

Lemma dict_uuid_posted w m :
  dict_uuid w m = match posted_uuid w with
                  | Some k => (Ok k, m)
                  | None => (Raise (KeyError "uuid"), m)
                  end.
Proof.
  induction w as [|kv w IH]; [done|].
  destruct kv; cbn; try done. by destruct (String.eqb key "uuid").
Qed.

(** The stored worksheet after a metadata write to it. *)
Lemma metadata_written_lookup w md m :
  worksheets m !! uuid w = Some w ->
  worksheets (metadata_written w md m) !! uuid w = Some (apply_metadata md w).
Proof. intros Hw. cbn. by rewrite lookup_alter_eq, Hw. Qed.

(** ** Deletion *)

Lemma delete_worksheet_Ok req k force m m' :
  delete_worksheet req k force m = (Ok tt, m') ->
  m' = deleted k m /\ is_Some (worksheets m !! k).
Proof.
  unfold delete_worksheet. intros Hrun.
  apply bind_Ok_inv in Hrun as (w & m0 & Hget & Hrun).
  unfold model.get_worksheet in Hget.
  destruct (worksheets m !! k) as [w0|] eqn:Hw; [|done]. injection Hget as <- <-.
  apply bind_Ok_inv in Hrun as ([] & m0 & Hgate & Hrun).
  unfold check_worksheet_has_all_permission in Hgate.
  destruct (holds _ _ _ _); [|done]. injection Hgate as <-.
  apply bind_Ok_inv in Hrun as ([] & m0 & Hchecks & Hrun).
  assert (m0 = m) as ->.
  { destruct force; cbn [negb] in Hchecks; [by injection Hchecks|].
    apply bind_Ok_inv in Hchecks as ([] & m1 & Hfrozen & Hitems).
    destruct (bool_decide _); [done|]. injection Hfrozen as <-.
    destruct (Nat.ltb _ _); [done|]. by injection Hitems. }
  injection Hrun as <-. split; [done|by eexists].
Qed.

Lemma delete_worksheet_missing req k force m :
  worksheets m !! k = None ->
  delete_worksheet req k force m
  = (Raise (NotFoundError ("No worksheet with uuid " +:+ k)), m).
Proof.
  intros Hw. unfold delete_worksheet, bind, model.get_worksheet. by rewrite Hw.
Qed.

Lemma delete_worksheets_Ok req uuids force m m' :
  delete_worksheets req uuids force m = (Ok tt, m') ->
  NoDup uuids /\
  (forall k, k ∈ uuids -> is_Some (worksheets m !! k) /\ worksheets m' !! k = None) /\
  (forall k, k ∉ uuids -> worksheets m' !! k = worksheets m !! k).
Proof.
  unfold delete_worksheets. revert m.
  induction uuids as [|k0 l IH]; intros m Hrun.
  - injection Hrun as <-. split_and!; [constructor| |done].
    by intros k ?%elem_of_nil.
  - cbn [for_each] in Hrun.
    apply bind_Ok_inv in Hrun as ([] & m1 & Hdel & Hrun).
    apply delete_worksheet_Ok in Hdel as [-> Hk0].
    destruct (IH _ Hrun) as (Hnd & Hin & Hout).
    assert (k0 ∉ l) as Hfresh.
    { intros Hk. destruct (Hin k0 Hk) as [[w Hw] _].
      cbn in Hw. by rewrite lookup_delete_eq in Hw. }
    split_and!.
    + by constructor.
    + intros k [->|Hk]%elem_of_cons.
      * split; [done|]. rewrite (Hout k0 Hfresh). cbn. apply lookup_delete_eq.
      * destruct (Hin k Hk) as [[w Hw] Hgone]. split; [|done].
        cbn in Hw. apply lookup_delete_Some in Hw as [_ Hw]. by eexists.
    + intros k [Hne Hk]%not_elem_of_cons. rewrite (Hout k Hk). cbn.
      by rewrite lookup_delete_ne.
Qed.

Lemma delete_worksheets_owner req u uuids m :
  user req = Some u ->
  NoDup uuids ->
  (forall k, k ∈ uuids -> exists w, worksheets m !! k = Some w /\ owner_id w = user_id u) ->
  exists m', delete_worksheets req uuids true m = (Ok tt, m').
Proof.
  intros Hu. unfold delete_worksheets. revert m.
  induction uuids as [|k0 l IH]; intros m Hnd Hall; [by eexists|].
  apply NoDup_cons in Hnd as [Hfresh Hnd].
  destruct (Hall k0 ltac:(left)) as (w & Hw & Ho).
  assert (holds GROUP_OBJECT_PERMISSION_ALL m (user req) w = true) as Hp
    by (rewrite Hu; by apply owner_holds_all).
  cbn [for_each].
  rewrite (bind_Ok _ _ _ tt (deleted k0 m))
    by by rewrite (delete_worksheet_allowed _ _ _ _ _ Hw Hp).
  apply IH; [done|]. intros k Hk.
  destruct (Hall k ltac:(by right)) as (w' & Hw' & Ho').
  exists w'. split; [|done]. cbn. rewrite lookup_delete_ne; [done|].
  by intros ->.
Qed.

(** ** Permission grants *)

Lemma set_worksheet_permission_allowed req w g p m :
  holds GROUP_OBJECT_PERMISSION_ALL m (user req) w = true ->
  set_worksheet_permission req w g p m
  = (Ok tt,
     set_acl (<[uuid w := <[g := p]> (default ∅ (group_permissions m !! uuid w))]>
                (group_permissions m)) m).
Proof.
  intros Hp. unfold set_worksheet_permission.
  by rewrite (bind_Ok _ _ _ _ _ (check_all_true _ _ _ Hp)).
Qed.

(** ** Traversals *)

Lemma map_M_Forall2 {A B} (f : A -> M B) (l : list A) (ys : list B) m :
  Forall2 (fun x y => f x m = (Ok y, m)) l ys ->
  map_M f l m = (Ok ys, m).
Proof.
  induction 1 as [|x y l ys Hx _ IH]; [done|]. cbn [map_M].
  rewrite (bind_Ok _ _ _ _ _ Hx). by rewrite (bind_Ok _ _ _ _ _ IH).
Qed.

Lemma map_M_some_fails {A B} (f : A -> M B) (g : A -> B) (l : list A) e0 m :
  (forall x, x ∈ l -> f x m = (Ok (g x), m) \/ f x m = (Raise e0, m)) ->
  (exists x, x ∈ l /\ f x m = (Raise e0, m)) ->
  map_M f l m = (Raise e0, m).
Proof.
  induction l as [|x l IH]; intros Hall (x0 & Hin & Hfail).
  - by apply elem_of_nil in Hin.
  - cbn [map_M]. destruct (Hall x ltac:(left)) as [Hok|Hraise].
    + rewrite (bind_Ok _ _ _ _ _ Hok).
      rewrite (bind_Raise _ _ m e0 m); [done|].
      apply IH; [intros y Hy; apply Hall; by right|].
      apply elem_of_cons in Hin as [->|Hin]; [congruence|]. by exists x0.
    + by rewrite (bind_Raise _ _ _ _ _ Hraise).
Qed.

Lemma omap_fmap_None {A B C} (f : B -> option C) (g : A -> B) (l : list A) :
  (forall x, f (g x) = None) -> omap f (g <$> l) = [].
Proof.
  intros Hf. induction l as [|x l IH]; [done|]. cbn. by rewrite Hf.
Qed.

(** ** The fetched document *)

Lemma fetch_worksheet_document req u k m w :
  worksheets m !! k = Some w ->
  user req = Some u ->
  holds GROUP_OBJECT_PERMISSION_READ m (user req) w = true ->
  (forall i, i ∈ included_infos (items w) m -> is_Some (i !! "owner_id")) ->
  fetch_worksheet req k m
  = (Ok (mkDocument (worksheet_view m u w true true) (items w)
           (included_infos (items w) m)
           (filter (fun usr => user_id usr
                               ∈ (list_to_set (info_owner <$> included_infos (items w) m)
                                  ∪ {[owner_id w]} : gset string))
                   (users m))
           (without_items
              <$> (map_to_list
                     (filter (fun kv => kv.1 ∈ referenced_subworksheets (items w))
                             (worksheets m))).*2)
           (map_to_list (default ∅ (group_permissions m !! uuid w)))), m).
Proof.
  intros Hw Hu Hp Howner. unfold fetch_worksheet.
  rewrite (bind_Ok _ _ _ _ _ (get_worksheet_info_allowed _ _ _ true true _ _ Hw Hu Hp)).
  cbn [worksheet_view with_permissions to_dict wi_items wi_owner_id
       wi_group_permissions].
  fold (referenced_bundles (items w)). fold (referenced_subworksheets (items w)).
  unfold bind at 1. cbn [model.get_bundle_infos].
  fold (included_infos (items w) m).
  rewrite (bind_Ok _ _ _ (info_owner <$> included_infos (items w) m) m); [done|].
  apply map_M_total. intros i Hi.
  unfold info_owner. destruct (Howner i Hi) as [o Ho]. by rewrite Ho.
Qed.

Lemma fetch_worksheet_missing_owner req u k m w :
  worksheets m !! k = Some w ->
  user req = Some u ->
  holds GROUP_OBJECT_PERMISSION_READ m (user req) w = true ->
  (exists i, i ∈ included_infos (items w) m /\ i !! "owner_id" = None) ->
  fetch_worksheet req k m = (Raise (KeyError "owner_id"), m).
Proof.
  intros Hw Hu Hp Hmissing. unfold fetch_worksheet.
  rewrite (bind_Ok _ _ _ _ _ (get_worksheet_info_allowed _ _ _ true true _ _ Hw Hu Hp)).
  cbn [worksheet_view with_permissions to_dict wi_items wi_owner_id
       wi_group_permissions].
  fold (referenced_bundles (items w)).
  unfold bind at 1. cbn [model.get_bundle_infos].
  fold (included_infos (items w) m).
  rewrite (bind_Raise _ _ m (KeyError "owner_id") m); [done|].
  apply map_M_some_fails with info_owner.
  - intros i _. unfold info_owner. destruct (i !! "owner_id"); [by left|by right].
  - destruct Hmissing as (i & Hi & Hnone). exists i. by rewrite Hnone.
Qed.

(** ** A whole batch of posted items *)

Lemma holds_ext p m m' u w w' :
  same_access m m' -> uuid w' = uuid w -> owner_id w' = owner_id w ->
  holds p m' u w' = holds p m u w.
Proof.
  intros (Hacl & Hmem & Hpub) Hid Ho.
  unfold holds, model.permission_level, model.in_group.
  by rewrite Hacl, Hmem, Hpub, Hid, Ho.
Qed.

Lemma same_access_appended_all k l m : same_access m (appended_all k l m).
Proof.
  revert m. induction l as [|it l IH]; intros m; [done|].
  change (appended_all k (it :: l) m) with (appended_all k l (appended k it m)).
  destruct (IH (appended k it m)) as (Hacl & Hmem & Hpub). by split_and!.
Qed.

Lemma assoc_None {A} k (d : list (string * A)) : k ∉ d.*1 -> assoc k d = None.
Proof.
  induction d as [|[k' x] d IH]; cbn; [done|].
  intros [Hne Hk]%not_elem_of_cons.
  destruct (String.eqb_spec k' k) as [->|_]; [done|by apply IH].
Qed.

Lemma for_each_groups_append req u (d : list (string * list PostedItem)) m :
  user req = Some u ->
  NoDup d.*1 ->
  (forall k, k ∈ d.*1 -> writable req m k) ->
  exists m',
    for_each d (create_worksheet_items_group req false) m = (Ok tt, m') /\
    same_access m m' /\
    forall k w, worksheets m !! k = Some w ->
      exists w', worksheets m' !! k = Some w'
                 /\ items w' = items w ++ (as_tuple <$> default [] (assoc k d))
                 /\ uuid w' = uuid w /\ owner_id w' = owner_id w
                 /\ frozen w' = frozen w.
Proof.
  intros Hu. revert m. induction d as [|[k0 its0] d IH]; intros m Hnd Hwr.
  - exists m. split_and!; [done..|]. intros k w Hw. exists w. by rewrite app_nil_r.
  - cbn in Hnd. apply NoDup_cons in Hnd as [Hfresh Hnd].
    destruct (Hwr k0 ltac:(left)) as (w0 & Hw0 & Hp0 & Hf0).
    set (m1 := appended_all k0 (as_tuple <$> its0) m).
    pose proof (same_access_appended_all k0 (as_tuple <$> its0) m) as Hacc1.
    destruct (appended_all_lookup k0 (as_tuple <$> its0) m w0 Hw0)
      as ((w1 & Hw1 & Hits1 & Hid1 & _ & Ho1 & Hfr1) & Hother & _).
    fold m1 in Hacc1, Hw1, Hother.
    destruct (IH m1 Hnd) as (m' & Hrun & Hacc & Hitems).
    { intros k Hk. destruct (Hwr k ltac:(by right)) as (w & Hw & Hp & Hf).
      exists w. split_and!; [|by rewrite (holds_ext _ m m1 _ w w Hacc1 eq_refl eq_refl)|done].
      rewrite Hother; [done|]. by intros ->. }
    exists m'. split_and!.
    + cbn [for_each].
      by rewrite (bind_Ok _ _ _ tt m1)
        by by apply create_worksheet_items_group_append with u w0.
    + destruct Hacc1 as (? & ? & ?), Hacc as (? & ? & ?). split_and!; congruence.
    + intros k w Hw. cbn [assoc]. destruct (String.eqb_spec k0 k) as [<-|Hne].
      * assert (w = w0) as -> by congruence.
        destruct (Hitems k0 w1 Hw1) as (w' & Hw' & Hits & Hid & Ho & Hfr).
        exists w'. split_and!; [done| |congruence..].
        rewrite Hits, Hits1, (assoc_None k0 d Hfresh). cbn. by rewrite app_nil_r.
      * rewrite <- (Hother k) in Hw by done. by apply Hitems.
Qed.

(** ** A batch of grants *)

Lemma grant_stored_granted q m :
  granted (grant_stored q m) (object_uuid q) (group_uuid q) (permission q).
Proof.
  unfold granted. cbn. rewrite lookup_insert_eq. cbn. apply lookup_insert_eq.
Qed.

Lemma grant_stored_other q m k g p :
  (object_uuid q, group_uuid q) <> (k, g) ->
  granted m k g p -> granted (grant_stored q m) k g p.
Proof.
  intros Hne Hg. unfold granted in *. cbn.
  destruct (decide (object_uuid q = k)) as [Hk|Hk].
  - rewrite Hk, lookup_insert_eq. cbn. rewrite lookup_insert_ne; [done|].
    intros Hgq. apply Hne. by rewrite Hk, Hgq.
  - by rewrite lookup_insert_ne.
Qed.

Lemma set_worksheet_permissions_owner req u (l : list PostedPermission) m :
  user req = Some u ->
  (forall q, q ∈ l ->
     exists w, worksheets m !! object_uuid q = Some w
               /\ owner_id w = user_id u /\ uuid w = object_uuid q) ->
  for_each l
    (fun p =>
       worksheet <- model.get_worksheet (object_uuid p) false ;;
       set_worksheet_permission req worksheet (group_uuid p) (permission p)) m
  = (Ok tt, fold_left (fun m q => grant_stored q m) l m).
Proof.
  intros Hu. revert m. induction l as [|q l IH]; intros m Hall; [done|].
  destruct (Hall q ltac:(left)) as (w & Hw & Ho & Hid).
  cbn [for_each fold_left].
  rewrite (bind_Ok _ _ _ tt (grant_stored q m)).
  - apply IH. intros q' Hq'. apply Hall. by right.
  - rewrite (bind_Ok _ _ _ _ _ (get_worksheet_Some _ false _ _ Hw)).
    rewrite set_worksheet_permission_allowed
      by (rewrite Hu; by apply owner_holds_all).
    unfold grant_stored. cbn. by rewrite Hid.
Qed.

Lemma fold_grant_stored_granted (l : list PostedPermission) m k g p :
  (forall q, q ∈ l -> (object_uuid q, group_uuid q) <> (k, g)) ->
  granted m k g p ->
  granted (fold_left (fun m q => grant_stored q m) l m) k g p.
Proof.
  revert m. induction l as [|q l IH]; intros m Hne Hg; [done|]. cbn.
  apply IH; [intros q' Hq'; apply Hne; by right|].
  apply grant_stored_other; [|done]. apply Hne. left.
Qed.

Lemma fold_grant_stored_worksheets (l : list PostedPermission) m :
  worksheets (fold_left (fun m q => grant_stored q m) l m) = worksheets m.
Proof. revert m. induction l as [|q l IH]; intros m; [done|]. cbn. by rewrite IH. Qed.

(** ** A batch of creations *)

Lemma new_worksheet_keeps_keys req n m wuuid m' :
  new_worksheet req n m = (Ok wuuid, m') ->
  is_Some (worksheets m' !! wuuid) /\
  forall k, is_Some (worksheets m !! k) -> is_Some (worksheets m' !! k).
Proof.
  intros Hrun. split.
  - apply new_worksheet_stored in Hrun as (_ & u & w & _ & _ & Hw & _). by eexists.
  - apply new_worksheet_Ok in Hrun as (u & _ & _ & _ & _ & _ & (_ & _ & _ & Hkeys)).
    intros k [w Hw].
    assert (is_Some (worksheets (created n (user_id u) m) !! k)) as [w0 Hw0].
    { cbn. destruct (decide (generate_uuid (uuid_seed m) = k)) as [<-|Hne].
      - rewrite lookup_insert_eq. by eexists.
      - rewrite lookup_insert_ne by done. by eexists. }
    destruct (Hkeys k w0 Hw0) as (w' & Hw' & _). by eexists.
Qed.

(** ** The creations of the resolver *)

Lemma handler_creation req worksheet_spec e m u :
  wants_home req worksheet_spec = true \/ is_dashboard worksheet_spec = true ->
  user req = Some u ->
  get_worksheet_uuid_or_create_handler req worksheet_spec e m
  = new_worksheet req (creation_name req u worksheet_spec) m.
Proof.
  intros Hcase Hu. unfold creation_name.
  destruct (wants_home req worksheet_spec) eqn:Hh.
  - by apply handler_home.
  - destruct Hcase as [|Hd]; [done|]. by apply handler_dashboard.
Qed.

Lemma handler_no_user req worksheet_spec e m :
  is_dashboard worksheet_spec = true ->
  user req = None ->
  get_worksheet_uuid_or_create_handler req worksheet_spec e m
  = (Raise (AttributeError "'NoneType' object has no attribute 'is_authenticated'"), m).
Proof.
  intros Hd Hu. rewrite handler_dashboard; [|unfold wants_home|done].
  - unfold new_worksheet, bind, user_attr. by rewrite Hu.
  - rewrite Hu. rewrite bool_decide_eq_false_2 by (by intros [? ?]).
    apply andb_false_r.
Qed.

(** [new_worksheet] for an authenticated caller and an unused name that is
    not the public home: what the dashboard template makes of it. *)
Lemma new_worksheet_templates req u n m e :
  user req = Some u ->
  is_authenticated u = true ->
  (is_home_worksheet n = true -> home_worksheet (user_name u) = n) ->
  get_worksheet_uuid m (user req) None n = Raise e ->
  isinstance_NotFoundError e = true ->
  model.name_taken m n = false ->
  is_public_home n = false ->
  new_worksheet req n m
  = if is_dashboard n then
      match parse_worksheet_form (ws_template_lines "dashboard")
              (created n (user_id u) m) (user req) (generate_uuid (uuid_seed m)) with
      | Raise e' => (Raise e', created n (user_id u) m)
      | Ok parsed =>
          match map_Res convert_item_to_db parsed.1 with
          | Ok its =>
              (Ok (generate_uuid (uuid_seed m)),
               populated (fresh_worksheet n (user_id u) m) its "CodaLab Dashboard"
                 (created n (user_id u) m))
          | Raise e' =>
              if isinstance_UsageError e'
              then (Raise (UsageError
                             (Worksheet_str (without_items (fresh_worksheet n (user_id u) m))
                              +:+ " was updated concurrently!")),
                    created n (user_id u) m)
              else (Raise e', created n (user_id u) m)
          end
      end
    else (Ok (generate_uuid (uuid_seed m)), created n (user_id u) m).
Proof.
  intros Hu Hauth Hhome Hres He Htaken Hpub.
  assert (worksheets (created n (user_id u) m) !! generate_uuid (uuid_seed m)
          = Some (fresh_worksheet n (user_id u) m)) as Hstored
    by apply lookup_insert_eq.
  rewrite (new_worksheet_after_created req u n m e) by done. rewrite Hpub.
  destruct (is_dashboard n); [|done].
  unfold bind at 1.
  rewrite (populate_worksheet_run req u _ _ _ _ (fresh_worksheet n (user_id u) m))
    by done.
  cbn [uuid fresh_worksheet].
  destruct (parse_worksheet_form _ _ _ _) as [parsed|e']; [|done].
  destruct (map_Res convert_item_to_db parsed.1) as [its|e']; [done|].
  by destruct (isinstance_UsageError e').
Qed.

Lemma populated_lookup n owner its t m :
  exists w,
    worksheets (populated (fresh_worksheet n owner m) its t (created n owner m))
      !! generate_uuid (uuid_seed m) = Some w /\
    name w = n /\ owner_id w = owner /\ items w = its /\ title w = Some t /\
    frozen w = None.
Proof.
  eexists. split.
  - cbn. rewrite lookup_alter_eq, lookup_insert_eq. reflexivity.
  - done.
Qed.

End CoverageProperties.

(** * Statements of the specification, settled on the handlers *)

Import Sample.

(** C1.  [update_worksheet_items] runs the All-permission gate, then the
    not-frozen gate, then the conversion of the items, then the conditional
    store write keyed on the version token of the caller's view
    ([last_item_id], length of [items]).  A permission failure wins over
    everything that follows it and a frozen failure over conversion and
    write; when the token does not match the stored one, the outcome is the
    single error ["... was updated concurrently!"] and the model is left as
    it was (the write is attempted once, never again with a fresh token).
    A conversion that fails keeps the write from happening.  For a view that [get_worksheet_info] fetched with its items, the token is
    the [last_item_id] and the number of items the worksheet had then. *)
Theorem update_worksheet_items_sequencing `{Collaborators} {I} (req : Request)
    (worksheet_info : WorksheetInfo I) (new_items : NewItems) (m : Model)
    (w : Worksheet) :
  worksheets m !! wi_uuid worksheet_info = Some w ->
  (holds GROUP_OBJECT_PERMISSION_ALL m (user req) w = false ->
   exists msg,
     update_worksheet_items req worksheet_info new_items m
     = (Raise (PermissionError msg), m)) /\
  (holds GROUP_OBJECT_PERMISSION_ALL m (user req) w = true ->
   is_Some (frozen w) ->
   update_worksheet_items req worksheet_info new_items m
   = (Raise (UsageError ("Cannot modify frozen worksheet " +:+ uuid w)), m)) /\
  (holds GROUP_OBJECT_PERMISSION_ALL m (user req) w = true ->
   frozen w = None ->
   forall db_items, converted new_items = Ok db_items ->
     update_worksheet_items req worksheet_info new_items m
     = if token_matches worksheet_info w
       then (Ok tt, replaced (wi_uuid worksheet_info) w db_items m)
       else (Raise (UsageError (Worksheet_str (without_items w)
                                +:+ " was updated concurrently!")), m)) /\
  (holds GROUP_OBJECT_PERMISSION_ALL m (user req) w = true ->
   frozen w = None ->
   forall e, converted new_items = Raise e ->
     update_worksheet_items req worksheet_info new_items m
     = if isinstance_UsageError e
       then (Raise (UsageError (Worksheet_str (without_items w)
                                +:+ " was updated concurrently!")), m)
       else (Raise e, m)) /\
  (forall m0 u w0 fetch_permission,
     token_matches (worksheet_view m0 u w0 true fetch_permission) w
     = bool_decide (last_item_id w = last_item_id w0)
       && bool_decide (length (items w) = length (items w0))).
Proof.
  intros Hw.
  destruct (update_worksheet_items_cases req worksheet_info new_items m w Hw)
    as (Hdenied & Hfrozen & Hwrite).
  split_and!; [done..| |].
  - intros Hp Hf e. by apply update_worksheet_items_conversion_fails.
  - intros m0 u w0 fetch_permission. by destruct fetch_permission.
Qed.

(** A caller whose view of [w1] is out of date gets the one error and the
    model is untouched. *)
Lemma update_worksheet_items_sequencing_witness :
  update_worksheet_items (as_user alice) stale_view (StoredItems [note; note]) m1
  = (Raise (UsageError
       "Worksheet(uuid='w1', name='notes') was updated concurrently!"), m1).
Proof.
  destruct (update_worksheet_items_sequencing (as_user alice) stale_view
              (StoredItems [note; note]) m1 w1 eq_refl) as (_ & _ & Hwrite & _).
  exact (Hwrite eq_refl eq_refl [note; note] eq_refl).
Defined.

(** On the frozen worksheet [w2] its owner retitles it: the update goes
    through and the title changes. *)
Lemma frozen_metadata_update_applies :
  frozen <$> worksheets m1 !! "w2" = Some (Some 5%Z) /\
  title <$> worksheets m1 !! "w2" = Some None /\
  (update_worksheet_metadata (as_user alice) "w2" [key_title (Some "Final")] m1).1
  = Ok tt /\
  title <$> worksheets
    (update_worksheet_metadata (as_user alice) "w2" [key_title (Some "Final")] m1).2
    !! "w2" = Some (Some "Final").
Proof. vm_compute. done. Qed.

(** C2 (amended).  On a worksheet whose frozen timestamp is set, whole-list
    item replacement ([update_worksheet_items]) and single-item append
    ([add_worksheet_item]) are rejected and the model is left as it was.
    [update_worksheet_metadata] has no frozen gate: for a caller holding All
    permission, whenever the loop over the entries yields a metadata dict,
    that dict is written to the frozen worksheet. *)
Theorem frozen_rejects_item_mutations `{Collaborators} (req : Request) (m : Model)
    (k : string) (w : Worksheet) :
  worksheets m !! k = Some w ->
  is_Some (frozen w) ->
  (forall I (worksheet_info : WorksheetInfo I) new_items,
     wi_uuid worksheet_info = k ->
     exists e, update_worksheet_items req worksheet_info new_items m = (Raise e, m)) /\
  (forall item, exists e, add_worksheet_item req k item m = (Raise e, m)) /\
  (holds GROUP_OBJECT_PERMISSION_ALL m (user req) w = true ->
   forall info md,
     metadata_loop req (without_items w) info empty_metadata m = (Ok md, m) ->
     update_worksheet_metadata req k info m = (Ok tt, metadata_written w md m)).
Proof.
  intros Hw Hf. repeat split.
  - intros I worksheet_info new_items <-.
    by apply update_worksheet_items_frozen with (w := w).
  - intros item. by apply add_worksheet_item_frozen with (w := w).
  - intros Hp info md Hloop.
    by rewrite (update_worksheet_metadata_allowed _ _ _ _ _ Hw Hp), Hloop.
Qed.

Lemma frozen_rejects_item_mutations_witness :
  (exists e, add_worksheet_item (as_user alice) "w2" note m1 = (Raise e, m1)) /\
  update_worksheet_metadata (as_user alice) "w2" [key_tags ["done"]] m1
  = (Ok tt, metadata_written w2 (mkMetadata None None None (Some ["done"]) None) m1).
Proof.
  destruct (frozen_rejects_item_mutations (as_user alice) m1 "w2" w2 eq_refl
              (ex_intro _ 5%Z eq_refl)) as (_ & Happend & Hmeta).
  split; [apply Happend|].
  exact (Hmeta eq_refl [key_tags ["done"]] _ eq_refl).
Defined.

(** Two requests of bob resolve his home worksheet while it does not exist
    yet.  Both resolutions fail with [NotFoundError]; the first request
    creates the worksheet; the second one, which runs its [except] branch in
    the model the first one left, gets the name-collision error, although
    the name now resolves to the winner's worksheet.  The same happens to
    bob when alice has just created the dashboard. *)
Lemma race_loser_gets_name_collision :
  let not_found := NotFoundError "No worksheet found whose name is 'home-bob'" in
  let won := created "home-bob" "u2" m1 in
  get_worksheet_uuid m1 (Some bob) None "" = Raise not_found /\
  get_worksheet_uuid_or_create (as_user bob) None "" m1 = (Ok "0x0", won) /\
  get_worksheet_uuid won (Some bob) None "" = Ok "0x0" /\
  get_worksheet_uuid_or_create_handler (as_user bob) "" not_found won
  = (Raise (UsageError "Worksheet with name home-bob already exists"), won) /\
  let not_found' := NotFoundError "No worksheet found whose name is 'dashboard'" in
  let won' := (get_worksheet_uuid_or_create (as_user alice) None "dashboard" m1).2 in
  get_worksheet_uuid m1 (Some bob) None "dashboard" = Raise not_found' /\
  (get_worksheet_uuid_or_create (as_user alice) None "dashboard" m1).1 = Ok "0x0" /\
  get_worksheet_uuid won' (Some bob) None "dashboard" = Ok "0x0" /\
  get_worksheet_uuid_or_create_handler (as_user bob) "dashboard" not_found' won'
  = (Raise (UsageError "Worksheet with name dashboard already exists"), won').
Proof. vm_compute. done. Qed.

(** C3 (amended).  [get_worksheet_uuid_or_create] has no second resolution:
    after a [NotFoundError] it runs the [except] branch once.  When that
    branch attempts a creation (home or dashboard) for an authenticated
    caller and the name resolves by then, because somebody else has created
    the worksheet, the creation fails with a [UsageError], the model is left
    as it was, and that error is the outcome. *)
Theorem creation_collision_propagates `{Collaborators} (req : Request)
    (worksheet_spec : string) (e : exn) (m : Model) (u : User) (wid : string) :
  user req = Some u ->
  is_authenticated u = true ->
  wants_home req worksheet_spec = true \/ is_dashboard worksheet_spec = true ->
  get_worksheet_uuid m (user req) None
    (if wants_home req worksheet_spec then home_worksheet (user_name u)
     else worksheet_spec) = Ok wid ->
  (exists msg,
     get_worksheet_uuid_or_create_handler req worksheet_spec e m
     = (Raise (UsageError msg), m)) /\
  (forall base,
     get_worksheet_uuid m (user req) base worksheet_spec = Raise e ->
     isinstance_NotFoundError e = true ->
     get_worksheet_uuid_or_create req base worksheet_spec m
     = get_worksheet_uuid_or_create_handler req worksheet_spec e m).
Proof.
  intros Hu Hauth Hcase Hres. split.
  - destruct (wants_home req worksheet_spec) eqn:Hh.
    + rewrite (handler_home _ _ _ _ u) by done.
      by apply new_worksheet_taken with u wid.
    + destruct Hcase as [|Hd]; [done|].
      rewrite handler_dashboard by done.
      by apply new_worksheet_taken with u wid.
  - intros base Hbase He.
    by rewrite (get_worksheet_uuid_or_create_not_found _ _ _ _ _ Hbase), He.
Qed.

Lemma creation_collision_propagates_witness :
  exists msg,
    get_worksheet_uuid_or_create_handler (as_user bob) ""
      (NotFoundError "No worksheet found whose name is 'home-bob'")
      (created "home-bob" "u2" m1)
    = (Raise (UsageError msg), created "home-bob" "u2" m1).
Proof.
  exact (proj1 (creation_collision_propagates (as_user bob) ""
                  (NotFoundError "No worksheet found whose name is 'home-bob'")
                  (created "home-bob" "u2" m1) bob "0x0"
                  eq_refl eq_refl (or_introl eq_refl) eq_refl)).
Defined.

(** The resolution fails with [NotFoundError] in each of these requests,
    and no uuid is returned.  A caller who is present but not logged in asks
    for the home worksheet, then for the dashboard: [PermissionError], and
    nothing is created.  A request without user asks for the dashboard:
    [AttributeError].  Alice asks for the dashboard while its template
    cannot be parsed: the parse error, and the worksheet that was stored
    before the template was read stays. *)
Lemma creation_can_be_refused :
  let denied := PermissionError "You must be logged in to create a worksheet." in
  get_worksheet_uuid m1 (Some anonymous) None ""
  = Raise (NotFoundError "No worksheet found whose name is 'home-public'") /\
  get_worksheet_uuid_or_create (as_user anonymous) None "" m1 = (Raise denied, m1) /\
  get_worksheet_uuid m1 (Some anonymous) None "dashboard"
  = Raise (NotFoundError "No worksheet found whose name is 'dashboard'") /\
  get_worksheet_uuid_or_create (as_user anonymous) None "dashboard" m1
  = (Raise denied, m1) /\
  get_worksheet_uuid m1 None None "dashboard"
  = Raise (NotFoundError "No worksheet found whose name is 'dashboard'") /\
  get_worksheet_uuid_or_create (mkRequest None 100) None "dashboard" m1
  = (Raise (AttributeError "'NoneType' object has no attribute 'is_authenticated'"),
     m1) /\
  @get_worksheet_uuid broken_templates m1 (Some alice) None "dashboard"
  = Raise (NotFoundError "No worksheet found whose name is 'dashboard'") /\
  @get_worksheet_uuid_or_create broken_templates (as_user alice) None "dashboard" m1
  = (Raise (UsageError "Unable to parse the form"),
     @created broken_templates "dashboard" "u1" m1) /\
  name <$> worksheets (@created broken_templates "dashboard" "u1" m1) !! "0x0"
  = Some "dashboard".
Proof. vm_compute. done. Qed.

(** C4 (amended).  [get_worksheet_uuid_or_create] returns the uuid that the
    resolution finds and changes nothing.  An error of the resolution other
    than [NotFoundError] is passed on.  After a [NotFoundError]: if the spec
    is empty or the home token and [request.user] is present, the worksheet
    named [home_worksheet(user_name)] is to be created; otherwise, if the
    spec is the dashboard, the worksheet named by the spec; in every other
    case the [NotFoundError] is re-raised and nothing changes.  The creation
    is one call of [new_worksheet] and has its outcomes.  Without
    [request.user] (dashboard only) it ends in [AttributeError], for a
    caller who is not logged in in [PermissionError], for a name that
    resolves by then in [UsageError], each time with nothing changed.  For a
    logged-in caller and an unused name it stores the worksheet and grants
    the public group Read; a worksheet without template is complete then
    and its fresh uuid is returned; the dashboard is populated from its
    template first, and when the template cannot be parsed, the parse error
    is the outcome and the stored worksheet stays.  Whenever a uuid is
    returned after a [NotFoundError], it is the fresh uuid, and the model
    holds under it a worksheet of that name, owned by the caller and
    readable by the public group. *)
Theorem get_worksheet_uuid_or_create_outcomes `{Collaborators} (req : Request)
    (base : option string) (worksheet_spec : string) (m : Model) :
  (forall wuuid,
     get_worksheet_uuid m (user req) base worksheet_spec = Ok wuuid ->
     get_worksheet_uuid_or_create req base worksheet_spec m = (Ok wuuid, m)) /\
  (forall e,
     get_worksheet_uuid m (user req) base worksheet_spec = Raise e ->
     (isinstance_NotFoundError e = false ->
      get_worksheet_uuid_or_create req base worksheet_spec m = (Raise e, m)) /\
     (isinstance_NotFoundError e = true ->
      (wants_home req worksheet_spec = true
       <-> (worksheet_spec = "" \/ worksheet_spec = HOME_WORKSHEET)
           /\ is_Some (user req)) /\
      (wants_home req worksheet_spec = false ->
       is_dashboard worksheet_spec = false ->
       get_worksheet_uuid_or_create req base worksheet_spec m = (Raise e, m)) /\
      (wants_home req worksheet_spec = true \/ is_dashboard worksheet_spec = true ->
       (user req = None ->
        exists msg,
          get_worksheet_uuid_or_create req base worksheet_spec m
          = (Raise (AttributeError msg), m)) /\
       (forall u,
          user req = Some u ->
          (wants_home req worksheet_spec = true ->
           creation_name req u worksheet_spec = home_worksheet (user_name u)) /\
          (wants_home req worksheet_spec = false ->
           creation_name req u worksheet_spec = worksheet_spec) /\
          (is_authenticated u = false ->
           get_worksheet_uuid_or_create req base worksheet_spec m
           = (Raise (PermissionError "You must be logged in to create a worksheet."),
              m)) /\
          (forall wid,
             is_authenticated u = true ->
             get_worksheet_uuid m (user req) None (creation_name req u worksheet_spec)
             = Ok wid ->
             exists msg,
               get_worksheet_uuid_or_create req base worksheet_spec m
               = (Raise (UsageError msg), m)) /\
          (forall e',
             is_authenticated u = true ->
             get_worksheet_uuid m (user req) None (creation_name req u worksheet_spec)
             = Raise e' ->
             isinstance_NotFoundError e' = true ->
             (wants_home req worksheet_spec = false ->
              is_home_worksheet worksheet_spec = true ->
              home_worksheet (user_name u) = worksheet_spec) ->
             model.name_taken m (creation_name req u worksheet_spec) = false ->
             is_public_home (creation_name req u worksheet_spec) = false ->
             (is_dashboard (creation_name req u worksheet_spec) = false ->
              get_worksheet_uuid_or_create req base worksheet_spec m
              = (Ok (generate_uuid (uuid_seed m)),
                 created (creation_name req u worksheet_spec) (user_id u) m)) /\
             (forall e'',
                is_dashboard (creation_name req u worksheet_spec) = true ->
                parse_worksheet_form (ws_template_lines "dashboard")
                  (created (creation_name req u worksheet_spec) (user_id u) m)
                  (user req) (generate_uuid (uuid_seed m)) = Raise e'' ->
                get_worksheet_uuid_or_create req base worksheet_spec m
                = (Raise e'',
                   created (creation_name req u worksheet_spec) (user_id u) m)) /\
             (forall parsed its,
                is_dashboard (creation_name req u worksheet_spec) = true ->
                parse_worksheet_form (ws_template_lines "dashboard")
                  (created (creation_name req u worksheet_spec) (user_id u) m)
                  (user req) (generate_uuid (uuid_seed m)) = Ok parsed ->
                map_Res convert_item_to_db parsed.1 = Ok its ->
                exists m' w,
                  get_worksheet_uuid_or_create req base worksheet_spec m
                  = (Ok (generate_uuid (uuid_seed m)), m') /\
                  worksheets m' !! generate_uuid (uuid_seed m) = Some w /\
                  name w = creation_name req u worksheet_spec /\
                  owner_id w = user_id u /\ items w = its /\
                  title w = Some "CodaLab Dashboard" /\ frozen w = None)) /\
          (forall wuuid m',
             get_worksheet_uuid_or_create req base worksheet_spec m = (Ok wuuid, m') ->
             wuuid = generate_uuid (uuid_seed m) /\
             is_authenticated u = true /\
             exists w,
               worksheets m' !! wuuid = Some w /\ uuid w = wuuid /\
               name w = creation_name req u worksheet_spec /\
               owner_id w = user_id u /\
               granted m' wuuid (public_group_uuid m')
                 GROUP_OBJECT_PERMISSION_READ))))).
Proof.
  split; [apply get_worksheet_uuid_or_create_found|].
  intros e Hres.
  rewrite (get_worksheet_uuid_or_create_not_found _ _ _ _ _ Hres).
  split; [by intros ->|]. intros ->.
  split; [apply wants_home_spec|]. split; [apply handler_reraise|].
  intros Hcase. split.
  - intros Hnone. eexists. apply handler_no_user; [|done].
    destruct Hcase as [Hh|Hd]; [|done].
    apply wants_home_spec in Hh as [_ [u Hu]]. congruence.
  - intros u Hu. rewrite (handler_creation _ _ _ _ u Hcase Hu).
    assert (is_home_worksheet (creation_name req u worksheet_spec) = true ->
            (wants_home req worksheet_spec = false ->
             is_home_worksheet worksheet_spec = true ->
             home_worksheet (user_name u) = worksheet_spec) ->
            home_worksheet (user_name u) = creation_name req u worksheet_spec)
      as Hhome.
    { unfold creation_name. destruct (wants_home req worksheet_spec); auto. }
    split_and!.
    + unfold creation_name. by intros ->.
    + unfold creation_name. by intros ->.
    + intros Hauth. by apply new_worksheet_not_logged_in with u.
    + intros wid Hauth Htaken. by apply new_worksheet_taken with u wid.
    + intros e' Hauth Hfree He' Hown Hstore Hpub.
      pose proof (new_worksheet_templates req u _ m e' Hu Hauth
                    (fun Hn => Hhome Hn Hown) Hfree He' Hstore Hpub) as Hnew.
      split_and!.
      * intros Hd. by rewrite Hd in Hnew.
      * intros e'' Hd Hparse. by rewrite Hd, Hparse in Hnew.
      * intros parsed its Hd Hparse Hconv. rewrite Hd, Hparse, Hconv in Hnew.
        destruct (populated_lookup (creation_name req u worksheet_spec) (user_id u)
                    its "CodaLab Dashboard" m) as (w & Hw & Hn & Ho & Hi & Ht & Hf).
        eexists _, w. split; [exact Hnew|]. by split_and!.
    + intros wuuid m' Hrun.
      apply new_worksheet_stored in Hrun
        as (-> & u' & w & Hu' & Hauth & Hw & Hid & Hn & Ho & Hgrant).
      assert (u' = u) as -> by congruence.
      split_and!; [done..|]. by exists w.
Qed.

(** Alice asks for her home worksheet and for the dashboard, which do not
    exist yet, then for a worksheet that exists, then for one that does
    not. *)
Lemma get_worksheet_uuid_or_create_outcomes_witness :
  get_worksheet_uuid_or_create (as_user alice) None "" m1
  = (Ok "0x0", created "home-alice" "u1" m1) /\
  (exists m' w,
     get_worksheet_uuid_or_create (as_user alice) None "dashboard" m1
     = (Ok "0x0", m') /\
     worksheets m' !! "0x0" = Some w /\
     name w = "dashboard" /\ owner_id w = "u1" /\
     items w = [mkItem None None "Welcome to dashboard" TYPE_MARKUP] /\
     title w = Some "CodaLab Dashboard" /\ frozen w = None) /\
  get_worksheet_uuid_or_create (as_user alice) None "notes" m1 = (Ok "w1", m1) /\
  get_worksheet_uuid_or_create (as_user alice) None "nope" m1
  = (Raise (NotFoundError "No worksheet found whose name is 'nope'"), m1).
Proof.
  destruct (get_worksheet_uuid_or_create_outcomes (as_user alice) None "" m1)
    as (_ & Hhome).
  destruct (get_worksheet_uuid_or_create_outcomes (as_user alice) None "dashboard" m1)
    as (_ & Hdash).
  destruct (get_worksheet_uuid_or_create_outcomes (as_user alice) None "notes" m1)
    as (Hfound & _).
  destruct (get_worksheet_uuid_or_create_outcomes (as_user alice) None "nope" m1)
    as (_ & Hnope).
  split_and!.
  - destruct (Hhome _ eq_refl) as (_ & Hnf).
    destruct (Hnf eq_refl) as (_ & _ & Hcreate).
    destruct (Hcreate (or_introl eq_refl)) as (_ & Huser).
    destruct (Huser alice eq_refl) as (_ & _ & _ & _ & Hfree & _).
    destruct (Hfree _ eq_refl eq_refl eq_refl) as (Hplain & _);
      [discriminate|reflexivity..|].
    exact (Hplain eq_refl).
  - destruct (Hdash _ eq_refl) as (_ & Hnf).
    destruct (Hnf eq_refl) as (_ & _ & Hcreate).
    destruct (Hcreate (or_intror eq_refl)) as (_ & Huser).
    destruct (Huser alice eq_refl) as (_ & _ & _ & _ & Hfree & _).
    destruct (Hfree _ eq_refl eq_refl eq_refl) as (_ & _ & Hpop);
      [discriminate|reflexivity..|].
    exact (Hpop _ _ eq_refl eq_refl eq_refl).
  - exact (Hfound "w1" eq_refl).
  - destruct (Hnope _ eq_refl) as (_ & Hnf).
    destruct (Hnf eq_refl) as (_ & Hraise & _).
    exact (Hraise eq_refl eq_refl).
Defined.

(** C5.  Item replacement, item append, metadata update, permission grant
    and deletion check that the requesting principal holds All permission on
    the target worksheet: without it each of them fails with
    [PermissionError] and the model is left as it was.  Fetching the
    worksheet info needs Read permission only: without Read it fails with
    [PermissionError], with Read it returns the view. *)
Theorem mutations_require_all_fetch_requires_read `{Collaborators} (req : Request)
    (m : Model) (k : string) (w : Worksheet) :
  worksheets m !! k = Some w ->
  (holds GROUP_OBJECT_PERMISSION_ALL m (user req) w = false ->
   (forall I (worksheet_info : WorksheetInfo I) new_items,
      wi_uuid worksheet_info = k ->
      exists msg, update_worksheet_items req worksheet_info new_items m
                  = (Raise (PermissionError msg), m)) /\
   (forall item,
      exists msg, add_worksheet_item req k item m = (Raise (PermissionError msg), m)) /\
   (forall info,
      exists msg, update_worksheet_metadata req k info m
                  = (Raise (PermissionError msg), m)) /\
   (forall group_uuid permission,
      exists msg, set_worksheet_permission req w group_uuid permission m
                  = (Raise (PermissionError msg), m)) /\
   (forall force,
      exists msg, delete_worksheet req k force m = (Raise (PermissionError msg), m))) /\
  (holds GROUP_OBJECT_PERMISSION_READ m (user req) w = false ->
   forall fetch_items fetch_permission,
     exists msg, get_worksheet_info req k fetch_items fetch_permission false m
                 = (Raise (PermissionError msg), m)) /\
  (holds GROUP_OBJECT_PERMISSION_READ m (user req) w = true ->
   forall u, user req = Some u ->
   forall fetch_items fetch_permission,
     get_worksheet_info req k fetch_items fetch_permission false m
     = (Ok (worksheet_view m u w fetch_items fetch_permission), m)).
Proof.
  intros Hw. split; [|split].
  - intros Hp. repeat split.
    + intros I worksheet_info new_items <-.
      destruct (update_worksheet_items_cases req worksheet_info new_items m w Hw)
        as (Hdenied & _). by apply Hdenied.
    + intros item. by apply add_worksheet_item_denied with (w := w).
    + intros info. by apply update_worksheet_metadata_denied with (w := w).
    + intros g p. by apply set_worksheet_permission_denied.
    + intros force. by apply delete_worksheet_denied with (w := w).
  - intros Hp fi fp. by apply get_worksheet_info_denied with (w := w).
  - intros Hp u Hu fi fp. by apply get_worksheet_info_allowed.
Qed.

(** Bob holds Read on [w1] through the public group, and nothing more: he can
    fetch it and cannot delete it. *)
Lemma mutations_require_all_fetch_requires_read_witness :
  (exists msg, delete_worksheet (as_user bob) "w1" true m1
               = (Raise (PermissionError msg), m1)) /\
  get_worksheet_info (as_user bob) "w1" true false false m1
  = (Ok (worksheet_view m1 bob w1 true false), m1).
Proof.
  destruct (mutations_require_all_fetch_requires_read (as_user bob) m1 "w1" w1 eq_refl)
    as (Hall & _ & Hread).
  split.
  - destruct (Hall eq_refl) as (_ & _ & _ & _ & Hdel). apply Hdel.
  - exact (Hread eq_refl bob eq_refl true false).
Defined.

(** C6.  [delete_worksheet] needs All permission whatever [force] is.
    Without [force] it fails with a descriptive [UsageError] when the
    worksheet is frozen or when its item list is not empty, and leaves the
    model as it was; with [force] both checks are skipped and the worksheet
    is deleted. *)
Theorem delete_worksheet_force `{Collaborators} (req : Request) (m : Model)
    (k : string) (w : Worksheet) :
  worksheets m !! k = Some w ->
  (holds GROUP_OBJECT_PERMISSION_ALL m (user req) w = false ->
   forall force,
     exists msg, delete_worksheet req k force m = (Raise (PermissionError msg), m)) /\
  (holds GROUP_OBJECT_PERMISSION_ALL m (user req) w = true ->
   (is_Some (frozen w) ->
    delete_worksheet req k false m
    = (Raise (UsageError ("Can't delete worksheet " +:+ uuid w +:+
                " because it is frozen (--force to override).")), m)) /\
   (frozen w = None -> items w <> [] ->
    delete_worksheet req k false m
    = (Raise (UsageError ("Can't delete worksheet " +:+ uuid w +:+
                " because it is not empty (--force to override).")), m)) /\
   (frozen w = None -> items w = [] ->
    delete_worksheet req k false m = (Ok tt, deleted k m)) /\
   delete_worksheet req k true m = (Ok tt, deleted k m)) /\
  worksheets (deleted k m) !! k = None.
Proof.
  intros Hw. split; [|split].
  - intros Hp force. by apply delete_worksheet_denied with (w := w).
  - intros Hp.
    pose proof (delete_worksheet_allowed req k false m w Hw Hp) as Hsoft.
    pose proof (delete_worksheet_allowed req k true m w Hw Hp) as Hforce.
    cbn [negb andb] in Hsoft, Hforce. repeat split.
    + intros Hf. rewrite Hsoft. by rewrite bool_decide_eq_true_2.
    + intros Hf Hne. rewrite Hsoft, Hf.
      rewrite bool_decide_eq_false_2 by (by intros [? ?]).
      by destruct (items w).
    + intros Hf He. rewrite Hsoft, Hf, He.
      by rewrite bool_decide_eq_false_2 by (by intros [? ?]).
    + done.
  - cbn. apply lookup_delete_eq.
Qed.

Lemma delete_worksheet_force_witness :
  delete_worksheet (as_user alice) "w2" false m1
  = (Raise (UsageError
       "Can't delete worksheet w2 because it is frozen (--force to override)."), m1) /\
  delete_worksheet (as_user alice) "w1" false m1
  = (Raise (UsageError
       "Can't delete worksheet w1 because it is not empty (--force to override)."), m1) /\
  delete_worksheet (as_user alice) "w3" false m1 = (Ok tt, deleted "w3" m1) /\
  delete_worksheet (as_user alice) "w2" true m1 = (Ok tt, deleted "w2" m1).
Proof.
  destruct (delete_worksheet_force (as_user alice) m1 "w2" w2 eq_refl)
    as (_ & H2 & _).
  destruct (delete_worksheet_force (as_user alice) m1 "w1" w1 eq_refl)
    as (_ & H1 & _).
  destruct (delete_worksheet_force (as_user alice) m1 "w3" w3 eq_refl)
    as (_ & H3 & _).
  destruct (H2 eq_refl) as (Hfrozen & _ & _ & Hforce).
  destruct (H1 eq_refl) as (_ & Hnonempty & _).
  destruct (H3 eq_refl) as (_ & _ & Hempty & _).
  split; [|split; [|split]].
  - exact (Hfrozen (ex_intro _ 5%Z eq_refl)).
  - refine (Hnonempty eq_refl _). discriminate.
  - exact (Hempty eq_refl eq_refl).
  - exact Hforce.
Defined.

(** Alice posts two items for [w1] without [replace].  The loop appends the
    first one; the version token of [w1] has then advanced, and the second
    append, a store operation of its own, advances it again.  When another
    request freezes [w1] between the two rounds of the loop, the second
    append is rejected and [w1] keeps the first item without the second. *)
Lemma append_group_is_item_by_item :
  let req := as_user alice in
  let a := as_tuple (post "w1" "a") in
  let c := as_tuple (post "w1" "c") in
  let after_a := appended "w1" a m1 in
  let frozen_then :=
    (update_worksheet_metadata (mkRequest (Some alice) 150) "w1"
       [key_freeze true] after_a).2 in
  add_worksheet_item req "w1" a m1 = (Ok tt, after_a) /\
  last_item_id <$> worksheets m1 !! "w1" = Some 7%Z /\
  last_item_id <$> worksheets after_a !! "w1" = Some 8%Z /\
  last_item_id <$> worksheets (appended "w1" c after_a) !! "w1" = Some 9%Z /\
  (create_worksheet_items_group req false ("w1", [post "w1" "a"; post "w1" "c"]) m1).2
  = appended "w1" c after_a /\
  add_worksheet_item req "w1" c frozen_then
  = (Raise (UsageError "Cannot modify frozen worksheet w1"), frozen_then) /\
  items <$> worksheets frozen_then !! "w1" = Some [note; a].
Proof. vm_compute. done. Qed.

(** C7 (amended).  [create_worksheet_items] groups the posted items by their
    target worksheet uuid: one group per uuid that occurs, holding all the
    posted items of that uuid in posted order; the groups are visited once
    each, in the order of the dict.  With [replace] the items of
    the worksheet become those of the group by one whole-list replacement.
    Without [replace] the items of the group are appended to those of the
    worksheet one after the other, by one store append each; run without
    interference, the appends of a group all succeed or the first one
    fails.  A group that fails leaves the model as it was. *)
Theorem create_worksheet_items_per_worksheet `{Collaborators} `{DictOrder}
    (req : Request) (replace : bool) (new_items : list PostedItem) :
  (NoDup (worksheet_to_items new_items).*1 /\
   forall k its, (k, its) ∈ worksheet_to_items new_items
                 <-> its = items_for k new_items /\ its <> []) /\
  iteritems (worksheet_to_items new_items) ≡ₚ worksheet_to_items new_items /\
  (forall m,
     create_worksheet_items req replace new_items m
     = match for_each (iteritems (worksheet_to_items new_items))
               (create_worksheet_items_group req replace) m with
       | (Ok _, m') => (Ok new_items, m')
       | (Raise e, m') => (Raise e, m')
       end) /\
  (forall m k its u w,
     worksheets m !! k = Some w ->
     uuid w = k ->
     user req = Some u ->
     holds GROUP_OBJECT_PERMISSION_ALL m (user req) w = true ->
     frozen w = None ->
     create_worksheet_items_group req true (k, its) m
     = (Ok tt, replaced k w (as_tuple <$> its) m) /\
     (exists w', worksheets (replaced k w (as_tuple <$> its) m) !! k = Some w'
                 /\ items w' = as_tuple <$> its) /\
     create_worksheet_items_group req false (k, its) m
     = (Ok tt, appended_all k (as_tuple <$> its) m) /\
     (exists w', worksheets (appended_all k (as_tuple <$> its) m) !! k = Some w'
                 /\ items w' = items w ++ (as_tuple <$> its))) /\
  (forall m group e m',
     create_worksheet_items_group req replace group m = (Raise e, m') -> m' = m).
Proof.
  split_and!.
  - apply worksheet_to_items_groups.
  - apply worksheet_to_items_groups.
  - apply iteritems_Permutation.
  - intros m. unfold create_worksheet_items, bind.
    by destruct (for_each _ _ m) as [[[]|e] m'].
  - intros m k its u w Hw Hid Hu Hp Hf. split_and!.
    + by apply create_worksheet_items_group_replace with u.
    + eexists. split; [apply lookup_insert_eq|done].
    + by apply create_worksheet_items_group_append with u w.
    + destruct (appended_all_lookup k (as_tuple <$> its) m w Hw)
        as ((w' & Hw' & Hits & _) & _). by exists w'.
  - intros m group e m'. apply create_worksheet_items_group_atomic.
Qed.

(** Alice posts two items for [w1] and one for [w3]. *)
Lemma create_worksheet_items_per_worksheet_witness :
  worksheet_to_items [post "w1" "a"; post "w3" "b"; post "w1" "c"]
  = [("w1", [post "w1" "a"; post "w1" "c"]); ("w3", [post "w3" "b"])] /\
  create_worksheet_items_group (as_user alice) true
    ("w1", [post "w1" "a"; post "w1" "c"]) m1
  = (Ok tt, replaced "w1" w1 (as_tuple <$> [post "w1" "a"; post "w1" "c"]) m1) /\
  create_worksheet_items_group (as_user alice) false
    ("w1", [post "w1" "a"; post "w1" "c"]) m1
  = (Ok tt, appended_all "w1" (as_tuple <$> [post "w1" "a"; post "w1" "c"]) m1).
Proof.
  destruct (create_worksheet_items_per_worksheet (as_user alice) true
              [post "w1" "a"; post "w3" "b"; post "w1" "c"])
    as (_ & _ & _ & Hgroup & _).
  destruct (Hgroup m1 "w1" [post "w1" "a"; post "w1" "c"] alice w1
              eq_refl eq_refl eq_refl eq_refl eq_refl)
    as (Hreplace & _ & Happend & _).
  split; [reflexivity|]. split; [exact Hreplace|exact Happend].
Defined.

(** C8.  Once the frozen timestamp of a worksheet is set, no sequence of
    [update_worksheet_metadata] calls clears it: after any such sequence the
    worksheet is still stored with its frozen field set.  The ['frozen'] key
    of an update is acted on only when its value is truthy and the worksheet
    is not frozen yet, and then it sets a timestamp; otherwise the metadata
    dict is left as it is. *)
Theorem frozen_never_cleared `{Collaborators}
    (calls : list (Request * string * list InfoEntry)) (m : Model) (k : string)
    (w : Worksheet) :
  worksheets m !! k = Some w ->
  is_Some (frozen w) ->
  (exists w', worksheets (after_metadata_updates calls m) !! k = Some w'
              /\ is_Some (frozen w')) /\
  (forall req worksheet metadata v m0,
     metadata_entry req worksheet metadata (key_frozen v) m0
     = (Ok (if bool_decide (is_Some v) && negb (bool_decide (is_Some (frozen worksheet)))
            then with_frozen (now req) metadata else metadata), m0)).
Proof.
  intros Hw Hf. split.
  - assert (exists w0, worksheets m !! k = Some w0 /\ is_Some (frozen w0)) as Hinv
      by eauto.
    clear Hw Hf. revert m Hinv.
    induction calls as [|[[req wuuid] info] calls IH]; intros m Hinv; [done|].
    cbn [after_metadata_updates fold_left]. apply IH. cbn.
    destruct (update_worksheet_metadata req wuuid info m) as [r m'] eqn:Hcall.
    apply update_worksheet_metadata_effect in Hcall as [->|(w0 & md & ->)]; [done|].
    by apply metadata_written_frozen.
  - intros req worksheet metadata v m0. cbn. by destruct (_ && _).
Qed.

(** The owner of the frozen [w2] sends a falsy ['frozen'], a legacy
    ['freeze'] and a new title; bob tries as well.  [w2] stays frozen. *)
Lemma frozen_never_cleared_witness :
  exists w', worksheets
      (after_metadata_updates
         [(as_user alice, "w2", [key_frozen None; key_title (Some "Final")]);
          (as_user bob, "w2", [key_frozen None]);
          (mkRequest (Some alice) 200, "w2", [key_freeze true])] m1) !! "w2"
    = Some w' /\ is_Some (frozen w').
Proof.
  exact (proj1 (frozen_never_cleared
                  [(as_user alice, "w2", [key_frozen None; key_title (Some "Final")]);
                   (as_user bob, "w2", [key_frozen None]);
                   (mkRequest (Some alice) 200, "w2", [key_freeze true])]
                  m1 "w2" w2 eq_refl (ex_intro _ 5%Z eq_refl))).
Defined.

(** The worksheet [w9] has a bundle item and a worksheet item whose targets
    are gone.  The document that [fetch_worksheet] builds includes the one
    bundle and the one sub-worksheet that exist; for the two that are gone
    it includes nothing, no stub either. *)
Lemma fetch_worksheet_omits_dangling :
  items w9 !! 1%nat = Some (mkItem (Some "b-gone") None "" TYPE_BUNDLE) /\
  items w9 !! 3%nat = Some (mkItem None (Some "w-gone") "" TYPE_WORKSHEET) /\
  match (fetch_worksheet (as_user alice) "w9" m9).1 with
  | Ok doc => Some (included_bundles doc, included_worksheets doc)
  | Raise _ => None
  end = Some ([b_live], [without_items w1]).
Proof. vm_compute. done. Qed.

(** C9 (amended).  [fetch_worksheet] asks for exactly the non-null bundle
    uuids of the bundle-type items and the non-null sub-worksheet uuids of
    the worksheet-type items of the current item list, and its document
    includes the items themselves, the infos of those bundles that exist
    and those sub-worksheets that exist, nothing else; a reference whose
    target is gone adds nothing to the document.  The stub with the uuid
    alone is what the legacy conversion [convert_items_from_db] puts in the
    place of a bundle or sub-worksheet that does not exist. *)
Theorem fetch_worksheet_includes_existing `{Collaborators} (req : Request) (u : User)
    (k : string) (m : Model) (w : Worksheet) :
  worksheets m !! k = Some w ->
  user req = Some u ->
  holds GROUP_OBJECT_PERMISSION_READ m (user req) w = true ->
  (forall b i, b ∈ referenced_bundles (items w) -> bundles m !! b = Some i ->
               is_Some (i !! "owner_id")) ->
  (exists doc,
     fetch_worksheet req k m = (Ok doc, m) /\
     included_items doc = items w /\
     (forall i, i ∈ included_bundles doc
                <-> exists b, b ∈ referenced_bundles (items w) /\ bundles m !! b = Some i) /\
     (forall w', w' ∈ included_worksheets doc
                 <-> exists s w0, s ∈ referenced_subworksheets (items w)
                                  /\ worksheets m !! s = Some w0
                                  /\ w' = without_items w0)) /\
  (forall b, b ∈ referenced_bundles (items w)
             <-> exists item, item ∈ items w /\ type item = TYPE_BUNDLE
                              /\ bundle_uuid item = Some b) /\
  (forall s, s ∈ referenced_subworksheets (items w)
             <-> exists item, item ∈ items w /\ type item = TYPE_WORKSHEET
                              /\ subworksheet_uuid item = Some s) /\
  (forall its, convert_items_from_db its m = (Ok (legacy_item m <$> its), m)) /\
  (forall it b, bundle_uuid it = Some b -> b <> "" -> bundles m !! b = None ->
                bundle_info (legacy_item m it) = Some {["uuid" := b]}) /\
  (forall it s, subworksheet_uuid it = Some s -> s <> "" -> worksheets m !! s = None ->
                subworksheet_info (legacy_item m it) = Some {["uuid" := s]}).
Proof.
  intros Hw Hu Hp Howner. split_and!.
  - destruct (fetch_worksheet_allowed req u k m w Hw Hu Hp Howner) as [users Hdoc].
    eexists. split; [exact Hdoc|]. cbn. split_and!; [done| |].
    + intros i. apply elem_of_values_filter.
    + intros w'. rewrite list_elem_of_fmap. split.
      * intros (w0 & -> & Hin). apply elem_of_values_filter in Hin as (s & Hs & Hw0).
        by exists s, w0.
      * intros (s & w0 & Hs & Hw0 & ->). exists w0. split; [done|].
        apply elem_of_values_filter. by exists s.
  - apply elem_of_referenced_bundles.
  - apply elem_of_referenced_subworksheets.
  - intros its. apply convert_items_from_db_legacy.
  - intros it b Hb Hne Hgone. unfold legacy_item. cbn. rewrite Hb, Hgone. cbn.
    by rewrite (proj2 (String.eqb_neq b "")).
  - intros it s Hs Hne Hgone. unfold legacy_item. cbn. rewrite Hs, Hgone. cbn.
    by rewrite (proj2 (String.eqb_neq s "")).
Qed.

(** On [w9]: the live bundle is included, and the legacy conversion of the
    item whose bundle is gone carries the stub. *)
Lemma fetch_worksheet_includes_existing_witness :
  (exists doc, fetch_worksheet (as_user alice) "w9" m9 = (Ok doc, m9)
               /\ b_live ∈ included_bundles doc) /\
  bundle_info (legacy_item m9 (mkItem (Some "b-gone") None "" TYPE_BUNDLE))
  = Some {["uuid" := "b-gone"]}.
Proof.
  assert (forall b i, b ∈ referenced_bundles (items w9) -> bundles m9 !! b = Some i ->
                      is_Some (i !! "owner_id")) as Howner.
  { intros b i _ Hb. destruct (decide (b = "b-live")) as [->|Hne].
    - injection Hb as <-. by eexists.
    - exfalso. revert Hb. unfold m9. cbn [bundles].
      by rewrite lookup_singleton_ne. }
  destruct (fetch_worksheet_includes_existing (as_user alice) alice "w9" m9 w9
              eq_refl eq_refl eq_refl Howner)
    as ((doc & Hdoc & _ & Hbundles & _) & _ & _ & _ & Hstub & _).
  split.
  - exists doc. split; [exact Hdoc|]. apply Hbundles. exists "b-live".
    split; [|reflexivity].
    apply elem_of_list_to_set. cbn. left.
  - apply Hstub; [reflexivity|discriminate|reflexivity].
Defined.

(** C10.  A worksheet that [new_worksheet] has created is stored under the
    returned uuid with a Read entry of the public group, so that the read
    gate lets every caller through, [request.user] absent or not. *)
Theorem new_worksheet_public_read `{Collaborators} (req : Request) (n : string)
    (m : Model) (wuuid : string) (m' : Model) :
  new_worksheet req n m = (Ok wuuid, m') ->
  exists w,
    worksheets m' !! wuuid = Some w /\ uuid w = wuuid /\
    granted m' wuuid (public_group_uuid m') GROUP_OBJECT_PERMISSION_READ /\
    forall u, check_worksheet_has_read_permission u w m' = (Ok tt, m').
Proof.
  intros Hrun.
  apply new_worksheet_stored in Hrun
    as (_ & u0 & w & _ & _ & Hw & Hid & _ & _ & Hgranted).
  exists w. split_and!; [done..|].
  intros u. apply check_read_true, public_read_holds. by rewrite Hid.
Qed.

(** Alice creates the dashboard (which is populated from its template);
    afterwards a request without user and a request of the anonymous user
    pass the read gate on it. *)
Lemma new_worksheet_public_read_witness :
  exists w,
    worksheets (new_worksheet (as_user alice) "dashboard" m1).2 !! "0x0" = Some w /\
    check_worksheet_has_read_permission None w
      (new_worksheet (as_user alice) "dashboard" m1).2
    = (Ok tt, (new_worksheet (as_user alice) "dashboard" m1).2) /\
    check_worksheet_has_read_permission (Some anonymous) w
      (new_worksheet (as_user alice) "dashboard" m1).2
    = (Ok tt, (new_worksheet (as_user alice) "dashboard" m1).2).
Proof.
  destruct (new_worksheet_public_read (as_user alice) "dashboard" m1 "0x0"
              (new_worksheet (as_user alice) "dashboard" m1).2)
    as (w & Hw & _ & _ & Hread).
  - vm_compute. reflexivity.
  - exists w. split; [exact Hw|]. split; [exact (Hread None)|].
    exact (Hread (Some anonymous)).
Defined.

(** * Further properties of the handlers *)

(** X1.  [ensure_unused_worksheet_name] never changes the model.  A home
    worksheet name that is not the caller's own is rejected before any
    lookup, in use or not.  Otherwise the name passes exactly when its
    resolution raises [NotFoundError]; a name that resolves gives the
    "already exists" error, and any other error of the resolution is passed
    on. *)
Theorem ensure_unused_worksheet_name_outcomes `{Collaborators} (req : Request)
    (u : User) (n : string) (m : Model) :
  user req = Some u ->
  (forall r m', ensure_unused_worksheet_name req n m = (r, m') -> m' = m) /\
  (is_home_worksheet n = true -> home_worksheet (user_name u) <> n ->
   ensure_unused_worksheet_name req n m
   = (Raise (UsageError ("Cannot create " +:+ n +:+
         " because this is potentially the home worksheet of another user")), m)) /\
  ((is_home_worksheet n = true -> home_worksheet (user_name u) = n) ->
   ensure_unused_worksheet_name req n m
   = match get_worksheet_uuid m (user req) None n with
     | Ok _ =>
         (Raise (UsageError ("Worksheet with name " +:+ n +:+ " already exists")), m)
     | Raise e => if isinstance_NotFoundError e then (Ok tt, m) else (Raise e, m)
     end).
Proof.
  intros Hu. split_and!.
  - intros r m'. apply read_only_ensure_unused_worksheet_name.
  - intros Hhome Hne. unfold ensure_unused_worksheet_name. rewrite Hhome.
    unfold bind at 1.
    rewrite (bind_Ok _ _ _ _ _ (user_attr_Some _ _ _ _ _ Hu)).
    by rewrite bool_decide_eq_true_2.
  - intros Hhome. unfold ensure_unused_worksheet_name.
    rewrite (bind_Ok _ _ _ tt m).
    + unfold try_except, bind, resolve.
      destruct (get_worksheet_uuid m (user req) None n) as [wid|e]; [done|].
      by destruct (isinstance_NotFoundError e).
    + destruct (is_home_worksheet n); [|done].
      rewrite (bind_Ok _ _ _ _ _ (user_attr_Some _ _ _ _ _ Hu)).
      by rewrite bool_decide_eq_false_2 by (intros Hne; by apply Hne, Hhome).
Qed.

(** Alice may not claim bob's home worksheet name, nor a name in use; a new
    name passes. *)
Lemma ensure_unused_worksheet_name_outcomes_witness :
  ensure_unused_worksheet_name (as_user alice) "home-bob" m1
  = (Raise (UsageError
       "Cannot create home-bob because this is potentially the home worksheet of another user"),
     m1) /\
  ensure_unused_worksheet_name (as_user alice) "notes" m1
  = (Raise (UsageError "Worksheet with name notes already exists"), m1) /\
  ensure_unused_worksheet_name (as_user alice) "fresh" m1 = (Ok tt, m1).
Proof.
  destruct (ensure_unused_worksheet_name_outcomes (as_user alice) alice "home-bob" m1
              eq_refl) as (_ & Hother & _).
  destruct (ensure_unused_worksheet_name_outcomes (as_user alice) alice "notes" m1
              eq_refl) as (_ & _ & Hused).
  destruct (ensure_unused_worksheet_name_outcomes (as_user alice) alice "fresh" m1
              eq_refl) as (_ & _ & Hfree).
  split; [|split].
  - apply Hother; [reflexivity|discriminate].
  - apply Hused. discriminate.
  - apply Hfree. discriminate.
Defined.

(** X2.  A caller who is not logged in creates nothing: [new_worksheet]
    raises [PermissionError] before any name check and leaves the model as
    it was; so does [create_worksheets] for a non-empty list of names, and
    so does [get_worksheet_uuid_or_create] when the resolution raises
    [NotFoundError] for a home or dashboard spec. *)
Theorem not_logged_in_creates_nothing `{Collaborators} (req : Request) (u : User)
    (m : Model) :
  user req = Some u ->
  is_authenticated u = false ->
  let denied :=
    (Raise (PermissionError "You must be logged in to create a worksheet."), m) in
  (forall n, new_worksheet req n m = denied) /\
  (forall n names,
     create_worksheets req (n :: names) m
     = (Raise (PermissionError "You must be logged in to create a worksheet."), m)) /\
  (forall base worksheet_spec e,
     get_worksheet_uuid m (user req) base worksheet_spec = Raise e ->
     isinstance_NotFoundError e = true ->
     wants_home req worksheet_spec = true \/ is_dashboard worksheet_spec = true ->
     get_worksheet_uuid_or_create req base worksheet_spec m = denied).
Proof.
  intros Hu Hauth denied. split_and!.
  - intros n. by apply new_worksheet_not_logged_in with u.
  - intros n names. unfold create_worksheets. cbn [map_M].
    unfold bind at 1. unfold bind at 1.
    by rewrite (new_worksheet_not_logged_in req u n m Hu Hauth).
  - intros base worksheet_spec e Hres He Hcase.
    rewrite (get_worksheet_uuid_or_create_not_found _ _ _ _ _ Hres), He.
    destruct (wants_home req worksheet_spec) eqn:Hh.
    + rewrite (handler_home _ _ _ _ u) by done.
      by apply new_worksheet_not_logged_in with u.
    + destruct Hcase as [|Hd]; [done|]. rewrite handler_dashboard by done.
      by apply new_worksheet_not_logged_in with u.
Qed.

(** The anonymous user asks for the home worksheet. *)
Lemma not_logged_in_creates_nothing_witness :
  get_worksheet_uuid_or_create (as_user anonymous) None "" m1
  = (Raise (PermissionError "You must be logged in to create a worksheet."), m1).
Proof.
  destruct (not_logged_in_creates_nothing (as_user anonymous) anonymous m1
              eq_refl eq_refl) as (_ & _ & Hresolve).
  exact (Hresolve None "" _ eq_refl eq_refl (or_introl eq_refl)).
Defined.

(** X3.  [new_worksheet] is not all-or-nothing.  When the dashboard template
    cannot be parsed, the parse error is the outcome, but the worksheet has
    already been stored under its fresh uuid and made readable by the public
    group, and it stays. *)
Theorem new_worksheet_template_failure `{Collaborators} (req : Request) (u : User)
    (n : string) (m : Model) (e e' : exn) :
  user req = Some u ->
  is_authenticated u = true ->
  (is_home_worksheet n = true -> home_worksheet (user_name u) = n) ->
  get_worksheet_uuid m (user req) None n = Raise e ->
  isinstance_NotFoundError e = true ->
  model.name_taken m n = false ->
  is_dashboard n = true ->
  parse_worksheet_form (ws_template_lines "dashboard") (created n (user_id u) m)
    (user req) (generate_uuid (uuid_seed m)) = Raise e' ->
  new_worksheet req n m = (Raise e', created n (user_id u) m) /\
  worksheets (created n (user_id u) m) !! generate_uuid (uuid_seed m)
  = Some (fresh_worksheet n (user_id u) m) /\
  granted (created n (user_id u) m) (generate_uuid (uuid_seed m))
          (public_group_uuid m) GROUP_OBJECT_PERMISSION_READ.
Proof.
  intros Hu Hauth Hhome Hres He Htaken Hdash Hparse.
  assert (worksheets (created n (user_id u) m) !! generate_uuid (uuid_seed m)
          = Some (fresh_worksheet n (user_id u) m)) as Hstored
    by apply lookup_insert_eq.
  split_and!; [|done|apply created_granted].
  rewrite (new_worksheet_after_created req u n m e) by done. rewrite Hdash.
  rewrite (bind_Raise _ _ _ e' (created n (user_id u) m)); [done|].
  rewrite (populate_worksheet_run req u _ _ _ _ (fresh_worksheet n (user_id u) m))
    by done.
  cbn [uuid fresh_worksheet]. by rewrite Hparse.
Qed.

Lemma new_worksheet_template_failure_witness :
  @new_worksheet broken_templates (as_user alice) "dashboard" m1
  = (Raise (UsageError "Unable to parse the form"),
     @created broken_templates "dashboard" "u1" m1).
Proof.
  refine (proj1 (@new_worksheet_template_failure broken_templates (as_user alice) alice
                   "dashboard" m1 _ _ eq_refl eq_refl _
                   eq_refl eq_refl eq_refl eq_refl eq_refl)).
  discriminate.
Defined.

(** X4.  For an authenticated caller and an unused dashboard name whose
    template parses and converts, [new_worksheet] returns the fresh uuid, and
    the worksheet stored under it carries the converted items of the
    template and the title "CodaLab Dashboard"; it has the given name, is
    owned by the caller and is not frozen. *)
Theorem new_worksheet_dashboard_populated `{Collaborators} (req : Request) (u : User)
    (n : string) (m : Model) (e : exn) (parsed : list InfoItem * list string)
    (its : list Item) :
  user req = Some u ->
  is_authenticated u = true ->
  (is_home_worksheet n = true -> home_worksheet (user_name u) = n) ->
  get_worksheet_uuid m (user req) None n = Raise e ->
  isinstance_NotFoundError e = true ->
  model.name_taken m n = false ->
  is_dashboard n = true ->
  is_public_home n = false ->
  parse_worksheet_form (ws_template_lines "dashboard") (created n (user_id u) m)
    (user req) (generate_uuid (uuid_seed m)) = Ok parsed ->
  map_Res convert_item_to_db parsed.1 = Ok its ->
  exists m' w,
    new_worksheet req n m = (Ok (generate_uuid (uuid_seed m)), m') /\
    worksheets m' !! generate_uuid (uuid_seed m) = Some w /\
    name w = n /\ owner_id w = user_id u /\ items w = its /\
    title w = Some "CodaLab Dashboard" /\ frozen w = None.
Proof.
  intros Hu Hauth Hhome Hres He Htaken Hdash Hpub Hparse Hconv.
  assert (worksheets (created n (user_id u) m) !! generate_uuid (uuid_seed m)
          = Some (fresh_worksheet n (user_id u) m)) as Hstored
    by apply lookup_insert_eq.
  exists (populated (fresh_worksheet n (user_id u) m) its "CodaLab Dashboard"
            (created n (user_id u) m)).
  eexists. split.
  - rewrite (new_worksheet_after_created req u n m e) by done. rewrite Hdash, Hpub.
    rewrite (bind_Ok _ _ _ tt (populated (fresh_worksheet n (user_id u) m) its
                                 "CodaLab Dashboard" (created n (user_id u) m)));
      [done|].
    rewrite (populate_worksheet_run req u _ _ _ _ (fresh_worksheet n (user_id u) m))
      by done.
    cbn [uuid fresh_worksheet]. by rewrite Hparse, Hconv.
  - split.
    + cbn. rewrite lookup_alter_eq, lookup_insert_eq. reflexivity.
    + done.
Qed.

Lemma new_worksheet_dashboard_populated_witness :
  exists m' w,
    new_worksheet (as_user alice) "dashboard" m1 = (Ok "0x0", m') /\
    worksheets m' !! "0x0" = Some w /\
    name w = "dashboard" /\ owner_id w = "u1" /\
    items w = [mkItem None None "Welcome to dashboard" TYPE_MARKUP] /\
    title w = Some "CodaLab Dashboard" /\ frozen w = None.
Proof.
  refine (new_worksheet_dashboard_populated (as_user alice) alice "dashboard" m1 _ _ _
            eq_refl eq_refl _ eq_refl eq_refl eq_refl eq_refl eq_refl eq_refl eq_refl).
  discriminate.
Defined.

(** X5.  [update_worksheet_metadata] writes all of its fields or none: when
    it raises, the model is as it was.  In particular an ['owner_spec'] that
    names no user, or a ['name'] that resolves to a worksheet, makes the
    whole update fail, whatever other entries come with it. *)
Theorem update_worksheet_metadata_all_or_nothing `{Collaborators} (req : Request)
    (k : string) (m : Model) :
  (forall info e m',
     update_worksheet_metadata req k info m = (Raise e, m') -> m' = m) /\
  (forall v e0 info1 info2,
     model.find_user v m = (Raise e0, m) ->
     exists e,
       update_worksheet_metadata req k (info1 ++ key_owner_spec v :: info2) m
       = (Raise e, m)) /\
  (forall u v wid info1 info2,
     user req = Some u ->
     get_worksheet_uuid m (user req) None v = Ok wid ->
     exists e,
       update_worksheet_metadata req k (info1 ++ key_name v :: info2) m
       = (Raise e, m)).
Proof.
  split_and!.
  - intros info e m'. apply update_worksheet_metadata_Raise.
  - intros v e0 info1 info2 Hfind.
    apply update_worksheet_metadata_failing_entry.
    intros w md. exists e0. cbn. by rewrite (bind_Raise _ _ _ _ _ Hfind).
  - intros u v wid info1 info2 Hu Hres.
    apply update_worksheet_metadata_failing_entry.
    intros w md.
    destruct (ensure_unused_worksheet_name_taken req u v m wid Hu Hres) as [msg Hpre].
    exists (UsageError msg). cbn. by rewrite (bind_Raise _ _ _ _ _ Hpre).
Qed.

(** Alice sends a new title for [w1] together with the name of [w3]: the
    update fails and [w1] keeps its title. *)
Lemma update_worksheet_metadata_all_or_nothing_witness :
  exists e,
    update_worksheet_metadata (as_user alice) "w1"
      ([key_title (Some "Renamed")] ++ key_name "scratch" :: []) m1
    = (Raise e, m1).
Proof.
  destruct (update_worksheet_metadata_all_or_nothing (as_user alice) "w1" m1)
    as (_ & _ & Hname).
  exact (Hname alice "scratch" "w3" [key_title (Some "Renamed")] [] eq_refl eq_refl).
Defined.

(** X6.  [update_worksheets] looks up ['uuid'] in each posted update and
    hands the whole update, that key included, to
    [update_worksheet_metadata], which ignores every key it does not know.
    Updates that carry nothing but such keys, a falsy ['frozen'], or a
    ['frozen'] for a worksheet that is frozen already are accepted from a
    caller holding All and leave the model as it was. *)
Theorem update_worksheets_inert `{Collaborators} (req : Request)
    (worksheet_updates : list (list InfoEntry)) (m : Model) :
  (forall w, w ∈ worksheet_updates ->
     exists k ws, posted_uuid w = Some k /\ worksheets m !! k = Some ws
                  /\ holds GROUP_OBJECT_PERMISSION_ALL m (user req) ws = true
                  /\ Forall (inert ws) w) ->
  update_worksheets req worksheet_updates m = (Ok worksheet_updates, m).
Proof.
  intros Hall. unfold update_worksheets.
  rewrite (bind_Ok _ _ _ tt m); [done|].
  induction worksheet_updates as [|w l IH]; [done|]. cbn [for_each].
  destruct (Hall w ltac:(left)) as (k & ws & Hk & Hws & Hp & Hinert).
  rewrite (bind_Ok _ _ _ tt m).
  - apply IH. intros w' Hw'. apply Hall. by right.
  - rewrite (bind_Ok _ _ _ k m) by by rewrite dict_uuid_posted, Hk.
    rewrite (update_worksheet_metadata_allowed _ _ _ _ _ Hws Hp).
    rewrite metadata_loop_inert by done. by rewrite metadata_written_empty.
Qed.

Lemma update_worksheets_inert_witness :
  update_worksheets (as_user alice)
    [[key_other "uuid" "w1"]; [key_frozen (Some 9%Z); key_other "uuid" "w2"]] m1
  = (Ok [[key_other "uuid" "w1"]; [key_frozen (Some 9%Z); key_other "uuid" "w2"]], m1).
Proof.
  apply update_worksheets_inert. intros w Hw.
  apply list_elem_of_In in Hw. destruct Hw as [<-|[<-|[]]].
  - exists "w1", w1. split_and!; [reflexivity..|]. repeat constructor.
  - exists "w2", w2. split_and!; [reflexivity..|].
    constructor; [right; by eexists|repeat constructor].
Defined.

(** X7.  For a caller holding All, a truthy ['frozen'] freezes an open
    worksheet at the time of the request, whatever timestamp the client
    sent, and leaves the timestamp of a frozen worksheet as it is; the legacy
    ['freeze'] key sets the timestamp to the time of the request in either
    case.  Items, name and title are not touched. *)
Theorem freeze_timestamps `{Collaborators} (req : Request) (k : string) (m : Model)
    (w : Worksheet) (t : Z) (b : bool) :
  worksheets m !! k = Some w ->
  uuid w = k ->
  holds GROUP_OBJECT_PERMISSION_ALL m (user req) w = true ->
  (exists m' w',
     update_worksheet_metadata req k [key_frozen (Some t)] m = (Ok tt, m') /\
     worksheets m' !! k = Some w' /\
     frozen w' = Some (default (now req) (frozen w)) /\
     items w' = items w /\ name w' = name w /\ title w' = title w) /\
  (exists m' w',
     update_worksheet_metadata req k [key_freeze b] m = (Ok tt, m') /\
     worksheets m' !! k = Some w' /\
     frozen w' = Some (now req) /\
     items w' = items w /\ name w' = name w /\ title w' = title w).
Proof.
  intros Hw Hid Hp. split.
  - rewrite (update_worksheet_metadata_allowed _ _ _ _ _ Hw Hp). cbn.
    destruct (frozen w) as [t0|] eqn:Hf; cbn.
    + do 2 eexists. split; [done|]. rewrite <- Hid at 1.
      rewrite metadata_written_lookup by by rewrite Hid.
      split; [reflexivity|]. cbn. by rewrite Hf.
    + do 2 eexists. split; [done|]. rewrite <- Hid at 1.
      rewrite metadata_written_lookup by by rewrite Hid.
      split; [reflexivity|]. done.
  - rewrite (update_worksheet_metadata_allowed _ _ _ _ _ Hw Hp). cbn.
    do 2 eexists. split; [done|]. rewrite <- Hid at 1.
    rewrite metadata_written_lookup by by rewrite Hid.
    split; [reflexivity|]. done.
Qed.

(** Alice freezes [w1] at time 100, and sends ['frozen'] for [w2], which was
    frozen at time 5. *)
Lemma freeze_timestamps_witness :
  (exists m' w',
     update_worksheet_metadata (as_user alice) "w1" [key_frozen (Some 3%Z)] m1
     = (Ok tt, m') /\
     worksheets m' !! "w1" = Some w' /\ frozen w' = Some 100%Z) /\
  (exists m' w',
     update_worksheet_metadata (as_user alice) "w2" [key_frozen (Some 3%Z)] m1
     = (Ok tt, m') /\
     worksheets m' !! "w2" = Some w' /\ frozen w' = Some 5%Z).
Proof.
  destruct (freeze_timestamps (as_user alice) "w1" m1 w1 3%Z true
              eq_refl eq_refl eq_refl) as ((m' & w' & Hu & Hl & Hf & _) & _).
  destruct (freeze_timestamps (as_user alice) "w2" m1 w2 3%Z true
              eq_refl eq_refl eq_refl) as ((m'' & w'' & Hu' & Hl' & Hf' & _) & _).
  split; [by exists m', w'|by exists m'', w''].
Defined.

(** X8.  When a caller holding All sets ['owner_id'], the worksheet changes
    hands: the user with that id holds All on it from then on, and any other
    user, the former owner included, no longer holds even Read when the
    worksheet has no group permissions. *)
Theorem ownership_transfer `{Collaborators} (req : Request) (k : string) (m : Model)
    (w : Worksheet) (v : string) :
  worksheets m !! k = Some w ->
  uuid w = k ->
  holds GROUP_OBJECT_PERMISSION_ALL m (user req) w = true ->
  exists m' w',
    update_worksheet_metadata req k [key_owner_id v] m = (Ok tt, m') /\
    worksheets m' !! k = Some w' /\ owner_id w' = v /\ uuid w' = k /\
    (forall u', user_id u' = v ->
                holds GROUP_OBJECT_PERMISSION_ALL m' (Some u') w' = true) /\
    (forall u', user_id u' <> v -> group_permissions m !! k = None ->
                holds GROUP_OBJECT_PERMISSION_READ m' (Some u') w' = false).
Proof.
  intros Hw Hid Hp.
  exists (metadata_written w (with_owner_id v empty_metadata) m),
         (apply_metadata (with_owner_id v empty_metadata) w).
  split; [by rewrite (update_worksheet_metadata_allowed _ _ _ _ _ Hw Hp)|].
  split.
  { rewrite <- Hid at 1. apply metadata_written_lookup. by rewrite Hid. }
  split_and!; [done..| |].
  - intros u' Hv. by apply owner_holds_all.
  - intros u' Hne Hacl. unfold holds, model.permission_level. cbn.
    rewrite bool_decide_eq_false_2 by (intros [= ?]; done).
    rewrite Hid, Hacl. cbn. by rewrite map_to_list_empty.
Qed.

(** Alice hands [w3], which has no group permissions, over to bob. *)
Lemma ownership_transfer_witness :
  exists m' w',
    update_worksheet_metadata (as_user alice) "w3" [key_owner_id "u2"] m1 = (Ok tt, m') /\
    worksheets m' !! "w3" = Some w' /\
    holds GROUP_OBJECT_PERMISSION_ALL m' (Some bob) w' = true /\
    holds GROUP_OBJECT_PERMISSION_READ m' (Some alice) w' = false.
Proof.
  destruct (ownership_transfer (as_user alice) "w3" m1 w3 "u2" eq_refl eq_refl eq_refl)
    as (m' & w' & Hu & Hl & _ & _ & Hnew & Hold).
  exists m', w'. split_and!; [done..| |].
  - by apply Hnew.
  - by apply Hold.
Defined.

(** X9.  A grant by a caller holding All is in force at once: the entry of
    the group reads back as granted, the entries of the other groups and the
    worksheets are as before, and every member of the group holds at least
    the granted level.  After a grant of All, a member of the group can
    append to the worksheet, if it is not frozen. *)
Theorem grant_takes_effect `{Collaborators} (req : Request) (w : Worksheet)
    (g : string) (p : Permission) (m : Model) :
  holds GROUP_OBJECT_PERMISSION_ALL m (user req) w = true ->
  exists m',
    set_worksheet_permission req w g p m = (Ok tt, m') /\
    worksheets m' = worksheets m /\
    granted m' (uuid w) g p /\
    (forall g', g' <> g ->
       default ∅ (group_permissions m' !! uuid w) !! g'
       = default ∅ (group_permissions m !! uuid w) !! g') /\
    (forall u, model.in_group m (uid_of u) g = true -> holds p m' u w = true) /\
    (forall req' k item,
       p = GROUP_OBJECT_PERMISSION_ALL ->
       model.in_group m (uid_of (user req')) g = true ->
       worksheets m !! k = Some w ->
       frozen w = None ->
       add_worksheet_item req' k item m' = (Ok tt, appended k item m')).
Proof.
  intros Hp. eexists. split; [by apply set_worksheet_permission_allowed|].
  set (m' := set_acl _ m).
  assert (granted m' (uuid w) g p) as Hg.
  { unfold granted. cbn. rewrite lookup_insert_eq. cbn. apply lookup_insert_eq. }
  split_and!; [done..| | |].
  - intros g' Hne. cbn. rewrite lookup_insert_eq. cbn. by rewrite lookup_insert_ne.
  - intros u Hin. by apply granted_holds with g.
  - intros req' k item -> Hin Hw Hf.
    apply add_worksheet_item_ok with w; [done| |done].
    by apply granted_holds with g.
Qed.

(** Alice grants the editors All on [w1]; carol, an editor, appends. *)
Lemma grant_takes_effect_witness :
  exists m',
    set_worksheet_permission (as_user alice) w1 "g-editors"
      GROUP_OBJECT_PERMISSION_ALL m_groups = (Ok tt, m') /\
    holds GROUP_OBJECT_PERMISSION_ALL m_groups (Some carol) w1 = false /\
    add_worksheet_item (as_user carol) "w1" note m' = (Ok tt, appended "w1" note m').
Proof.
  destruct (grant_takes_effect (as_user alice) w1 "g-editors"
              GROUP_OBJECT_PERMISSION_ALL m_groups eq_refl)
    as (m' & Hgrant & _ & _ & _ & _ & Happend).
  exists m'. split; [exact Hgrant|]. split; [reflexivity|].
  exact (Happend (as_user carol) "w1" note eq_refl eq_refl eq_refl eq_refl).
Defined.

(** X10.  An append makes every earlier view of the worksheet stale: after
    [add_worksheet_item] has succeeded, [update_worksheet_items] with a view
    fetched before the append fails with the "updated concurrently" error and
    changes nothing, because the stored list is one item longer than the
    view's. *)
Theorem append_invalidates_views `{Collaborators} (req : Request) (u : User)
    (k : string) (m : Model) (w : Worksheet) (item : Item) (fetch_permission : bool)
    (new_items : list Item) :
  worksheets m !! k = Some w ->
  uuid w = k ->
  holds GROUP_OBJECT_PERMISSION_ALL m (user req) w = true ->
  frozen w = None ->
  exists w',
    add_worksheet_item req k item m = (Ok tt, appended k item m) /\
    worksheets (appended k item m) !! k = Some w' /\
    items w' = items w ++ [item] /\
    update_worksheet_items req (worksheet_view m u w true fetch_permission)
      (StoredItems new_items) (appended k item m)
    = (Raise (UsageError (Worksheet_str (without_items w')
                          +:+ " was updated concurrently!")), appended k item m).
Proof.
  intros Hw Hid Hp Hf.
  assert (worksheets (appended k item m) !! k
          = Some (set_items (items w ++ [item]) (next_item_id m) w)) as Hw'.
  { cbn. by rewrite lookup_alter_eq, Hw. }
  eexists. split; [by apply add_worksheet_item_ok with w|].
  split; [exact Hw'|]. split; [done|].
  assert (wi_uuid (worksheet_view m u w true fetch_permission) = k) as Hk
    by by destruct fetch_permission.
  assert (worksheets (appended k item m)
            !! wi_uuid (worksheet_view m u w true fetch_permission)
          = Some (set_items (items w ++ [item]) (next_item_id m) w)) as Hw''
    by by rewrite Hk.
  destruct (update_worksheet_items_cases req (worksheet_view m u w true fetch_permission)
              (StoredItems new_items) (appended k item m) _ Hw'') as (_ & _ & Hwrite).
  etrans; [exact (Hwrite Hp Hf new_items eq_refl)|].
  assert (token_matches (worksheet_view m u w true fetch_permission)
            (set_items (items w ++ [item]) (next_item_id m) w) = false) as ->; [|done].
  unfold token_matches. apply andb_false_iff. right.
  apply bool_decide_eq_false_2.
  destruct fetch_permission; cbn; rewrite length_app; cbn; lia.
Qed.

Lemma append_invalidates_views_witness :
  exists w',
    worksheets (appended "w1" note m1) !! "w1" = Some w' /\
    update_worksheet_items (as_user alice) (worksheet_view m1 alice w1 true true)
      (StoredItems []) (appended "w1" note m1)
    = (Raise (UsageError (Worksheet_str (without_items w')
                          +:+ " was updated concurrently!")), appended "w1" note m1).
Proof.
  destruct (append_invalidates_views (as_user alice) alice "w1" m1 w1 note true []
              eq_refl eq_refl eq_refl eq_refl) as (w' & _ & Hl & _ & Hstale).
  by exists w'.
Defined.

(** X11.  After a successful [delete_worksheet] the worksheet and its group
    permissions are gone, the other worksheets are as before, and whatever
    is asked of that uuid afterwards ends in [NotFoundError] without a
    change: an append, a metadata update, a fetch of the info, a grant
    posted through [set_worksheet_permissions], or a second deletion. *)
Theorem deleted_worksheet_is_gone `{Collaborators} (req : Request) (k : string)
    (force : bool) (m m' : Model) :
  delete_worksheet req k force m = (Ok tt, m') ->
  worksheets m' !! k = None /\
  group_permissions m' !! k = None /\
  (forall k', k' <> k -> worksheets m' !! k' = worksheets m !! k') /\
  (forall req',
     (forall item, exists msg,
        add_worksheet_item req' k item m' = (Raise (NotFoundError msg), m')) /\
     (forall info, exists msg,
        update_worksheet_metadata req' k info m' = (Raise (NotFoundError msg), m')) /\
     (forall fetch_items fetch_permission, exists msg,
        get_worksheet_info req' k fetch_items fetch_permission false m'
        = (Raise (NotFoundError msg), m')) /\
     (forall g p rest, exists msg,
        set_worksheet_permissions req' (mkPostedPermission k g p :: rest) m'
        = (Raise (NotFoundError msg), m')) /\
     (forall force', exists msg,
        delete_worksheet req' k force' m' = (Raise (NotFoundError msg), m'))).
Proof.
  intros Hdel. apply delete_worksheet_Ok in Hdel as [-> _].
  assert (worksheets (deleted k m) !! k = None) as Hgone by apply lookup_delete_eq.
  split_and!; [done|apply lookup_delete_eq| |].
  - intros k' Hne. cbn. by rewrite lookup_delete_ne.
  - intros req'.
    destruct (get_worksheet_None k false _ Hgone) as [msg Hget].
    split_and!.
    + intros item. exists msg. unfold add_worksheet_item.
      by rewrite (bind_Raise _ _ _ _ _ Hget).
    + intros info. exists msg. unfold update_worksheet_metadata.
      by rewrite (bind_Raise _ _ _ _ _ Hget).
    + intros fetch_items fetch_permission.
      destruct (get_worksheet_None k fetch_items _ Hgone) as [msg' Hget'].
      exists msg'. unfold get_worksheet_info.
      by rewrite (bind_Raise _ _ _ _ _ Hget').
    + intros g p rest. exists msg. unfold set_worksheet_permissions. cbn [for_each].
      unfold bind at 1. unfold bind at 1. unfold bind at 1. cbn [object_uuid].
      by rewrite Hget.
    + intros force'. eexists. by apply delete_worksheet_missing.
Qed.

Lemma deleted_worksheet_is_gone_witness :
  worksheets (deleted "w3" m1) !! "w3" = None /\
  exists msg,
    add_worksheet_item (as_user alice) "w3" note (deleted "w3" m1)
    = (Raise (NotFoundError msg), deleted "w3" m1).
Proof.
  destruct (deleted_worksheet_is_gone (as_user alice) "w3" false m1 (deleted "w3" m1)
              eq_refl) as (Hgone & _ & _ & Hlater).
  split; [exact Hgone|].
  destruct (Hlater (as_user alice)) as (Happend & _). apply Happend.
Defined.

(** X12.  [delete_worksheets] deletes one uuid after the other.  It can
    succeed only when no uuid is listed twice and every listed worksheet
    exists; then exactly the listed worksheets are removed.  With [force],
    the owner of all the listed worksheets does succeed when they are listed
    once each. *)
Theorem delete_worksheets_bulk `{Collaborators} (req : Request) (uuids : list string)
    (m : Model) :
  (forall force m',
     delete_worksheets req uuids force m = (Ok tt, m') ->
     NoDup uuids /\
     (forall k, k ∈ uuids -> is_Some (worksheets m !! k) /\ worksheets m' !! k = None) /\
     (forall k, k ∉ uuids -> worksheets m' !! k = worksheets m !! k)) /\
  (forall u,
     user req = Some u ->
     NoDup uuids ->
     (forall k, k ∈ uuids ->
        exists w, worksheets m !! k = Some w /\ owner_id w = user_id u) ->
     exists m', delete_worksheets req uuids true m = (Ok tt, m')).
Proof.
  split.
  - intros force m'. apply delete_worksheets_Ok.
  - intros u. apply delete_worksheets_owner.
Qed.

(** Alice deletes [w1] and [w3] in one request; listing [w3] twice fails
    after [w3] has been deleted. *)
Lemma delete_worksheets_bulk_witness :
  (exists m', delete_worksheets (as_user alice) ["w1"; "w3"] true m1 = (Ok tt, m')) /\
  delete_worksheets (as_user alice) ["w3"; "w3"] true m1
  = (Raise (NotFoundError "No worksheet with uuid w3"), deleted "w3" m1).
Proof.
  split; [|reflexivity].
  destruct (delete_worksheets_bulk (as_user alice) ["w1"; "w3"] m1) as (_ & Howner).
  apply (Howner alice eq_refl).
  - apply NoDup_cons. split; [|apply NoDup_singleton].
    rewrite list_elem_of_singleton. discriminate.
  - intros k Hk. apply list_elem_of_In in Hk. destruct Hk as [<-|[<-|[]]].
    + by exists w1.
    + by exists w3.
Defined.

(** X13.  [update_worksheet_raw] parses the posted form before it looks at
    the worksheet: a form that does not parse is reported to any caller,
    and nothing changes.  For a caller holding All on an unfrozen worksheet
    the converted items of the form replace the stored ones and the commands
    are returned; the view is fetched right before the write, so the write
    does not conflict.  A caller holding Read but not All is refused with
    [PermissionError]. *)
Theorem update_worksheet_raw_outcomes `{Collaborators} (req : Request) (k : string)
    (lines : list string) (m : Model) :
  (forall e,
     parse_worksheet_form lines m (user req) k = Raise e ->
     update_worksheet_raw req k lines m = (Raise e, m)) /\
  (forall parsed u w its,
     parse_worksheet_form lines m (user req) k = Ok parsed ->
     user req = Some u ->
     worksheets m !! k = Some w ->
     uuid w = k ->
     holds GROUP_OBJECT_PERMISSION_ALL m (user req) w = true ->
     frozen w = None ->
     map_Res convert_item_to_db parsed.1 = Ok its ->
     update_worksheet_raw req k lines m = (Ok parsed.2, replaced k w its m)) /\
  (forall parsed u w,
     parse_worksheet_form lines m (user req) k = Ok parsed ->
     user req = Some u ->
     worksheets m !! k = Some w ->
     uuid w = k ->
     holds GROUP_OBJECT_PERMISSION_READ m (user req) w = true ->
     holds GROUP_OBJECT_PERMISSION_ALL m (user req) w = false ->
     exists msg, update_worksheet_raw req k lines m = (Raise (PermissionError msg), m)).
Proof.
  split_and!.
  - intros e Hparse. unfold update_worksheet_raw.
    unfold bind at 1. cbn [get_model]. unfold bind at 1. unfold lift at 1.
    by rewrite Hparse.
  - intros parsed u w its Hparse Hu Hw Hid Hp Hf Hconv. unfold update_worksheet_raw.
    unfold bind at 1. cbn [get_model]. unfold bind at 1. unfold lift at 1.
    rewrite Hparse.
    rewrite (bind_Ok _ _ _ _ _
               (get_worksheet_info_allowed _ _ _ true true _ _ Hw Hu
                  (holds_all_read _ _ _ Hp))).
    assert (wi_uuid (worksheet_view m u w true true) = k) as Hk by done.
    rewrite <- Hk in Hw.
    destruct (update_worksheet_items_cases req (worksheet_view m u w true true)
                (ConvertItems parsed.1) m w Hw) as (_ & _ & Hwrite).
    rewrite (bind_Ok _ _ _ tt (replaced k w its m)); [done|].
    etrans; [exact (Hwrite Hp Hf its Hconv)|].
    rewrite token_matches_view. by rewrite Hk.
  - intros parsed u w Hparse Hu Hw Hid Hr Hp. unfold update_worksheet_raw.
    unfold bind at 1. cbn [get_model]. unfold bind at 1. unfold lift at 1.
    rewrite Hparse.
    rewrite (bind_Ok _ _ _ _ _
               (get_worksheet_info_allowed _ _ _ true true _ _ Hw Hu Hr)).
    assert (wi_uuid (worksheet_view m u w true true) = k) as Hk by done.
    rewrite <- Hk in Hw.
    destruct (update_worksheet_items_cases req (worksheet_view m u w true true)
                (ConvertItems parsed.1) m w Hw) as (Hdenied & _).
    destruct (Hdenied Hp) as [msg Hd]. exists msg.
    rewrite (bind_Raise _ _ m (PermissionError msg) m); [done|]. exact Hd.
Qed.

(** Alice posts a two-line form for [w1]; bob, who may only read [w1], is
    refused. *)
Lemma update_worksheet_raw_outcomes_witness :
  update_worksheet_raw (as_user alice) "w1" ["one"; "two"] m1
  = (Ok [], replaced "w1" w1 [mkItem None None "one" TYPE_MARKUP;
                              mkItem None None "two" TYPE_MARKUP] m1) /\
  exists msg,
    update_worksheet_raw (as_user bob) "w1" ["one"; "two"] m1
    = (Raise (PermissionError msg), m1).
Proof.
  destruct (update_worksheet_raw_outcomes (as_user alice) "w1" ["one"; "two"] m1)
    as (_ & Hwrite & _).
  destruct (update_worksheet_raw_outcomes (as_user bob) "w1" ["one"; "two"] m1)
    as (_ & _ & Hdenied).
  split.
  - exact (Hwrite _ alice w1 _ eq_refl eq_refl eq_refl eq_refl eq_refl eq_refl eq_refl).
  - exact (Hdenied _ bob w1 eq_refl eq_refl eq_refl eq_refl eq_refl eq_refl).
Defined.

(** X14.  [convert_items_from_db] never raises and never changes the model.
    It returns one legacy item per stored item, in order and with the same
    type; the value is tokenized exactly for the directive items.  The
    bundle info is absent exactly when the bundle uuid is null or empty, and
    a bundle that exists is rendered by its info whatever the type of the
    item is; likewise a sub-worksheet that exists is rendered by its legacy
    dict. *)
Theorem convert_items_from_db_shape `{Collaborators} (items : list Item) (m : Model) :
  exists infos,
    convert_items_from_db items m = (Ok infos, m) /\
    length infos = length items /\
    forall i it, items !! i = Some it ->
      exists inf,
        infos !! i = Some inf /\
        info_type inf = type it /\
        value_obj inf = (if decide (type it = TYPE_DIRECTIVE)
                         then Tokens (string_to_tokens (value it))
                         else RawValue (value it)) /\
        (bundle_info inf = None
         <-> bundle_uuid it = None \/ bundle_uuid it = Some "") /\
        (forall b i0, bundle_uuid it = Some b -> b <> "" -> bundles m !! b = Some i0 ->
                      bundle_info inf = Some i0) /\
        (forall s ws, subworksheet_uuid it = Some s -> s <> "" ->
                      worksheets m !! s = Some ws ->
                      subworksheet_info inf = Some (to_dict_legacy (without_items ws))).
Proof.
  exists (legacy_item m <$> items).
  split; [apply convert_items_from_db_legacy|]. split; [apply length_fmap|].
  intros i it Hi. exists (legacy_item m it).
  split; [by rewrite list_lookup_fmap, Hi|]. split; [done|]. split; [done|].
  unfold legacy_item. cbn. split_and!.
  - destruct (bundle_uuid it) as [b|]; [|by split; [left|]]. cbn.
    destruct (String.eqb_spec b "") as [->|Hne]; cbn.
    + by split; [right|].
    + split; [done|]. intros [|[= ?]]; done.
  - intros b i0 -> Hne Hb. cbn. by rewrite (proj2 (String.eqb_neq b "")), Hb.
  - intros s ws -> Hne Hs. cbn. by rewrite (proj2 (String.eqb_neq s "")), Hs.
Qed.

(** X15.  For a caller who may read the worksheet, the document of
    [fetch_worksheet] lists as users exactly the users of the directory who
    own the worksheet or one of the included bundles, carries the group
    permissions of the worksheet, and reports the caller's own permission
    level.  When the info of an included bundle has no ['owner_id'], the
    fetch ends in [KeyError] instead. *)
Theorem fetch_worksheet_users `{Collaborators} (req : Request) (u : User) (k : string)
    (m : Model) (w : Worksheet) :
  worksheets m !! k = Some w ->
  user req = Some u ->
  holds GROUP_OBJECT_PERMISSION_READ m (user req) w = true ->
  ((forall i, i ∈ included_infos (items w) m -> is_Some (i !! "owner_id")) ->
   exists doc,
     fetch_worksheet req k m = (Ok doc, m) /\
     (forall usr,
        usr ∈ included_users doc
        <-> usr ∈ users m
            /\ (user_id usr = owner_id w
                \/ exists i, i ∈ included_bundles doc
                             /\ i !! "owner_id" = Some (user_id usr))) /\
     included_permissions doc
     = map_to_list (default ∅ (group_permissions m !! uuid w)) /\
     wi_permission (data doc)
     = Some (model.permission_level m (Some (user_id u)) (uuid w) (owner_id w))) /\
  ((exists i, i ∈ included_infos (items w) m /\ i !! "owner_id" = None) ->
   fetch_worksheet req k m = (Raise (KeyError "owner_id"), m)).
Proof.
  intros Hw Hu Hp. split.
  - intros Howner. eexists.
    split; [by apply (fetch_worksheet_document req u)|]. cbn. split; [|done].
    intros usr. rewrite list_elem_of_filter, elem_of_union, elem_of_singleton,
      elem_of_list_to_set, list_elem_of_fmap.
    split.
    + intros [[(i & Ho & Hi)|Ho] Hin]; (split; [done|]); [right|by left].
      exists i. split; [done|]. unfold info_owner in Ho.
      destruct (Howner i Hi) as [o Hio]. rewrite Hio in Ho |- *. cbn in Ho.
      by rewrite Ho.
    + intros [Hin [Ho|(i & Hi & Ho)]]; (split; [|done]); [by right|left].
      exists i. split; [|done]. unfold info_owner. by rewrite Ho.
  - by apply (fetch_worksheet_missing_owner req u).
Qed.

(** Alice fetches [w9]: the users are alice, who owns it, and bob, who owns
    the bundle that exists. *)
Lemma fetch_worksheet_users_witness :
  exists doc,
    fetch_worksheet (as_user alice) "w9" m9 = (Ok doc, m9) /\
    (alice ∈ included_users doc /\ bob ∈ included_users doc).
Proof.
  destruct (fetch_worksheet_users (as_user alice) alice "w9" m9 w9
              eq_refl eq_refl eq_refl) as (Hok & _).
  assert (included_infos (items w9) m9 = [b_live]) as Hinfos by (vm_compute; done).
  destruct Hok as (doc & Hdoc & Husers & _).
  { intros i. rewrite Hinfos. intros ->%list_elem_of_singleton. by eexists. }
  exists doc. split; [exact Hdoc|].
  assert (included_bundles doc = [b_live]) as Hb.
  { rewrite (fetch_worksheet_document (as_user alice) alice "w9" m9 w9) in Hdoc;
      [|reflexivity..|].
    - injection Hdoc as <-. exact Hinfos.
    - intros i. rewrite Hinfos. intros ->%list_elem_of_singleton. by eexists. }
  split; apply Husers.
  - split; [left|by left].
  - split; [right; left|]. right. exists b_live. rewrite Hb. split; [left|done].
Defined.

(** X16.  [fetch_worksheets] with specs ignores the keywords.  When every
    spec resolves, nothing is created and the model is as it was; the
    document lists, without their items, exactly the stored worksheets under
    the resolved uuids, with the directory users who own one of them, and no
    group permissions; in a store that keeps every worksheet under its own
    uuid no worksheet is listed twice, however often a spec is repeated.  No
    permission of the caller on the listed worksheets is asked for. *)
Theorem fetch_worksheets_by_specs `{Collaborators} `{SearchCollaborators}
    (req : Request) (keywords specs : list string) (base : option string)
    (m : Model) (uuids : list string) :
  specs <> [] ->
  Forall2 (fun spec k => get_worksheet_uuid m (user req) base spec = Ok k) specs uuids ->
  exists doc,
    fetch_worksheets req keywords specs base m = (Ok doc, m) /\
    ((forall k w, worksheets m !! k = Some w -> uuid w = k) ->
     NoDup (wi_uuid <$> list_data doc)) /\
    (forall info,
       info ∈ list_data doc
       <-> exists k w, k ∈ uuids /\ worksheets m !! k = Some w
                       /\ info = to_dict (without_items w) []) /\
    list_permissions doc = [] /\
    (forall usr,
       usr ∈ list_users doc
       <-> usr ∈ users m
           /\ exists info, info ∈ list_data doc /\ wi_owner_id info = user_id usr).
Proof.
  intros Hne Hres. destruct specs as [|s0 ss]; [done|].
  set (found := (map_to_list (filter (fun kv => kv.1 ∈ (list_to_set uuids : gset string))
                                     (worksheets m))).*2).
  set (listed := (fun w : Worksheet => to_dict w (items w))
                   <$> (without_items <$> found)).
  assert (map_M (get_worksheet_uuid_or_create req base) (s0 :: ss) m = (Ok uuids, m))
    as Hmap.
  { apply map_M_Forall2. eapply Forall2_impl; [exact Hres|].
    intros spec k. apply get_worksheet_uuid_or_create_found. }
  assert (forall info, info ∈ listed
            <-> exists k w, k ∈ uuids /\ worksheets m !! k = Some w
                            /\ info = to_dict (without_items w) []) as Hlisted.
  { intros info. unfold listed. rewrite list_elem_of_fmap. split.
    - intros (w' & -> & Hw'). apply list_elem_of_fmap in Hw' as (w & -> & Hw).
      apply elem_of_values_filter in Hw as (k & Hk & Hw).
      exists k, w. split; [by apply elem_of_list_to_set in Hk|done].
    - intros (k & w & Hk & Hw & ->). exists (without_items w). split; [done|].
      apply list_elem_of_fmap. exists w. split; [done|].
      apply elem_of_values_filter. exists k. by rewrite elem_of_list_to_set. }
  assert ((forall k w, worksheets m !! k = Some w -> uuid w = k) ->
          NoDup (wi_uuid <$> listed)) as Hnd.
  { intros Hwf. unfold listed, found. rewrite <- !list_fmap_compose.
    rewrite (list_fmap_ext _ fst).
    - apply NoDup_fst_map_to_list.
    - intros i [k w] Hi. cbn. apply Hwf.
      apply list_elem_of_lookup_2, elem_of_map_to_list in Hi.
      by apply map_lookup_filter_Some in Hi as [Hw _]. }
  unfold fetch_worksheets.
  rewrite (bind_Ok _ _ _ listed m).
  2:{ rewrite (bind_Ok _ _ _ _ _ Hmap). done. }
  cbv beta zeta.
  assert (concat (omap wi_group_permissions listed) = []) as ->.
  { unfold listed. by rewrite omap_fmap_None. }
  assert (forall usr,
            usr ∈ filter (fun usr => user_id usr
                                     ∈ (list_to_set (wi_owner_id <$> listed) : gset string))
                         (users m)
            <-> usr ∈ users m
                /\ exists info, info ∈ listed /\ wi_owner_id info = user_id usr) as Husers.
  { intros usr. rewrite list_elem_of_filter, elem_of_list_to_set, list_elem_of_fmap.
    split.
    - intros [(info & Ho & Hi) Hin]. split; [done|]. by exists info.
    - intros [Hin (info & Hi & Ho)]. split; [|done]. by exists info. }
  case_decide as Hempty.
  - eexists. split; [reflexivity|]. cbn. split_and!; [done..|].
    intros usr. split; [by intros ?%elem_of_nil|].
    intros [Hin (info & Hi & Ho)]. exfalso.
    assert (user_id usr ∈ (list_to_set (wi_owner_id <$> listed) : gset string)) as Hel.
    { apply elem_of_list_to_set, list_elem_of_fmap. by exists info. }
    rewrite Hempty in Hel. by apply not_elem_of_empty in Hel.
  - eexists. split; [reflexivity|]. cbn. by split_and!.
Qed.

(** Bob lists ["notes"] twice and ["scratch"]; he holds no permission on
    the latter, [w3], and gets its entry. *)
Lemma fetch_worksheets_by_specs_witness :
  holds GROUP_OBJECT_PERMISSION_READ m1 (Some bob) w3 = false /\
  exists doc,
    fetch_worksheets (as_user bob) ["ignored"] ["notes"; "notes"; "scratch"] None m1
    = (Ok doc, m1) /\
    to_dict (without_items w3) [] ∈ list_data doc /\
    list_permissions doc = [].
Proof.
  split; [reflexivity|].
  destruct (fetch_worksheets_by_specs (as_user bob) ["ignored"]
              ["notes"; "notes"; "scratch"] None m1 ["w1"; "w1"; "w3"])
    as (doc & Hdoc & _ & Hdata & Hperm & _).
  - discriminate.
  - repeat constructor.
  - exists doc. split; [exact Hdoc|]. split; [|exact Hperm].
    apply Hdata. exists "w3", w3. split; [|done].
    apply list_elem_of_In. cbn. auto.
Defined.

(** X17.  Posting items without [replace], when the caller may write every
    worksheet that an item targets, succeeds for the whole batch: the posted
    items are returned, and afterwards every worksheet holds its former
    items followed by the posted items that target it, in posted order;
    worksheets that no item targets keep their items. *)
Theorem create_worksheet_items_appends_batch `{Collaborators} `{DictOrder}
    (req : Request) (u : User) (new_items : list PostedItem) (m : Model) :
  user req = Some u ->
  (forall i, i ∈ new_items -> writable req m (worksheet_uuid i)) ->
  exists m',
    create_worksheet_items req false new_items m = (Ok new_items, m') /\
    forall k w, worksheets m !! k = Some w ->
      exists w', worksheets m' !! k = Some w'
                 /\ items w' = items w ++ (as_tuple <$> items_for k new_items)
                 /\ frozen w' = frozen w.
Proof.
  intros Hu Hwr.
  destruct (worksheet_to_items_fold new_items [] [] NoDup_nil_2 (fun _ => eq_refl))
    as [Hnd Hassoc].
  fold (worksheet_to_items new_items) in Hnd, Hassoc. cbn [app] in Hassoc.
  pose proof (iteritems_Permutation _ (worksheet_to_items new_items)) as Hperm.
  assert (NoDup (iteritems (worksheet_to_items new_items)).*1) as Hnd'
    by by rewrite Hperm.
  destruct (for_each_groups_append req u (iteritems (worksheet_to_items new_items))
              m Hu Hnd')
    as (m' & Hrun & _ & Hitems).
  { intros k Hk. apply list_elem_of_fmap in Hk as ([k' its] & -> & Hin).
    rewrite Hperm in Hin.
    apply elem_of_assoc in Hin; [|done]. rewrite Hassoc in Hin. cbn.
    destruct (items_for k' new_items) as [|i its'] eqn:Hfor; [done|].
    assert (i ∈ items_for k' new_items) as Hi by (rewrite Hfor; left).
    apply list_elem_of_filter in Hi as [<- Hi]. by apply Hwr. }
  exists m'. split.
  - unfold create_worksheet_items. by rewrite (bind_Ok _ _ _ _ _ Hrun).
  - intros k w Hw. destruct (Hitems k w Hw) as (w' & Hw' & Hits & _ & _ & Hfr).
    exists w'. split_and!; [done| |done].
    rewrite Hits, (assoc_Permutation k _ _ Hnd Hperm), Hassoc.
    by destruct (items_for k new_items).
Qed.

(** Alice posts two items for [w1] and one for [w3], interleaved. *)
Lemma create_worksheet_items_appends_batch_witness :
  exists m',
    create_worksheet_items (as_user alice) false
      [post "w1" "a"; post "w3" "b"; post "w1" "c"] m1
    = (Ok [post "w1" "a"; post "w3" "b"; post "w1" "c"], m') /\
    (exists w', worksheets m' !! "w1" = Some w'
                /\ items w' = [note; as_tuple (post "w1" "a"); as_tuple (post "w1" "c")]) /\
    (exists w', worksheets m' !! "w3" = Some w'
                /\ items w' = [as_tuple (post "w3" "b")]).
Proof.
  destruct (create_worksheet_items_appends_batch (as_user alice) alice
              [post "w1" "a"; post "w3" "b"; post "w1" "c"] m1 eq_refl)
    as (m' & Hrun & Hitems).
  - intros i Hi. apply list_elem_of_In in Hi. destruct Hi as [<-|[<-|[<-|[]]]].
    + by exists w1.
    + by exists w3.
    + by exists w1.
  - exists m'. split; [exact Hrun|]. split.
    + destruct (Hitems "w1" w1 eq_refl) as (w' & Hw' & Hits & _). by exists w'.
    + destruct (Hitems "w3" w3 eq_refl) as (w' & Hw' & Hits & _). by exists w'.
Defined.

(** X18.  [set_worksheet_permissions] stores the posted grants in posted
    order.  For the owner of every worksheet named in the batch it succeeds,
    returns the posted grants and leaves the worksheets as they were; for
    each pair of worksheet and group the grant that is posted last is the
    one in force afterwards. *)
Theorem set_worksheet_permissions_last_wins `{Collaborators} (req : Request) (u : User)
    (new_permissions : list PostedPermission) (m : Model) :
  user req = Some u ->
  (forall q, q ∈ new_permissions ->
     exists w, worksheets m !! object_uuid q = Some w
               /\ owner_id w = user_id u /\ uuid w = object_uuid q) ->
  exists m',
    set_worksheet_permissions req new_permissions m = (Ok new_permissions, m') /\
    worksheets m' = worksheets m /\
    forall l1 q l2,
      new_permissions = l1 ++ q :: l2 ->
      (forall q', q' ∈ l2 ->
         (object_uuid q', group_uuid q') <> (object_uuid q, group_uuid q)) ->
      granted m' (object_uuid q) (group_uuid q) (permission q).
Proof.
  intros Hu Hall.
  exists (fold_left (fun m q => grant_stored q m) new_permissions m). split_and!.
  - unfold set_worksheet_permissions.
    by rewrite (bind_Ok _ _ _ _ _ (set_worksheet_permissions_owner _ _ _ _ Hu Hall)).
  - apply fold_grant_stored_worksheets.
  - intros l1 q l2 -> Hlast. rewrite fold_left_app. cbn.
    apply fold_grant_stored_granted; [done|]. apply grant_stored_granted.
Qed.

(** Alice grants the editors All on [w1] and then takes it back to Read in
    the same batch. *)
Lemma set_worksheet_permissions_last_wins_witness :
  exists m',
    set_worksheet_permissions (as_user alice)
      [mkPostedPermission "w1" "g-editors" GROUP_OBJECT_PERMISSION_ALL;
       mkPostedPermission "w1" "g-editors" GROUP_OBJECT_PERMISSION_READ] m_groups
    = (Ok [mkPostedPermission "w1" "g-editors" GROUP_OBJECT_PERMISSION_ALL;
           mkPostedPermission "w1" "g-editors" GROUP_OBJECT_PERMISSION_READ], m') /\
    granted m' "w1" "g-editors" GROUP_OBJECT_PERMISSION_READ.
Proof.
  destruct (set_worksheet_permissions_last_wins (as_user alice) alice
              [mkPostedPermission "w1" "g-editors" GROUP_OBJECT_PERMISSION_ALL;
               mkPostedPermission "w1" "g-editors" GROUP_OBJECT_PERMISSION_READ]
              m_groups eq_refl)
    as (m' & Hrun & _ & Hlast).
  - intros q Hq. apply list_elem_of_In in Hq. destruct Hq as [<-|[<-|[]]]; by exists w1.
  - exists m'. split; [exact Hrun|].
    apply (Hlast [mkPostedPermission "w1" "g-editors" GROUP_OBJECT_PERMISSION_ALL]
                 (mkPostedPermission "w1" "g-editors" GROUP_OBJECT_PERMISSION_READ) []);
      [reflexivity|].
    by intros q' ?%elem_of_nil.
Defined.

(** X19.  When [create_worksheets] succeeds, it answers with the posted
    names in posted order, each paired with a uuid under which a worksheet is
    stored afterwards, and every worksheet that was stored before is still
    stored. *)
Theorem create_worksheets_answer `{Collaborators} (req : Request) (names : list string)
    (m : Model) (created_pairs : list (string * string)) (m' : Model) :
  create_worksheets req names m = (Ok created_pairs, m') ->
  created_pairs.*1 = names /\
  (forall n wuuid, (n, wuuid) ∈ created_pairs -> is_Some (worksheets m' !! wuuid)) /\
  (forall k, is_Some (worksheets m !! k) -> is_Some (worksheets m' !! k)).
Proof.
  unfold create_worksheets. revert m created_pairs.
  induction names as [|n names IH]; intros m created_pairs Hrun.
  - injection Hrun as <- <-. split_and!; [done| |done]. by intros n w ?%elem_of_nil.
  - cbn [map_M] in Hrun.
    apply bind_Ok_inv in Hrun as ([n0 g] & m1 & Hfirst & Hrun).
    apply bind_Ok_inv in Hfirst as (g0 & m0 & Hnew & Hret).
    injection Hret as <- <- <-.
    apply bind_Ok_inv in Hrun as (rest & m2 & Hrest & Hret).
    injection Hret as <- <-.
    destruct (new_worksheet_keeps_keys _ _ _ _ _ Hnew) as [Hg Hkeys1].
    destruct (IH _ _ Hrest) as (Hnames & Hstored & Hkeys2).
    split_and!.
    + cbn. by rewrite Hnames.
    + intros n' w' [[= -> ->]|Hin]%elem_of_cons; [by apply Hkeys2|by eapply Hstored].
    + intros k Hk. by apply Hkeys2, Hkeys1.
Qed.

(** Alice creates two worksheets in one request. *)
Lemma create_worksheets_answer_witness :
  (create_worksheets (as_user alice) ["plans"; "drafts"] m1).1
  = Ok [("plans", "0x0"); ("drafts", "0x1")] /\
  is_Some (worksheets (create_worksheets (as_user alice) ["plans"; "drafts"] m1).2
             !! "0x1").
Proof.
  assert (create_worksheets (as_user alice) ["plans"; "drafts"] m1
          = (Ok [("plans", "0x0"); ("drafts", "0x1")],
             (create_worksheets (as_user alice) ["plans"; "drafts"] m1).2)) as Hrun
    by (vm_compute; reflexivity).
  destruct (create_worksheets_answer (as_user alice) ["plans"; "drafts"] m1 _ _ Hrun)
    as (_ & Hstored & _).
  split; [by rewrite Hrun|].
  apply (Hstored "drafts" "0x1"). right. left.
Defined.


